(** * PC duration alert: a shallow embedding of the analyzer, the alerter,
      the two entry points and the secrets helper, with their properties.

    Sources embedded here:
    - [src/src/pc_analyzer.py]   (module [PcAnalyzer])
    - [src/src/alerter.py]       (module [Alerting])
    - [src/src/handler.py]       (module [Handler])
    - [src/entrypoint.py]        (module [Entrypoint])
    - [src/samsarafnsecrets.py]  (module [Secrets])

    Conventions.  Python values that come out of [response.json()] are
    modelled by the type [Py.value]; a Python call that may raise is a
    [Py.result]; a [dict] is an association list read first-match.  A
    finite Python float is carried as the rational number it denotes
    ([Q]); the arithmetic on floats rounds to IEEE 754 binary64, ties to
    even ([Py.b64]), as CPython's does, and comparisons are those of the
    rationals denoted. *)

From Stdlib Require Import ZArith QArith Qpower Qabs String Ascii List Bool.
From Stdlib Require Import DecimalString Lia Lqa.
Import ListNotations.

#[local] Set Warnings "-register-all".


Local Open Scope string_scope.
Local Open Scope list_scope.

(* ===================================================================== *)
(** * Python values, exceptions and the few builtins the code relies on  *)
(* ===================================================================== *)

Module Py.

(** Exception classes that can arise in the modelled code. *)
Inductive exn_kind : Type :=
| ValueError
| TypeError
| AttributeError
| KeyError
| JSONDecodeError      (* subclass of ValueError *)
| RequestException     (* requests: network faults and HTTPError *)
| ClientError          (* botocore faults *)
| OverflowError.

Definition exn_kind_eqb (a b : exn_kind) : bool :=
  match a, b with
  | ValueError, ValueError | TypeError, TypeError
  | AttributeError, AttributeError | KeyError, KeyError
  | JSONDecodeError, JSONDecodeError
  | RequestException, RequestException
  | ClientError, ClientError
  | OverflowError, OverflowError => true
  | _, _ => false
  end.

(** [subclass k h]: an exception of class [k] is caught by [except h]. *)
Definition subclass (k h : exn_kind) : bool :=
  exn_kind_eqb k h ||
  match k, h with
  | JSONDecodeError, ValueError => true
  | _, _ => false
  end.

Record exn : Type := mk_exn { exn_class : exn_kind; exn_msg : string }.

Inductive result (A : Type) : Type :=
| Returns (a : A)
| Raises (e : exn).
Arguments Returns {A} a.
Arguments Raises {A} e.

Definition bind {A B : Type} (c : result A) (k : A -> result B) : result B :=
  match c with
  | Returns a => k a
  | Raises e => Raises e
  end.

(** [try: c  except (handlers): h] *)
Definition try_except {A : Type} (c : result A) (handlers : list exn_kind)
           (h : exn -> result A) : result A :=
  match c with
  | Returns a => Returns a
  | Raises e =>
      if existsb (subclass (exn_class e)) handlers then h e else Raises e
  end.

(** [try: c  except Exception as e: h e] *)
Definition try_except_Exception {A : Type} (c : result A)
           (h : exn -> result A) : result A :=
  match c with
  | Returns a => Returns a
  | Raises e => h e
  end.

(** JSON-shaped Python values. *)
Inductive value : Type :=
| VNone
| VBool (b : bool)
| VInt (z : Z)
| VFloat (q : Q)
| VStr (s : string)
| VList (l : list value)
| VDict (d : list (string * value)).

Definition type_name (v : value) : string :=
  match v with
  | VNone => "NoneType"
  | VBool _ => "bool"
  | VInt _ => "int"
  | VFloat _ => "float"
  | VStr _ => "str"
  | VList _ => "list"
  | VDict _ => "dict"
  end.

(** Python truthiness, as tested by [if x], [not x] and [x or y]. *)
Definition truthy (v : value) : bool :=
  match v with
  | VNone => false
  | VBool b => b
  | VInt z => negb (Z.eqb z 0%Z)
  | VFloat q => negb (Qeq_bool q 0%Q)
  | VStr s => negb (String.eqb s "")
  | VList l => match l with [] => false | _ => true end
  | VDict d => match d with [] => false | _ => true end
  end.

(** [x or y] *)
Definition py_or (x y : value) : value := if truthy x then x else y.

(** [v == "literal"] for a string literal. *)
Definition eq_str (v : value) (lit : string) : bool :=
  match v with
  | VStr s => String.eqb s lit
  | _ => false
  end.

Fixpoint assoc {V : Type} (k : string) (d : list (string * V)) : option V :=
  match d with
  | [] => None
  | (k', v) :: d' => if String.eqb k k' then Some v else assoc k d'
  end.

(** [repr(s)] of a string.  The quote is the apostrophe, or the double
    quote when the string has an apostrophe and no double quote; the
    quote in use and the backslash are escaped, tab, line feed and
    carriage return are written [\t], [\n], [\r], the other control
    characters [\xhh].  The bytes of a character outside ASCII are kept
    as they are, which is what [repr] does with a printable character. *)
Definition backslash : ascii := ascii_of_nat 92.
Definition double_quote : ascii := ascii_of_nat 34.

Definition hex_digit (n : N) : ascii :=
  if (n <? 10)%N then ascii_of_N (48 + n) else ascii_of_N (87 + n).

Definition repr_char (quote c : ascii) : string :=
  let n := N_of_ascii c in
  if Ascii.eqb c quote || Ascii.eqb c backslash
  then String backslash (String c EmptyString)
  else if (n =? 9)%N then String backslash "t"
  else if (n =? 10)%N then String backslash "n"
  else if (n =? 13)%N then String backslash "r"
  else if (n <? 32)%N || (n =? 127)%N
  then String backslash
         (String "x" (String (hex_digit (n / 16))
                             (String (hex_digit (n mod 16)) EmptyString)))
  else String c EmptyString.

Fixpoint has_char (c : ascii) (s : string) : bool :=
  match s with
  | EmptyString => false
  | String c' s' => Ascii.eqb c c' || has_char c s'
  end.

Fixpoint repr_chars (quote : ascii) (s : string) : string :=
  match s with
  | EmptyString => EmptyString
  | String c s' => repr_char quote c ++ repr_chars quote s'
  end.

Definition py_repr (s : string) : string :=
  let quote :=
    if has_char "'" s && negb (has_char double_quote s)
    then double_quote else "'"%char in
  String quote (repr_chars quote s ++ String quote EmptyString).

Fixpoint is_ascii (s : string) : bool :=
  match s with
  | EmptyString => true
  | String c s' => (N_of_ascii c <? 128)%N && is_ascii s'
  end.

Definition no_attribute (v : value) (attr : string) : exn :=
  mk_exn AttributeError
         ("'" ++ type_name v ++ "' object has no attribute '" ++ attr ++ "'").

(** [o.get(k, default)]; only a dict has the method. *)
Definition get (o : value) (k : string) (default : value) : result value :=
  match o with
  | VDict d =>
      Returns (match assoc k d with Some v => v | None => default end)
  | _ => Raises (no_attribute o "get")
  end.

(** [o[k]] for a string key. *)
Definition getitem (o : value) (k : string) : result value :=
  match o with
  | VDict d =>
      match assoc k d with
      | Some v => Returns v
      | None => Raises (mk_exn KeyError (py_repr k))
      end
  | _ => Raises (mk_exn TypeError
                   ("'" ++ type_name o ++ "' object is not subscriptable"))
  end.

(** [s.replace("Z", "+00:00")] on a string. *)
Fixpoint replace_Z (s : string) : string :=
  match s with
  | EmptyString => EmptyString
  | String c s' =>
      if Ascii.eqb c "Z"%char
      then "+00:00" ++ replace_Z s'
      else String c (replace_Z s')
  end.

(** The same call on an arbitrary value: only [str] has [replace]. *)
Definition str_replace_Z (v : value) : result string :=
  match v with
  | VStr s => Returns (replace_Z s)
  | _ => Raises (no_attribute v "replace")
  end.

(** [datetime]: microseconds on the wall clock since the epoch, and the
    UTC offset in microseconds when the object is timezone-aware. *)
Record datetime : Type :=
  mk_datetime { dt_wall : Z; dt_offset : option Z }.

Definition is_aware (d : datetime) : bool :=
  match dt_offset d with Some _ => true | None => false end.

Definition instant (d : datetime) : Z :=
  match dt_offset d with
  | Some off => (dt_wall d - off)%Z
  | None => dt_wall d
  end.

(** [a - b] on datetimes: a [timedelta], here its microseconds. *)
Definition dt_sub (a b : datetime) : result Z :=
  if Bool.eqb (is_aware a) (is_aware b)
  then Returns (instant a - instant b)%Z
  else Raises (mk_exn TypeError
                 "can't subtract offset-naive and offset-aware datetimes").

(** The integer nearest to [q]; ties go to the even neighbour. *)
Definition round_half_even (q : Q) : Z :=
  let n := Qnum q in
  let d := Zpos (Qden q) in
  let f := (n / d)%Z in
  let twice_rest := (2 * (n mod d))%Z in
  if (twice_rest <? d)%Z then f
  else if (d <? twice_rest)%Z then (f + 1)%Z
  else if Z.even f then f else (f + 1)%Z.

(** [floor (log2 q)] for a positive [q]. *)
Definition floor_log2 (q : Q) : Z :=
  let l := (Z.log2 (Qnum q) - Z.log2 (Zpos (Qden q)))%Z in
  if Qle_bool (2 ^ l)%Q q then l else (l - 1)%Z.

(** The exponent of the last place of the binary64 numbers around a
    positive [q]: 53 significant bits, and [2^-1074] as the smallest
    spacing (the subnormal range). *)
Definition ulp_exp (q : Q) : Z := Z.max (floor_log2 q - 52) (-1074).

(** The binary64 number nearest to a positive [q], ties to even. *)
Definition b64_pos (q : Q) : Q :=
  let e := ulp_exp q in
  Qred (inject_Z (round_half_even (q / 2 ^ e)) * 2 ^ e)%Q.

(** The binary64 number nearest to [q], ties to even: the float that a
    correctly rounded operation with exact result [q] returns.  The
    overflow threshold [2^1024] is out of reach of the quantities rounded
    here (a difference of two [datetime] objects is below [2^59]
    microseconds) and is tested where a conversion can reach it
    ([Handler.py_float]). *)
Definition b64 (q : Q) : Q :=
  match Qnum q with
  | Z0 => 0%Q
  | Zpos _ => b64_pos q
  | Zneg _ => (- b64_pos (- q))%Q
  end.

(** [x / y] on floats (and on a float and an [int] of at most 53 bits). *)
Definition fdiv (x y : Q) : Q := b64 (x / y)%Q.

(** [round(q, 2)] on a float: the decimal with two places nearest to the
    float, ties to even, then the float nearest to that decimal. *)
Definition round2 (q : Q) : Q :=
  b64 (inject_Z (round_half_even (q * 100)) / 100)%Q.

(** [s.split(",")] *)
Fixpoint split_comma_from (s : string) (current : string) : list string :=
  match s with
  | EmptyString => [current]
  | String c s' =>
      if Ascii.eqb c ","%char
      then current :: split_comma_from s' EmptyString
      else split_comma_from s' (current ++ String c EmptyString)
  end.

Definition split_comma (s : string) : list string :=
  split_comma_from s EmptyString.

(** [timedelta.total_seconds()]: the microseconds divided by [10**6], an
    [int / int] division, correctly rounded. *)
Definition total_seconds (micros : Z) : Q :=
  b64 (inject_Z micros / 1000000)%Q.

Arguments b64 : simpl never.
Arguments fdiv : simpl never.
Arguments round2 : simpl never.
Arguments total_seconds : simpl never.

End Py.

Import Py.

Notation "x <- c ;; k" := (Py.bind c (fun x => k))
  (at level 61, c at next level, right associativity).

(* ===================================================================== *)
(** * src/src/pc_analyzer.py                                              *)
(* ===================================================================== *)

Module PcAnalyzer.

Record PCAnalysisResult : Type := mk_result {
  driver_id : value;
  driver_name : value;
  is_currently_in_pc : bool;
  consecutive_pc_hours : Q;
  pc_start_time : option datetime;
  exceeds_threshold : bool;
  threshold_hours : Q
}.

(** [PCAnalysisResult.to_dict]; [datetime.isoformat] is CPython's. *)
Definition to_dict (isoformat : datetime -> string) (r : PCAnalysisResult)
  : value :=
  VDict [("driver_id", driver_id r);
         ("driver_name", driver_name r);
         ("is_currently_in_pc", VBool (is_currently_in_pc r));
         ("consecutive_pc_hours", VFloat (round2 (consecutive_pc_hours r)));
         ("pc_start_time",
           match pc_start_time r with
           | Some d => VStr (isoformat d)
           | None => VNone
           end);
         ("exceeds_threshold", VBool (exceeds_threshold r));
         ("threshold_hours", VFloat (threshold_hours r))].

Definition PC_STATUS : string := "personalConveyance".

Section Analyzer.

(** [datetime.fromisoformat] belongs to CPython, not to this
    repository: it is a parameter, [None] standing for [ValueError]. *)
Variable fromisoformat : string -> option datetime.

Definition parse_iso (s : string) : result datetime :=
  match fromisoformat s with
  | Some d => Returns d
  | None =>
      Raises (mk_exn ValueError ("Invalid isoformat string: " ++ py_repr s))
  end.

(** [self.threshold_hours], set by [__init__]. *)
Variable self_threshold_hours : Q.

(** [PCAnalyzer.analyze_clock], with [current_time] already supplied
    (both callers in the repository pass it). *)
Definition analyze_clock (hos_clock : value) (current_time : datetime)
  : result PCAnalysisResult :=
  driver <- get hos_clock "driver" (VDict []) ;;
  driver_id <- get driver "id" (VStr "unknown") ;;
  driver_name <- get driver "name" (VStr "Unknown Driver") ;;
  current_duty_status <- get hos_clock "currentDutyStatus" (VDict []) ;;
  status_type <- get current_duty_status "hosStatusType" (VStr "") ;;
  status_start_str <-
    get current_duty_status "hosStatusStartTime" (VStr "") ;;
  let is_currently_in_pc := eq_str status_type PC_STATUS in
  if negb is_currently_in_pc || negb (truthy status_start_str) then
    Returns (mk_result driver_id driver_name false 0%Q None false
                       self_threshold_hours)
  else
    match (s <- str_replace_Z status_start_str ;; parse_iso s) with
    | Raises e =>
        if existsb (subclass (exn_class e)) [ValueError; TypeError] then
          Returns (mk_result driver_id driver_name true 0%Q None false
                             self_threshold_hours)
        else Raises e
    | Returns pc_start_time =>
        duration <- dt_sub current_time pc_start_time ;;
        let consecutive_pc_hours := fdiv (total_seconds duration) 3600 in
        Returns (mk_result driver_id driver_name true
                           consecutive_pc_hours (Some pc_start_time)
                           (Qle_bool self_threshold_hours
                                     consecutive_pc_hours)
                           self_threshold_hours)
    end.

(** [PCAnalyzer.analyze_all_clocks]: the loop appends to [results]. *)
Fixpoint analyze_all_clocks_loop (hos_clocks : list value)
         (current_time : datetime) (results : list PCAnalysisResult)
  : result (list PCAnalysisResult) :=
  match hos_clocks with
  | [] => Returns results
  | clock :: rest =>
      r <- analyze_clock clock current_time ;;
      analyze_all_clocks_loop rest current_time (results ++ [r])
  end.

Definition analyze_all_clocks (hos_clocks : list value)
           (current_time : datetime) : result (list PCAnalysisResult) :=
  analyze_all_clocks_loop hos_clocks current_time [].

End Analyzer.

(** [PCAnalyzer.get_alerts]: [[r for r in results if r.exceeds_threshold]] *)
Fixpoint get_alerts (results : list PCAnalysisResult)
  : list PCAnalysisResult :=
  match results with
  | [] => []
  | r :: rest =>
      if exceeds_threshold r then r :: get_alerts rest else get_alerts rest
  end.

End PcAnalyzer.


(* ===================================================================== *)
(** * Observable effects: standard output and the network                *)
(* ===================================================================== *)

Module Eff.

Inductive channel : Type := Console | Webhook | Email.

Definition channel_eqb (a b : channel) : bool :=
  match a, b with
  | Console, Console | Webhook, Webhook | Email, Email => true
  | _, _ => false
  end.

(** A piece of an f-string: literal text, [str(v)], or [format(v, ".2f")]. *)
Inductive fragment : Type :=
| Lit (s : string)
| Shown (v : value)
| Fixed2 (v : value).

(** What a run leaves behind.  [Sent] and [Call] are instrumentation:
    they record that [send_alert], respectively a channel's
    [_send_*_alert] method, was entered with the given payload. *)
Inductive event : Type :=
| Sent (alert_data : value)
| Call (c : channel) (alert_data : value)
| Stdout (line : list fragment)
| Traceback (e : exn)
| Post (url : value) (payload : value).

Definition trace : Type := list event.

(** A computation that may raise and that appends to the trace; what was
    emitted before an exception stays emitted. *)
Definition io (A : Type) : Type := trace -> result A * trace.

Definition ret {A : Type} (a : A) : io A := fun t => (Returns a, t).

Definition lift {A : Type} (r : result A) : io A := fun t => (r, t).

Definition emit (e : event) : io unit := fun t => (Returns tt, t ++ [e]).

Definition iobind {A B : Type} (c : io A) (k : A -> io B) : io B :=
  fun t =>
    match c t with
    | (Returns a, t') => k a t'
    | (Raises e, t') => (Raises e, t')
    end.

(** [try: c  except Exception as e: h e] *)
Definition try_io {A : Type} (c : io A) (h : exn -> io A) : io A :=
  fun t =>
    match c t with
    | (Returns a, t') => (Returns a, t')
    | (Raises e, t') => h e t'
    end.

(** The reply of the outside world to one [requests.post]. *)
Inductive http_reply : Type :=
| Fault (e : exn)                          (* the call itself raised *)
| Status (code : Z) (http_error : string). (* a response came back *)

(** [format(v, ".2f")]: numbers (and booleans) only; an [int] is
    converted to a float first, and may be too large for that. *)
Definition format_2f (v : value) : result fragment :=
  match v with
  | VInt z =>
      if Qle_bool (2 ^ 1024) (Qabs (b64 (inject_Z z)))
      then Raises (mk_exn OverflowError "int too large to convert to float")
      else Returns (Fixed2 v)
  | VFloat _ | VBool _ => Returns (Fixed2 v)
  | VStr _ =>
      Raises (mk_exn ValueError
                "Unknown format code 'f' for object of type 'str'")
  | _ =>
      Raises (mk_exn TypeError
                ("unsupported format string passed to " ++ type_name v
                 ++ ".__format__"))
  end.

Definition all_str (l : list value) : bool :=
  forallb (fun v => match v with VStr _ => true | _ => false end) l.

(** The complaint of [str.join] about the first item that is not a
    string. *)
Fixpoint first_non_str (l : list value) (i : nat) : option (nat * value) :=
  match l with
  | [] => None
  | VStr _ :: rest => first_non_str rest (S i)
  | v :: _ => Some (i, v)
  end.

Definition join_type_error (l : list value) : exn :=
  mk_exn TypeError
    match first_non_str l 0 with
    | Some (i, v) =>
        "sequence item " ++ NilEmpty.string_of_uint (Nat.to_uint i)
        ++ ": expected str instance, " ++ type_name v ++ " found"
    | None => ""
    end.

(** [', '.join(v)]: an iterable of strings. *)
Definition join_comma (v : value) : result fragment :=
  match v with
  | VStr _ | VDict _ => Returns (Shown v)
  | VList l =>
      if all_str l then Returns (Shown v)
      else Raises (join_type_error l)
  | _ => Raises (mk_exn TypeError "can only join an iterable")
  end.

Definition newline : string := String (ascii_of_nat 10) EmptyString.

(** ["=" * 60] *)
Definition rule60 : string := String.concat "" (repeat "=" 60).

(** Keyed update of a dict, keeping the position of an existing key. *)
Fixpoint dict_set (d : list (string * value)) (k : string) (v : value)
  : list (string * value) :=
  match d with
  | [] => [(k, v)]
  | (k', v') :: d' =>
      if String.eqb k k' then (k, v) :: d' else (k', v') :: dict_set d' k v
  end.

(** [{**base, **extra}] *)
Definition dict_merge (base : list (string * value)) (extra : value)
  : result value :=
  match extra with
  | VDict items =>
      Returns (VDict (fold_left (fun acc kv => dict_set acc (fst kv) (snd kv))
                                items base))
  | _ => Raises (mk_exn TypeError
                   ("'" ++ type_name extra ++ "' object is not a mapping"))
  end.

End Eff.

Import Eff.

Notation "x <~ c ;; k" := (Eff.iobind c (fun x => k))
  (at level 61, c at next level, right associativity).

Notation "c ;; k" := (Eff.iobind c (fun _ => k))
  (at level 61, right associativity).


(* ===================================================================== *)
(** * src/src/alerter.py                                                  *)
(* ===================================================================== *)

Module Alerting.

(** [AlertConfig]; the dataclass does not check its annotations, so the
    two destinations are whatever value the caller stored. *)
Record AlertConfig : Type := mk_config {
  webhook_url : value;
  email_recipients : value;
  console_output : bool
}.

(** The dict built by [send_alert]. *)
Record send_result : Type := mk_send_result {
  console : bool;
  webhook : bool;
  email : bool;
  errors : list string
}.

(** The dict built by [send_bulk_alerts]. *)
Record bulk_summary : Type := mk_bulk {
  total_alerts : nat;
  successful : nat;
  failed : nat;
  results : list send_result
}.

Definition set_console (r : send_result) : send_result :=
  mk_send_result true (webhook r) (email r) (errors r).

Definition set_webhook (r : send_result) : send_result :=
  mk_send_result (console r) true (email r) (errors r).

Definition set_email (r : send_result) : send_result :=
  mk_send_result (console r) (webhook r) true (errors r).

(** [results["errors"].append(msg)] *)
Definition append_error (r : send_result) (msg : string) : send_result :=
  mk_send_result (console r) (webhook r) (email r) (errors r ++ [msg]).

(** [response.raise_for_status()] *)
Definition raise_for_status (code : Z) (http_error : string) : result unit :=
  if ((400 <=? code)%Z && (code <? 600)%Z)%bool
  then Raises (mk_exn RequestException http_error)
  else Returns tt.

Section Alerter.

(** The outside world: the reply to a POST and the reading of the clock
    may depend on everything that happened before. *)
Variable http_post : trace -> value -> value -> http_reply.
Variable utcnow_iso : trace -> string.

(** [self.config] *)
Variable config : AlertConfig.

Definition now_iso : io string := fun t => (Returns (utcnow_iso t), t).

(** [requests.post(url, json=payload, headers=..., timeout=30)] *)
Definition requests_post (url payload : value) : io (Z * string) :=
  fun t =>
    match http_post t url payload with
    | Fault e => (Raises e, t ++ [Post url payload])
    | Status code http_error =>
        (Returns (code, http_error), t ++ [Post url payload])
    end.

(** [Alerter._send_console_alert]; the emoji of the title line is left
    out of the literal. *)
Definition _send_console_alert (alert_data : value) : io unit :=
  emit (Call Console alert_data) ;;
  driver_name <~ lift (get alert_data "driver_name" (VStr "Unknown")) ;;
  pc_hours <~ lift (get alert_data "consecutive_pc_hours" (VInt 0)) ;;
  threshold <~ lift (get alert_data "threshold_hours" (VInt 16)) ;;
  pc_start <~ lift (get alert_data "pc_start_time" (VStr "Unknown")) ;;
  emit (Stdout [Lit rule60]) ;;
  emit (Stdout [Lit "PC DURATION ALERT"]) ;;
  emit (Stdout [Lit rule60]) ;;
  emit (Stdout [Lit "Driver: "; Shown driver_name]) ;;
  driver_id <~ lift (get alert_data "driver_id" (VStr "Unknown")) ;;
  emit (Stdout [Lit "Driver ID: "; Shown driver_id]) ;;
  hours <~ lift (format_2f pc_hours) ;;
  emit (Stdout [Lit "Consecutive PC Hours: "; hours]) ;;
  emit (Stdout [Lit "Threshold: "; Shown threshold; Lit " hours"]) ;;
  emit (Stdout [Lit "PC Started: "; Shown pc_start]) ;;
  now <~ now_iso ;;
  emit (Stdout [Lit "Alert Time: "; Lit now]) ;;
  emit (Stdout [Lit rule60]).

(** [Alerter._send_webhook_alert] *)
Definition _send_webhook_alert (alert_data : value) : io unit :=
  emit (Call Webhook alert_data) ;;
  if negb (truthy (webhook_url config)) then ret tt
  else
    now <~ now_iso ;;
    payload <~ lift (dict_merge [("alert_type", VStr "pc_duration_exceeded");
                                 ("timestamp", VStr now)] alert_data) ;;
    response <~ requests_post (webhook_url config) payload ;;
    lift (raise_for_status (fst response) (snd response)) ;;
    emit (Stdout [Lit "Webhook alert sent successfully to ";
                 Shown (webhook_url config)]).

(** [Alerter._send_email_alert]: the placeholder that only logs. *)
Definition _send_email_alert (alert_data : value) : io unit :=
  emit (Call Email alert_data) ;;
  if negb (truthy (email_recipients config)) then ret tt
  else
    driver_name <~ lift (get alert_data "driver_name" (VStr "Unknown")) ;;
    pc_hours <~ lift (get alert_data "consecutive_pc_hours" (VInt 0)) ;;
    joined <~ lift (join_comma (email_recipients config)) ;;
    emit (Stdout [Lit "Email alert would be sent to: "; joined]) ;;
    emit (Stdout [Lit "   Subject: PC Duration Alert - ";
                      Shown driver_name]) ;;
    hours <~ lift (format_2f pc_hours) ;;
    emit (Stdout [Lit "   Body: Driver has been in PC for "; hours;
                 Lit " hours"]).

(** [Alerter.send_alert] *)
Definition send_alert (alert_data : value) : io send_result :=
  emit (Sent alert_data) ;;
  let results := mk_send_result false false false [] in
  results <~
    (if console_output config then
       try_io (_send_console_alert alert_data ;;
               ret (set_console results))
              (fun e => ret (append_error results
                                          ("Console error: " ++ exn_msg e)))
     else ret results) ;;
  results <~
    (if truthy (webhook_url config) then
       try_io (_send_webhook_alert alert_data ;;
               ret (set_webhook results))
              (fun e => ret (append_error results
                                          ("Webhook error: " ++ exn_msg e)))
     else ret results) ;;
  results <~
    (if truthy (email_recipients config) then
       try_io (_send_email_alert alert_data ;;
               ret (set_email results))
              (fun e => ret (append_error results
                                          ("Email error: " ++ exn_msg e)))
     else ret results) ;;
  ret results.

(** The [for] loop of [Alerter.send_bulk_alerts], on the summary built so
    far. *)
Fixpoint send_bulk_alerts_loop (alerts : list value) (summary : bulk_summary)
  : io bulk_summary :=
  match alerts with
  | [] => ret summary
  | alert_data :: rest =>
      result <~ send_alert alert_data ;;
      let summary :=
        mk_bulk (total_alerts summary) (successful summary) (failed summary)
                (results summary ++ [result]) in
      let summary :=
        match errors result with
        | [] => mk_bulk (total_alerts summary) (successful summary + 1)
                        (failed summary) (results summary)
        | _ :: _ => mk_bulk (total_alerts summary) (successful summary)
                            (failed summary + 1) (results summary)
        end in
      send_bulk_alerts_loop rest summary
  end.

(** [Alerter.send_bulk_alerts] *)
Definition send_bulk_alerts (alerts : list value) : io bulk_summary :=
  send_bulk_alerts_loop alerts (mk_bulk (length alerts) 0 0 []).

(** [Alerter.send_summary] *)
Definition send_summary (analysis_summary : value) : io unit :=
  if console_output config then
    emit (Stdout [Lit newline; Lit rule60]) ;;
    emit (Stdout [Lit "PC DURATION ANALYSIS SUMMARY"]) ;;
    emit (Stdout [Lit rule60]) ;;
    checked <~ lift (get analysis_summary "drivers_checked" (VInt 0)) ;;
    emit (Stdout [Lit "Drivers Checked: "; Shown checked]) ;;
    in_pc <~ lift (get analysis_summary "drivers_in_pc" (VInt 0)) ;;
    emit (Stdout [Lit "Drivers in PC: "; Shown in_pc]) ;;
    triggered <~ lift (get analysis_summary "alerts_triggered" (VInt 0)) ;;
    emit (Stdout [Lit "Alerts Triggered: "; Shown triggered]) ;;
    threshold <~ lift (get analysis_summary "threshold_hours" (VInt 16)) ;;
    emit (Stdout [Lit "Threshold: "; Shown threshold; Lit " hours"]) ;;
    emit (Stdout [Lit rule60; Lit newline])
  else ret tt.

End Alerter.

End Alerting.

(* ===================================================================== *)
(** * src/src/handler.py                                                  *)
(* ===================================================================== *)

Module Handler.

Definition DEFAULT_PC_THRESHOLD_HOURS : Q := 16.

(** The dict returned by [get_config]. *)
Record config : Type := mk_cfg {
  pc_threshold_hours : Q;
  driver_tag_ids : value;
  webhook_url : value;
  email_recipients : value
}.

(** The [summary] dict of [main]. *)
Record summary : Type := mk_summary {
  drivers_checked : nat;
  drivers_in_pc : nat;
  alerts_triggered : nat;
  threshold_hours : Q
}.

Definition summary_dict (s : summary) : value :=
  VDict [("drivers_checked", VInt (Z.of_nat (drivers_checked s)));
         ("drivers_in_pc", VInt (Z.of_nat (drivers_in_pc s)));
         ("alerts_triggered", VInt (Z.of_nat (alerts_triggered s)));
         ("threshold_hours", VFloat (threshold_hours s))].

(** The four shapes of the response body. *)
Inductive response_body : Type :=
| MissingToken (error : string)
| NoDrivers
| Success (s : summary) (alerts : list value)
          (alert_delivery : option Alerting.bulk_summary)
          (all_pc_drivers : option (list value))
| Failure (error : string).

Record response : Type := mk_response {
  statusCode : Z;
  body : response_body
}.

(** [float(v)].  An [int] is rounded to the nearest float, and is too
    large when that is [2^1024] or more; the conversion of a string is
    CPython's ([float_of_string], [None] standing for a string that is
    not a number). *)
Definition py_float (float_of_string : string -> option Q) (v : value)
  : result Q :=
  match v with
  | VFloat q => Returns q
  | VInt z =>
      if Qle_bool (2 ^ 1024) (Qabs (b64 (inject_Z z)))
      then Raises (mk_exn OverflowError "int too large to convert to float")
      else Returns (b64 (inject_Z z))
  | VBool b => Returns (if b then 1 else 0)
  | VStr s =>
      match float_of_string s with
      | Some q => Returns q
      | None =>
          Raises (mk_exn ValueError
                    ("could not convert string to float: " ++ py_repr s))
      end
  | _ =>
      Raises (mk_exn TypeError
                ("float() argument must be a string or a real number, not '"
                 ++ type_name v ++ "'"))
  end.

(** [json.loads(s)] on a string; the parser is CPython's. *)
Definition loads (json_loads : string -> option value) (s : string)
  : result value :=
  match json_loads s with
  | Some v => Returns v
  | None => Raises (mk_exn JSONDecodeError "Expecting value")
  end.

(** [os.environ.get(k, default)] *)
Definition environ_get (environ : list (string * string)) (k : string)
           (default : value) : value :=
  match assoc k environ with
  | Some s => VStr s
  | None => default
  end.

Section Run.

Variable fromisoformat : string -> option datetime.
Variable isoformat : datetime -> string.
Variable json_loads : string -> option value.
Variable float_of_string : string -> option Q.

(** [os.environ] *)
Variable environ : list (string * string).

(** The outside world. [get_hos_clocks] stands for
    [SamsaraClient(api_token).get_hos_clocks(tag_ids=...)]. *)
Variable http_post : trace -> value -> value -> http_reply.
Variable utcnow : trace -> datetime.
Variable get_hos_clocks : trace -> value -> value -> result (list value).

(** [body.get(k) or os.environ.get(K, "").split(",")
     if os.environ.get(K) else None] *)
Definition list_setting (body : value) (k K : string) : result value :=
  if truthy (environ_get environ K VNone) then
    from_body <- get body k VNone ;;
    Returns (py_or from_body
               (VList (map VStr
                  (split_comma
                     match assoc K environ with
                     | Some s => s
                     | None => EmptyString
                     end))))
  else Returns VNone.

(** [get_config] *)
Definition get_config (event : value) : result config :=
  body <- get event "body" (VDict []) ;;
  body <- match body with
          | VStr s =>
              try_except (loads json_loads s) [JSONDecodeError; TypeError]
                         (fun _ => Returns (VDict []))
          | _ => Returns body
          end ;;
  from_body <- get body "pc_threshold_hours" VNone ;;
  pc_threshold_hours <-
    py_float float_of_string
      (py_or from_body
             (environ_get environ "PC_THRESHOLD_HOURS"
                          (VFloat DEFAULT_PC_THRESHOLD_HOURS))) ;;
  driver_tag_ids <- list_setting body "driver_tag_ids" "DRIVER_TAG_IDS" ;;
  url_from_body <- get body "webhook_url" VNone ;;
  let webhook_url :=
    py_or url_from_body (environ_get environ "WEBHOOK_URL" VNone) in
  email_recipients <-
    list_setting body "email_recipients" "EMAIL_RECIPIENTS" ;;
  Returns (mk_cfg pc_threshold_hours driver_tag_ids webhook_url
                  email_recipients).

(** The [summary] built from the snapshot and its analysis results. *)
Definition summary_of (threshold : Q) (hos_clocks : list value)
           (results : list PcAnalyzer.PCAnalysisResult) : summary :=
  let drivers_in_pc := filter PcAnalyzer.is_currently_in_pc results in
  let alerts := PcAnalyzer.get_alerts results in
  mk_summary (length hos_clocks) (length drivers_in_pc) (length alerts)
             threshold.

(** Steps 2 to 5 of [main] and the response, for a non-empty snapshot. *)
Definition analyze_and_alert (event : value) (cfg : config)
           (hos_clocks : list value) (current_time : datetime)
  : io response :=
  let alert_config := Alerting.mk_config (webhook_url cfg)
                                         (email_recipients cfg) true in
  let utcnow_iso := fun t => isoformat (utcnow t) in
  emit (Stdout [Lit newline; Lit "Analyzing PC duration..."]) ;;
  results <~ lift (PcAnalyzer.analyze_all_clocks
                     fromisoformat (pc_threshold_hours cfg)
                     hos_clocks current_time) ;;
  let drivers_in_pc := filter PcAnalyzer.is_currently_in_pc results in
  emit (Stdout [Lit "   ";
               Shown (VInt (Z.of_nat (length drivers_in_pc)));
               Lit " drivers currently in PC"]) ;;
  let alerts := PcAnalyzer.get_alerts results in
  emit (Stdout [Lit "   "; Shown (VInt (Z.of_nat (length alerts)));
               Lit " drivers exceeding ";
               Shown (VFloat (pc_threshold_hours cfg));
               Lit " hour threshold"]) ;;
  alert_results <~
    match alerts with
    | [] => ret None
    | _ :: _ =>
        emit (Stdout [Lit newline; Lit "Sending alerts..."]) ;;
        let alert_payloads := map (PcAnalyzer.to_dict isoformat) alerts in
        sent <~ Alerting.send_bulk_alerts http_post utcnow_iso alert_config
                                          alert_payloads ;;
        ret (Some sent)
    end ;;
  let s := summary_of (pc_threshold_hours cfg) hos_clocks results in
  Alerting.send_summary alert_config (summary_dict s) ;;
  event_body <~ lift (get event "body" (VDict [])) ;;
  detailed <~ lift (get event_body "include_all_pc_drivers" VNone) ;;
  ret (mk_response 200
         (Success s (map (PcAnalyzer.to_dict isoformat) alerts) alert_results
                  (if truthy detailed
                   then Some (map (PcAnalyzer.to_dict isoformat)
                                  drivers_in_pc)
                   else None))).

(** [main] *)
Definition main (event context : value) : io response :=
  emit (Stdout [Lit "Starting PC Duration Alert Monitor..."]) ;;
  api_token <~ lift (get context "samsara_api_token" VNone) ;;
  if negb (truthy api_token) then
    ret (mk_response 401
           (MissingToken "Missing Samsara API token in context"))
  else
    cfg <~ lift (get_config event) ;;
    emit (Stdout [Lit "Configuration:"]) ;;
    emit (Stdout [Lit "   - PC Threshold: ";
                 Shown (VFloat (pc_threshold_hours cfg)); Lit " hours"]) ;;
    emit (Stdout [Lit "   - Driver Tag Filter: ";
                 Shown (py_or (driver_tag_ids cfg) (VStr "All drivers"))]) ;;
    try_io
      (emit (Stdout [Lit newline; Lit "Fetching HOS clocks..."]) ;;
       hos_clocks <~ (fun t => (get_hos_clocks t api_token
                                               (driver_tag_ids cfg), t)) ;;
       emit (Stdout [Lit "   Retrieved clocks for ";
                    Shown (VInt (Z.of_nat (length hos_clocks)));
                    Lit " drivers"]) ;;
       match hos_clocks with
       | [] => ret (mk_response 200 NoDrivers)
       | _ :: _ =>
           current_time <~ (fun t => (Returns (utcnow t), t)) ;;
           analyze_and_alert event cfg hos_clocks current_time
       end)
      (fun e =>
         emit (Stdout [Lit newline; Lit "Error: "; Lit (exn_msg e)]) ;;
         emit (Traceback e) ;;
         ret (mk_response 500 (Failure (exn_msg e)))).

End Run.

End Handler.

(* ===================================================================== *)
(** * src/samsarafnsecrets.py                                             *)
(* ===================================================================== *)

Module Secrets.

(** A computation over the module global [_credentials] and the trace. *)
Definition with_cache (A : Type) : Type :=
  option value -> trace -> result A * option value * trace.

Section Aws.

Variable environ : list (string * string).
Variable json_loads : string -> option value.

(** boto3: creating the STS client, [sts.assume_role(RoleArn=...,
    RoleSessionName=...)], creating the SSM client from the credentials,
    and [ssm.get_parameter(Name=..., WithDecryption=True)]. *)
Variable sts_client : result unit.
Variable assume_role : string -> string -> result value.
Variable ssm_client : value -> result unit.
Variable get_parameter : value -> string -> result value.

(** [os.environ[k]] *)
Definition environ_item (k : string) : result string :=
  match assoc k environ with
  | Some s => Returns s
  | None => Raises (mk_exn KeyError (py_repr k))
  end.

(** The part of [get_credentials] that talks to STS. *)
Definition assume_exec_role : result value :=
  sts <- sts_client ;;
  role_arn <- environ_item "SamsaraFunctionExecRoleArn" ;;
  let session_name :=
    match assoc "SamsaraFunctionName" environ with
    | Some s => s
    | None => "function"
    end in
  res <- assume_role role_arn session_name ;;
  c1 <- getitem res "Credentials" ;;
  access_key <- getitem c1 "AccessKeyId" ;;
  c2 <- getitem res "Credentials" ;;
  secret_key <- getitem c2 "SecretAccessKey" ;;
  c3 <- getitem res "Credentials" ;;
  token <- getitem c3 "SessionToken" ;;
  Returns (VDict [("aws_access_key_id", access_key);
                  ("aws_secret_access_key", secret_key);
                  ("aws_session_token", token)]).

(** [get_credentials] *)
Definition get_credentials (force_refresh : bool) : with_cache value :=
  fun _credentials t =>
    match _credentials, force_refresh with
    | Some cached, false => (Returns cached, _credentials, t)
    | _, _ =>
        match assume_exec_role with
        | Returns creds => (Returns creds, Some creds, t)
        | Raises e => (Raises e, _credentials, t)
        end
    end.

(** The body of the [try] in [get_secrets]. *)
Definition fetch_parameter (creds : value) (secrets_path : string)
  : result value :=
  response <- get_parameter creds secrets_path ;;
  parameter <- getitem response "Parameter" ;;
  v <- getitem parameter "Value" ;;
  match v with
  | VStr s => Handler.loads json_loads s
  | _ =>
      Raises (mk_exn TypeError
                ("the JSON object must be str, bytes or bytearray, not "
                 ++ type_name v))
  end.

(** [get_secrets] *)
Definition get_secrets : with_cache value :=
  fun _credentials t =>
    match assoc "SamsaraFunctionSecretsPath" environ with
    | None => (Returns (VDict []), _credentials, t)
    | Some secrets_path =>
        if String.eqb secrets_path "" then
          (Returns (VDict []), _credentials, t)
        else
          match get_credentials false _credentials t with
          | (Raises e, cache, t1) => (Raises e, cache, t1)
          | (Returns creds, cache, t1) =>
              match ssm_client creds with
              | Raises e => (Raises e, cache, t1)
              | Returns _ =>
                  match fetch_parameter creds secrets_path with
                  | Returns secrets => (Returns secrets, cache, t1)
                  | Raises e =>
                      (Returns (VDict []), cache,
                       t1 ++ [Stdout [Lit "Error fetching secrets: ";
                                     Lit (exn_msg e)]])
                  end
              end
          end
    end.

End Aws.

End Secrets.

(* ===================================================================== *)
(** * src/entrypoint.py                                                   *)
(* ===================================================================== *)

Module Entrypoint.

Definition DEFAULT_PC_THRESHOLD : Q := 16.

(** The [summary] entry of the result. *)
Record summary : Type := mk_summary {
  drivers_checked : nat;
  drivers_in_pc : nat;
  alerts_triggered : nat;
  threshold_hours : Q;
  drivers_in_violation : list string
}.

Definition summary_dict (s : summary) : value :=
  VDict [("drivers_checked", VInt (Z.of_nat (drivers_checked s)));
         ("drivers_in_pc", VInt (Z.of_nat (drivers_in_pc s)));
         ("alerts_triggered", VInt (Z.of_nat (alerts_triggered s)));
         ("threshold_hours", VFloat (threshold_hours s));
         ("drivers_in_violation", VList (map VStr (drivers_in_violation s)))].

(** The three shapes of the value returned by [main]. *)
Inductive outcome : Type :=
| NoApiKey (secrets_found : list string)
| ApiError (error : string)
| Report (s : summary) (alerts : list value).

(** [len(v)] *)
Definition py_len (v : value) : result nat :=
  match v with
  | VStr s => Returns (String.length s)
  | VList l => Returns (length l)
  | VDict d => Returns (length d)
  | _ => Raises (mk_exn TypeError
                   ("object of type '" ++ type_name v ++ "' has no len()"))
  end.

(** [list(v.keys())] *)
Definition keys (v : value) : result (list string) :=
  match v with
  | VDict d => Returns (map fst d)
  | _ => Raises (no_attribute v "keys")
  end.

Section Run.

Variable fromisoformat : string -> option datetime.
Variable json_loads : string -> option value.
Variable float_of_string : string -> option Q.
Variable environ : list (string * string).

(** The text CPython renders for an f-string. *)
Variable fstring : list fragment -> string.

Variable sts_client : result unit.
Variable assume_role : string -> string -> result value.
Variable ssm_client : value -> result unit.
Variable get_parameter : value -> string -> result value.

(** The outside world; [get_hos_clocks] stands for the paginated fetch of
    this module. *)
Variable utcnow : trace -> datetime.
Variable get_hos_clocks : trace -> value -> result (list value).

(** Step 1 of [main]: the secrets, or an empty dict on any exception. *)
Definition load_secrets (corr_id : value) (_credentials : option value)
           (t : trace) : value * option value * trace :=
  match Secrets.get_secrets environ json_loads sts_client assume_role
                            ssm_client get_parameter _credentials t with
  | (Raises e, cache, t1) =>
      (VDict [], cache,
       t1 ++ [Stdout [Shown corr_id; Lit " Secrets error: ";
                     Lit (exn_msg e)]])
  | (Returns secrets, cache, t1) =>
      match (n <- py_len secrets ;; ks <- keys secrets ;; Returns (n, ks)) with
      | Returns (n, ks) =>
          (secrets, cache,
           t1 ++ [Stdout [Shown corr_id; Lit " Loaded ";
                         Shown (VInt (Z.of_nat n)); Lit " secrets: ";
                         Shown (VList (map VStr ks))]])
      | Raises e =>
          (VDict [], cache,
           t1 ++ [Stdout [Shown corr_id; Lit " Secrets error: ";
                         Lit (exn_msg e)]])
      end
  end.

(** The body of the [try] inside the loop of step 5: the alert to append,
    if any. *)
Definition check_duration (driver start_str : value) (now : datetime)
           (threshold : Q) : result (option value) :=
  s <- str_replace_Z start_str ;;
  started <- PcAnalyzer.parse_iso fromisoformat s ;;
  duration <- dt_sub now started ;;
  let hours := fdiv (total_seconds duration) 3600 in
  if Qle_bool threshold hours then
    id <- get driver "id" VNone ;;
    name <- get driver "name" VNone ;;
    Returns (Some (VDict [("driver_id", id);
                          ("driver_name", name);
                          ("hours_in_pc", VFloat (round2 hours));
                          ("pc_start_time", start_str)]))
  else Returns None.

(** The [for] loop of step 5, on the accumulators [alerts] and
    [drivers_in_pc]. *)
Fixpoint analyze_loop (corr_id : value) (clocks : list value)
         (now : datetime) (threshold : Q) (alerts : list value)
         (drivers_in_pc : nat) : io (list value * nat) :=
  match clocks with
  | [] => ret (alerts, drivers_in_pc)
  | clock :: rest =>
      driver <~ lift (get clock "driver" (VDict [])) ;;
      status <~ lift (get clock "currentDutyStatus" (VDict [])) ;;
      status_type <~ lift (get status "hosStatusType" VNone) ;;
      if eq_str status_type "personalConveyance" then
        let drivers_in_pc := (drivers_in_pc + 1)%nat in
        start_str <~ lift (get status "hosStatusStartTime" VNone) ;;
        if truthy start_str then
          alerts <~
            try_io (found <~ lift (check_duration driver start_str now
                                                  threshold) ;;
                    ret match found with
                        | Some alert => alerts ++ [alert]
                        | None => alerts
                        end)
                   (fun e =>
                      emit (Stdout [Shown corr_id; Lit " Parse error: ";
                                   Lit (exn_msg e)]) ;;
                      ret alerts) ;;
          analyze_loop corr_id rest now threshold alerts drivers_in_pc
        else analyze_loop corr_id rest now threshold alerts drivers_in_pc
      else analyze_loop corr_id rest now threshold alerts drivers_in_pc
  end.

(** [f"{a['driver_name']} ({a['hours_in_pc']}h)"] *)
Definition violation_label (a : value) : result string :=
  name <- getitem a "driver_name" ;;
  hours <- getitem a "hours_in_pc" ;;
  Returns (fstring [Shown name; Lit " ("; Shown hours; Lit "h)"]).

Fixpoint violation_labels (alerts : list value) : result (list string) :=
  match alerts with
  | [] => Returns []
  | a :: rest =>
      label <- violation_label a ;;
      labels <- violation_labels rest ;;
      Returns (label :: labels)
  end.

(** Step 5 of [main] and the result, for a snapshot [clocks] taken at
    [now]. *)
Definition analyze_and_report (corr_id : value) (clocks : list value)
           (now : datetime) (threshold : Q) : io outcome :=
  found <~ analyze_loop corr_id clocks now threshold [] 0 ;;
  let alerts := fst found in
  let drivers_in_pc := snd found in
  drivers_in_violation <~ lift (violation_labels alerts) ;;
  let s := mk_summary (length clocks) drivers_in_pc (length alerts)
                      threshold drivers_in_violation in
  match alerts with
  | [] => ret tt
  | _ :: _ => emit (Stdout [Shown corr_id; Lit " ALERTS: ";
                           Lit (String.concat ", " drivers_in_violation)])
  end ;;
  emit (Stdout [Shown corr_id; Lit " PC Duration Alert finished ";
               Shown (summary_dict s)]) ;;
  ret (Report s alerts).

(** Step 3 of [main]:
    [float(event.get("pc_threshold_hours", DEFAULT_PC_THRESHOLD))] *)
Definition resolve_threshold (event : value) : result Q :=
  from_event <- get event "pc_threshold_hours"
                    (VFloat DEFAULT_PC_THRESHOLD) ;;
  Handler.py_float float_of_string from_event.

(** [main], after the secrets have been loaded. *)
Definition main_with_secrets (event corr_id secrets : value) : io outcome :=
  k1 <~ lift (get secrets "SAMSARA_API_KEY" VNone) ;;
  k2 <~ lift (if truthy k1 then Returns k1
              else get secrets "SAMSARA_API_TOKEN" VNone) ;;
  k3 <~ lift (if truthy k2 then Returns k2
              else get event "api_key" VNone) ;;
  let api_token :=
    if truthy k3 then k3
    else Handler.environ_get environ "SAMSARA_API_KEY" VNone in
  if negb (truthy api_token) then
    emit (Stdout [Shown corr_id; Lit " No API key found"]) ;;
    found <~ lift (keys secrets) ;;
    ret (NoApiKey found)
  else
    threshold <~ lift (resolve_threshold event) ;;
    emit (Stdout [Shown corr_id; Lit " Threshold: "; Shown (VFloat threshold);
                 Lit " hours"]) ;;
    fetched <~ (fun t => (Returns (get_hos_clocks t api_token), t)) ;;
    match fetched with
    | Raises e =>
        emit (Stdout [Shown corr_id; Lit " API error: "; Lit (exn_msg e)]) ;;
        ret (ApiError (exn_msg e))
    | Returns clocks =>
        emit (Stdout [Shown corr_id; Lit " Retrieved ";
                     Shown (VInt (Z.of_nat (length clocks)));
                     Lit " driver clocks"]) ;;
        now <~ (fun t => (Returns (utcnow t), t)) ;;
        analyze_and_report corr_id clocks now threshold
    end.

(** [main] *)
Definition main (event : value) : Secrets.with_cache outcome :=
  fun _credentials t =>
    match get event "SamsaraFunctionCorrelationId" (VStr "unknown") with
    | Raises e => (Raises e, _credentials, t)
    | Returns corr_id =>
        let t0 := t ++ [Stdout [Shown corr_id;
                               Lit " PC Duration Alert started"]] in
        let '(secrets, cache, t1) := load_secrets corr_id _credentials t0 in
        let (r, t2) := main_with_secrets event corr_id secrets t1 in
        (r, cache, t2)
    end.

End Run.

End Entrypoint.

(* ===================================================================== *)
(** * Vocabulary of the properties                                        *)
(* ===================================================================== *)

Module Props.

Definition is_dict (v : value) : bool :=
  match v with VDict _ => true | _ => false end.

(** A duty-status record as the API documents it: an object whose
    [driver] and [currentDutyStatus] entries, when present, are objects. *)
Definition record_shaped (hos_clock : value) : bool :=
  match hos_clock with
  | VDict d =>
      match assoc "driver" d with Some v => is_dict v | None => true end &&
      match assoc "currentDutyStatus" d with
      | Some v => is_dict v
      | None => true
      end
  | _ => false
  end.

(** The entry [k] of the record's [currentDutyStatus], when there is one. *)
Definition duty_status_field (hos_clock : value) (k : string) : option value :=
  match hos_clock with
  | VDict d =>
      match assoc "currentDutyStatus" d with
      | Some (VDict status) => assoc k status
      | _ => None
      end
  | _ => None
  end.

Definition in_target_status (hos_clock : value) : Prop :=
  duty_status_field hos_clock "hosStatusType"
  = Some (VStr PcAnalyzer.PC_STATUS).

(** [sub] is obtained from [l] by deleting elements. *)
Inductive subsequence {A : Type} : list A -> list A -> Prop :=
| subseq_nil : subsequence [] []
| subseq_skip : forall x sub l, subsequence sub l -> subsequence sub (x :: l)
| subseq_keep : forall x sub l,
    subsequence sub l -> subsequence (x :: sub) (x :: l).

(** Which channels [send_alert] tries. *)
Definition enabled (config : Alerting.AlertConfig) (c : channel) : bool :=
  match c with
  | Console => Alerting.console_output config
  | Webhook => truthy (Alerting.webhook_url config)
  | Email => truthy (Alerting.email_recipients config)
  end.


Definition label (c : channel) : string :=
  match c with
  | Console => "Console error: "
  | Webhook => "Webhook error: "
  | Email => "Email error: "
  end.

(** The channel methods entered, and the payloads handed to
    [send_alert], in the order of the trace. *)
Fixpoint calls_in (t : trace) : list (channel * value) :=
  match t with
  | [] => []
  | Call c a :: t' => (c, a) :: calls_in t'
  | _ :: t' => calls_in t'
  end.

Fixpoint sends_in (t : trace) : list value :=
  match t with
  | [] => []
  | Sent a :: t' => a :: sends_in t'
  | _ :: t' => sends_in t'
  end.

(** A stretch of trace that enters no method: prints and posts only. *)
Definition quiet (d : trace) : Prop := calls_in d = [] /\ sends_in d = [].

(** A computation that only appends prints and posts to the trace. *)
Definition extends_quietly {A : Type} (m : io A) : Prop :=
  forall t, exists d, snd (m t) = t ++ d /\ quiet d.

Definition returns {A : Type} (r : result A) : bool :=
  match r with Returns _ => true | Raises _ => false end.

(** Whether the console rendering of a payload goes through: the payload
    is a dict and its hours can be formatted. *)
Definition console_renders (alert_data : value) : bool :=
  match get alert_data "consecutive_pc_hours" (VInt 0) with
  | Returns pc_hours => returns (format_2f pc_hours)
  | Raises _ => false
  end.


Definition no_errors (r : Alerting.send_result) : bool :=
  match Alerting.errors r with [] => true | _ :: _ => false end.

(** A personalConveyance record without a usable start time. *)
Definition pc_without_start (hos_clock : value) : bool :=
  match duty_status_field hos_clock "hosStatusType" with
  | Some status_type =>
      eq_str status_type PcAnalyzer.PC_STATUS &&
      match duty_status_field hos_clock "hosStatusStartTime" with
      | Some start => negb (truthy start)
      | None => true
      end
  | None => false
  end.

(** The driver named by an alert of the inline script and the one named
    by a result of the analyzer: the same entries of the record, up to the
    default used when the entry is absent. *)
Definition same_identity (inline structured fallback : value) : Prop :=
  inline = structured \/ (inline = VNone /\ structured = fallback).

Definition same_driver (alert : value) (r : PcAnalyzer.PCAnalysisResult)
  : Prop :=
  exists id name hours start,
    alert = VDict [("driver_id", id); ("driver_name", name);
                   ("hours_in_pc", VFloat hours); ("pc_start_time", start)]
    /\ same_identity id (PcAnalyzer.driver_id r) (VStr "unknown")
    /\ same_identity name (PcAnalyzer.driver_name r) (VStr "Unknown Driver")
    /\ hours = round2 (PcAnalyzer.consecutive_pc_hours r).

End Props.

(* ===================================================================== *)
(** * Sample inputs                                                       *)
(* ===================================================================== *)

Module Samples.

Definition digit (c : ascii) : option Z :=
  let n := Z.of_N (N_of_ascii c) in
  if ((48 <=? n) && (n <=? 57))%Z then Some (n - 48)%Z else None.

Fixpoint digits (cs : list ascii) (acc : Z) : option Z :=
  match cs with
  | [] => Some acc
  | c :: cs' =>
      match digit c with
      | Some d => digits cs' (10 * acc + d)%Z
      | None => None
      end
  end.

Definition take_number (n : nat) (cs : list ascii) : option (Z * list ascii) :=
  if Nat.eqb (length (firstn n cs)) n then
    match digits (firstn n cs) 0%Z with
    | Some z => Some (z, skipn n cs)
    | None => None
    end
  else None.

Definition take_char (c : ascii) (cs : list ascii) : option (list ascii) :=
  match cs with
  | c' :: rest => if Ascii.eqb c c' then Some rest else None
  | [] => None
  end.

Definition leap (y : Z) : bool :=
  ((y mod 4 =? 0) && (negb (y mod 100 =? 0) || (y mod 400 =? 0)))%Z.

Definition days_in_month (y m : Z) : Z :=
  (if m =? 2 then (if leap y then 29 else 28)
   else if (m =? 4) || (m =? 6) || (m =? 9) || (m =? 11) then 30
   else 31)%Z.

(** Days since 1970-01-01 of a proleptic Gregorian date. *)
Definition days_from_civil (y m d : Z) : Z :=
  (let y' := if m <=? 2 then y - 1 else y in
   let era := y' / 400 in
   let yoe := y' - era * 400 in
   let mp := if 2 <? m then m - 3 else m + 9 in
   let doy := (153 * mp + 2) / 5 + d - 1 in
   let doe := yoe * 365 + yoe / 4 - yoe / 100 + doy in
   era * 146097 + doe - 719468)%Z.

(** [+HH:MM] or [-HH:MM], in microseconds; nothing for a naive time. *)
Definition parse_offset (cs : list ascii) : option (option Z) :=
  match cs with
  | [] => Some None
  | sign :: rest =>
      let sg := if Ascii.eqb sign "+"%char then Some 1%Z
                else if Ascii.eqb sign "-"%char then Some (-1)%Z
                else None in
      match sg, take_number 2 rest with
      | Some sg, Some (hh, rest) =>
          match take_char ":"%char rest with
          | Some rest =>
              match take_number 2 rest with
              | Some (mm, []) =>
                  if ((hh <? 24) && (mm <? 60))%Z
                  then Some (Some (sg * (hh * 3600 + mm * 60) * 1000000)%Z)
                  else None
              | _ => None
              end
          | None => None
          end
      | _, _ => None
      end
  end.

Definition parse_time (cs : list ascii) : option (Z * list ascii) :=
  match take_number 2 cs with
  | Some (hh, cs) =>
      match take_char ":"%char cs with
      | Some cs =>
          match take_number 2 cs with
          | Some (mi, cs) =>
              match take_char ":"%char cs with
              | Some cs =>
                  match take_number 2 cs with
                  | Some (ss, cs) =>
                      if ((hh <? 24) && (mi <? 60) && (ss <? 60))%Z
                      then Some ((hh * 3600 + mi * 60 + ss)%Z, cs)
                      else None
                  | None => None
                  end
              | None => None
              end
          | None => None
          end
      | None => None
      end
  | None => None
  end.

Definition parse_date (cs : list ascii) : option (Z * list ascii) :=
  match take_number 4 cs with
  | Some (y, cs) =>
      match take_char "-"%char cs with
      | Some cs =>
          match take_number 2 cs with
          | Some (m, cs) =>
              match take_char "-"%char cs with
              | Some cs =>
                  match take_number 2 cs with
                  | Some (d, cs) =>
                      if ((1 <=? y) && (1 <=? m) && (m <=? 12) && (1 <=? d)
                          && (d <=? days_in_month y m))%Z
                      then Some (days_from_civil y m d, cs)
                      else None
                  | None => None
                  end
              | None => None
              end
          | None => None
          end
      | None => None
      end
  | None => None
  end.

(** A parser for the one layout [YYYY-MM-DDTHH:MM:SS] with an optional
    [+HH:MM] offset, standing in for [datetime.fromisoformat] on the
    sample inputs. *)
Definition fromisoformat (s : string) : option datetime :=
  match parse_date (list_ascii_of_string s) with
  | Some (days, cs) =>
      match take_char "T"%char cs with
      | Some cs =>
          match parse_time cs with
          | Some (secs, tz) =>
              match parse_offset tz with
              | Some offset =>
                  Some (mk_datetime ((days * 86400 + secs) * 1000000)%Z offset)
              | None => None
              end
          | None => None
          end
      | None => None
      end
  | None => None
  end.

Definition driver (id name : string) : string * value :=
  ("driver", VDict [("id", VStr id); ("name", VStr name)]).

Definition duty (status_type : string) (start : list (string * value))
  : string * value :=
  ("currentDutyStatus", VDict (("hosStatusType", VStr status_type) :: start)).

Definition started (v : value) : list (string * value) :=
  [("hosStatusStartTime", v)].

(** Off duty since midnight. *)
Definition ann_off_duty : value :=
  VDict [driver "d1" "Ann";
         duty "offDuty" (started (VStr "2024-01-01T00:00:00Z"))].

(** In personal conveyance since midnight. *)
Definition bob_pc : value :=
  VDict [driver "d2" "Bob";
         duty "personalConveyance" (started (VStr "2024-01-01T00:00:00Z"))].

(** In personal conveyance, start time not a timestamp. *)
Definition cal_pc_garbled : value :=
  VDict [driver "d3" "Cal";
         duty "personalConveyance" (started (VStr "yesterday"))].

(** In personal conveyance, start time sent as epoch seconds. *)
Definition dee_pc_epoch : value :=
  VDict [driver "d4" "Dee";
         duty "personalConveyance" (started (VInt 1704067200))].

(** In personal conveyance, no start time at all. *)
Definition eve_pc_no_start : value :=
  VDict [driver "d5" "Eve"; duty "personalConveyance" []].

(** 2024-01-01T00:00:00+00:00, 16:00 and 17:00 the same day. *)
Definition midnight : datetime := mk_datetime 1704067200000000 (Some 0%Z).
Definition four_pm : datetime := mk_datetime 1704124800000000 (Some 0%Z).
Definition five_pm : datetime := mk_datetime 1704128400000000 (Some 0%Z).

(** An event whose body is the given dict. *)
Definition body_event (body : list (string * value)) : value :=
  VDict [("body", VDict body)].

(** A world in which every POST is answered 200, the clock reads 17:00,
    and text is rendered by fixed stand-ins. *)
Definition post_ok : trace -> value -> value -> http_reply :=
  fun _ _ _ => Status 200 "".

Definition post_500 : trace -> value -> value -> http_reply :=
  fun _ url _ => Status 500 "500 Server Error: Internal Server Error".

Definition clock_5pm : trace -> datetime := fun _ => five_pm.

Definition isoformat : datetime -> string :=
  fun _ => "2024-01-01T00:00:00+00:00".

Definition fstring : list fragment -> string := fun _ => "Bob (17.0h)".

Definition no_json : string -> option value := fun _ => None.

Definition defaults : Handler.config := Handler.mk_cfg 16 VNone VNone VNone.

(** A deployment with a secrets path but without the role to assume. *)
Definition environ_without_role : list (string * string) :=
  [("SamsaraFunctionSecretsPath", "/functions/pc-alert/secrets")].

Definition sts_denies : string -> string -> result value :=
  fun _ _ => Raises (mk_exn ClientError "AccessDenied").

End Samples.

(* ===================================================================== *)
(** * src/src/samsara_client.py                                           *)
(* ===================================================================== *)

Module SamsaraClient.

(** One GET as the client issues it: the URL, the bearer token of the
    [Authorization] header and the query parameters. *)
Record request : Type := mk_request {
  req_url : string;
  req_token : value;
  req_params : list (string * value)
}.

(** What comes back: the call raised, or a response with its status, the
    text [raise_for_status] would raise with, and [response.json()]. *)
Inductive reply : Type :=
| NoReply (e : exn)
| Reply (code : Z) (http_error : string) (json : result value).

Definition BASE_URL : string := "https://api.samsara.com".

Definition chars (s : string) : list string :=
  map (fun c => String c EmptyString) (list_ascii_of_string s).

Definition str_items (l : list value) : list string :=
  map (fun v => match v with VStr s => s | _ => EmptyString end) l.

(** [sep.join(v)] *)
Definition join (sep : string) (v : value) : result string :=
  match v with
  | VList l =>
      if all_str l then Returns (String.concat sep (str_items l))
      else Raises (join_type_error l)
  | VStr s => Returns (String.concat sep (chars s))
  | VDict d => Returns (String.concat sep (map fst d))
  | _ => Raises (mk_exn TypeError "can only join an iterable")
  end.

(** [items.extend(v)] *)
Definition extend (items : list value) (v : value) : result (list value) :=
  match v with
  | VList l => Returns (items ++ l)
  | VStr s => Returns (items ++ map VStr (chars s))
  | VDict d => Returns (items ++ map (fun kv => VStr (fst kv)) d)
  | _ => Raises (mk_exn TypeError
                   ("'" ++ type_name v ++ "' object is not iterable"))
  end.

(** The body of the pagination loop once the response is there: the
    status check, the decoding, and the reads of [data], [endCursor] and
    [hasNextPage]. *)
Definition read_page (code : Z) (http_error : string) (json : result value)
           (items : list value) : result (list value * value * value) :=
  checked <- Alerting.raise_for_status code http_error ;;
  data <- json ;;
  page <- get data "data" (VList []) ;;
  items <- extend items page ;;
  pagination <- get data "pagination" (VDict []) ;;
  after_cursor <- get pagination "endCursor" VNone ;;
  has_next_page <- get pagination "hasNextPage" (VBool false) ;;
  Returns (items, after_cursor, has_next_page).

Section Session.

(** [self.session.get]: the server may answer according to everything it
    was asked before. *)
Variable session_get : list request -> request -> reply.

(** [self.api_token] *)
Variable api_token : value.

(** The [while has_next_page] loop of [get_drivers] and [get_hos_clocks]
    (the same text in both), entered with [has_next_page] true; one unit
    of fuel per turn, [None] when the fuel runs out. *)
Fixpoint fetch_pages (fuel : nat) (path : string)
         (params : list (string * value)) (after_cursor : value)
         (items : list value) (log : list request)
  : option (result (list value) * list request) :=
  match fuel with
  | O => None
  | S fuel' =>
      let params :=
        if truthy after_cursor then dict_set params "after" after_cursor
        else params in
      let req := mk_request (BASE_URL ++ path) api_token params in
      match session_get log req with
      | NoReply e => Some (Raises e, log ++ [req])
      | Reply code http_error json =>
          match read_page code http_error json items with
          | Raises e => Some (Raises e, log ++ [req])
          | Returns (items, after_cursor, has_next_page) =>
              if truthy has_next_page
              then fetch_pages fuel' path params after_cursor items
                               (log ++ [req])
              else Some (Returns items, log ++ [req])
          end
      end
  end.

(** [params[k] = ",".join(ids)] when [ids] is given. *)
Definition with_ids (params : list (string * value)) (k : string)
           (ids : value) : result (list (string * value)) :=
  if truthy ids then
    joined <- join "," ids ;;
    Returns (dict_set params k (VStr joined))
  else Returns params.

(** [SamsaraClient.get_drivers] *)
Definition get_drivers (fuel : nat) (tag_ids : value) (log : list request)
  : option (result (list value) * list request) :=
  match with_ids [] "tagIds" tag_ids with
  | Raises e => Some (Raises e, log)
  | Returns params => fetch_pages fuel "/fleet/drivers" params VNone [] log
  end.

(** [SamsaraClient.get_hos_clocks] *)
Definition get_hos_clocks (fuel : nat) (driver_ids tag_ids : value)
           (log : list request)
  : option (result (list value) * list request) :=
  match (params <- with_ids [] "driverIds" driver_ids ;;
         with_ids params "tagIds" tag_ids) with
  | Raises e => Some (Raises e, log)
  | Returns params =>
      fetch_pages fuel "/fleet/hos/clocks" params VNone [] log
  end.

End Session.

End SamsaraClient.

(* ===================================================================== *)
(** * src/entrypoint.py: the paginated fetch                              *)
(* ===================================================================== *)

Module EntrypointClient.

Definition CLOCKS_URL : string := "https://api.samsara.com/fleet/hos/clocks".

(** The body of the loop once the response is there; the next URL is
    [None] when no further page is announced. *)
Definition read_page (py_str : value -> string) (code : Z)
           (http_error : string) (json : result value) (clocks : list value)
  : result (list value * option string) :=
  checked <- Alerting.raise_for_status code http_error ;;
  data <- json ;;
  page <- get data "data" (VList []) ;;
  clocks <- SamsaraClient.extend clocks page ;;
  pagination <- get data "pagination" (VDict []) ;;
  has_next_page <- get pagination "hasNextPage" VNone ;;
  if truthy has_next_page then
    end_cursor <- get pagination "endCursor" VNone ;;
    Returns (clocks,
             Some (CLOCKS_URL ++ "?after=" ++ py_str end_cursor)%string)
  else Returns (clocks, None).

Section Fetch.

(** [requests.get(url, headers=headers)] and the rendering of a value
    inside an f-string. *)
Variable requests_get :
  list SamsaraClient.request -> SamsaraClient.request -> SamsaraClient.reply.
Variable py_str : value -> string.

(** The [while url] loop of [get_hos_clocks]. *)
Fixpoint get_hos_clocks_loop (fuel : nat) (api_token : value)
         (url : option string) (clocks : list value)
         (log : list SamsaraClient.request)
  : option (result (list value) * list SamsaraClient.request) :=
  match url with
  | None => Some (Returns clocks, log)
  | Some u =>
      if String.eqb u "" then Some (Returns clocks, log)
      else
        match fuel with
        | O => None
        | S fuel' =>
            let req := SamsaraClient.mk_request u api_token [] in
            match requests_get log req with
            | SamsaraClient.NoReply e => Some (Raises e, log ++ [req])
            | SamsaraClient.Reply code http_error json =>
                match read_page py_str code http_error json clocks with
                | Raises e => Some (Raises e, log ++ [req])
                | Returns (clocks, url) =>
                    get_hos_clocks_loop fuel' api_token url clocks
                                        (log ++ [req])
                end
            end
        end
  end.

(** [get_hos_clocks] *)
Definition get_hos_clocks (fuel : nat) (api_token : value)
           (log : list SamsaraClient.request)
  : option (result (list value) * list SamsaraClient.request) :=
  get_hos_clocks_loop fuel api_token (Some CLOCKS_URL) [] log.

End Fetch.

End EntrypointClient.

(* ===================================================================== *)
(** * Vocabulary for the fetch clients and the network                    *)
(* ===================================================================== *)

Module Paging.

Import SamsaraClient.

(** What a decoded response carries when it is a page: its items, its
    [endCursor] and its [hasNextPage]. *)
Definition page_content (data : value) : option (list value * value * value) :=
  match get data "data" (VList []), get data "pagination" (VDict []) with
  | Returns page, Returns (VDict pagination) =>
      match extend [] page with
      | Returns items =>
          Some (items,
                match assoc "endCursor" pagination with
                | Some c => c
                | None => VNone
                end,
                match assoc "hasNextPage" pagination with
                | Some h => h
                | None => VBool false
                end)
      | Raises _ => None
      end
  | _, _ => None
  end.

(** The parameters of the next request, given the cursor in hand. *)
Definition next_params (params : list (string * value)) (after_cursor : value)
  : list (string * value) :=
  if truthy after_cursor then dict_set params "after" after_cursor
  else params.

(** [serves session_get token url params after log pages reqs]: asked from
    the state ([params], [after], [log]), the server answers the requests
    [reqs] one after the other with the pages [pages], each but the last
    announcing a next page. *)
Inductive serves (session_get : list request -> request -> reply)
          (token : value) (url : string)
  : list (string * value) -> value -> list request ->
    list (list value) -> list request -> Prop :=
| serves_last : forall params after log code http_error data items cursor more,
    session_get log (mk_request url token (next_params params after))
    = Reply code http_error (Returns data) ->
    Alerting.raise_for_status code http_error = Returns tt ->
    page_content data = Some (items, cursor, more) ->
    truthy more = false ->
    serves session_get token url params after log [items]
           [mk_request url token (next_params params after)]
| serves_more : forall params after log code http_error data items cursor more
                       pages reqs,
    session_get log (mk_request url token (next_params params after))
    = Reply code http_error (Returns data) ->
    Alerting.raise_for_status code http_error = Returns tt ->
    page_content data = Some (items, cursor, more) ->
    truthy more = true ->
    serves session_get token url (next_params params after) cursor
           (log ++ [mk_request url token (next_params params after)])
           pages reqs ->
    serves session_get token url params after log (items :: pages)
           (mk_request url token (next_params params after) :: reqs).

(** The same for the inline script, which follows URLs: [None] when the
    page announces no successor. *)
Definition page_link (py_str : value -> string) (data : value)
  : option (list value * option string) :=
  match page_content data with
  | Some (items, cursor, _) =>
      match get data "pagination" (VDict []) with
      | Returns (VDict pagination) =>
          Some (items,
                if truthy match assoc "hasNextPage" pagination with
                          | Some h => h
                          | None => VNone
                          end
                then Some (EntrypointClient.CLOCKS_URL ++ "?after="
                           ++ py_str cursor)%string
                else None)
      | _ => None
      end
  | None => None
  end.

Inductive follows (requests_get : list request -> request -> reply)
          (py_str : value -> string) (token : value)
  : string -> list request -> list (list value) -> list request -> Prop :=
| follows_last : forall url log code http_error data items,
    url <> EmptyString ->
    requests_get log (mk_request url token [])
    = Reply code http_error (Returns data) ->
    Alerting.raise_for_status code http_error = Returns tt ->
    page_link py_str data = Some (items, None) ->
    follows requests_get py_str token url log [items]
            [mk_request url token []]
| follows_more : forall url log code http_error data items next pages reqs,
    url <> EmptyString ->
    requests_get log (mk_request url token [])
    = Reply code http_error (Returns data) ->
    Alerting.raise_for_status code http_error = Returns tt ->
    page_link py_str data = Some (items, Some next) ->
    follows requests_get py_str token next
            (log ++ [mk_request url token []]) pages reqs ->
    follows requests_get py_str token url log (items :: pages)
            (mk_request url token [] :: reqs).

(** The POSTs of a trace, in order. *)
Fixpoint posts_in (t : trace) : list (value * value) :=
  match t with
  | [] => []
  | Post url payload :: t' => (url, payload) :: posts_in t'
  | _ :: t' => posts_in t'
  end.

(** The lines written to standard output, in order. *)
Fixpoint lines_in (t : trace) : list (list fragment) :=
  match t with
  | [] => []
  | Stdout line :: t' => line :: lines_in t'
  | _ :: t' => lines_in t'
  end.

(** A computation that appends to the trace and sends nothing over the
    network. *)
Definition offline {A : Type} (m : io A) : Prop :=
  forall t, exists d, snd (m t) = t ++ d /\ posts_in d = [].

(** A page as the API lays it out. *)
Definition page (items : list value) (cursor : value) (more : bool) : value :=
  VDict [("data", VList items);
         ("pagination",
          VDict [("endCursor", cursor); ("hasNextPage", VBool more)])].

(** A server holding two pages of clocks, the second behind the cursor
    ["c1"]. *)
Definition two_pages (first second : list value)
  : list request -> request -> reply :=
  fun _ req =>
    match assoc "after" (req_params req) with
    | Some _ => Reply 200 "" (Returns (page second VNone false))
    | None => Reply 200 "" (Returns (page first (VStr "c1") true))
    end.

(** The same behind URLs. *)
Definition two_linked_pages (first second : list value)
  : list request -> request -> reply :=
  fun _ req =>
    if String.eqb (req_url req) EntrypointClient.CLOCKS_URL
    then Reply 200 "" (Returns (page first (VStr "c1") true))
    else Reply 200 "" (Returns (page second VNone false)).

(** A server that always announces one more page. *)
Definition endless : list request -> request -> reply :=
  fun _ _ => Reply 200 "" (Returns (page [] (VStr "c") true)).

End Paging.

(* ===================================================================== *)
(** * Vocabulary for the inline script                                    *)
(* ===================================================================== *)

Module Tally.

(** The record's status type is personalConveyance. *)
Definition has_pc_status (hos_clock : value) : bool :=
  match Props.duty_status_field hos_clock "hosStatusType" with
  | Some status_type => eq_str status_type PcAnalyzer.PC_STATUS
  | None => false
  end.

(** An alert as the inline script builds it. *)
Definition inline_alert (a : value) : Prop :=
  exists id name hours start,
    a = VDict [("driver_id", id); ("driver_name", name);
               ("hours_in_pc", VFloat hours); ("pc_start_time", start)].

(** [d.get(k)] on a dict. *)
Definition entry (d : list (string * value)) (k : string) : value :=
  match assoc k d with Some v => v | None => VNone end.

End Tally.

(* ===================================================================== *)
(** * The analyzer                                                        *)
(* ===================================================================== *)

Import PcAnalyzer Props.

(* ===================================================================== *)
(** * Rounding to binary64                                                *)
(* ===================================================================== *)

Lemma round_half_even_cases q :
  let n := Qnum q in
  let d := Zpos (Qden q) in
  let f := (n / d)%Z in
  let r := (n mod d)%Z in
  (n = d * f + r)%Z /\ (0 <= r < d)%Z /\
  ((round_half_even q = f /\ (2 * r <= d)%Z /\
    ((2 * r = d)%Z -> Z.even f = true)) \/
   (round_half_even q = (f + 1)%Z /\ (d <= 2 * r)%Z /\
    ((2 * r = d)%Z -> Z.even f = false))).
Proof.
  intros n d f r. unfold round_half_even. fold n d. fold f. fold r.
  assert (Hd : (0 < d)%Z) by (unfold d; lia).
  split; [apply Z.div_mod; lia|].
  split; [apply Z.mod_pos_bound; lia|].
  destruct (Z.ltb_spec (2 * r) d).
  - left. repeat split; lia.
  - destruct (Z.ltb_spec d (2 * r)).
    + right. repeat split; lia.
    + destruct (Z.even f) eqn:E.
      * left. repeat split; auto; lia.
      * right. repeat split; auto; lia.
Qed.

Lemma round_half_even_near q :
  inject_Z (round_half_even q) - (1 # 2) <= q /\
  q <= inject_Z (round_half_even q) + (1 # 2).
Proof.
  destruct (round_half_even_cases q) as (Hn & Hr & H).
  destruct q as [n d]. cbn [Qnum Qden] in *.
  set (f := (n / Z.pos d)%Z) in *. set (r := (n mod Z.pos d)%Z) in *.
  clearbody f r.
  destruct H as [(-> & H & _)|(-> & H & _)]; split;
    unfold Qle, Qplus, Qminus, Qopp, inject_Z; simpl; nia.
Qed.

Lemma round_half_even_monotone q1 q2 :
  q1 <= q2 -> (round_half_even q1 <= round_half_even q2)%Z.
Proof.
  intros Hle.
  destruct (round_half_even_cases q1) as (Hn1 & Hr1 & H1).
  destruct (round_half_even_cases q2) as (Hn2 & Hr2 & H2).
  destruct q1 as [n1 d1], q2 as [n2 d2]. cbn [Qnum Qden] in *.
  unfold Qle in Hle. cbn [Qnum Qden] in Hle.
  set (f1 := (n1 / Z.pos d1)%Z) in *. set (f2 := (n2 / Z.pos d2)%Z) in *.
  set (r1 := (n1 mod Z.pos d1)%Z) in *. set (r2 := (n2 mod Z.pos d2)%Z) in *.
  clearbody f1 f2 r1 r2. subst n1 n2.
  assert (Hf : (f1 <= f2)%Z).
  { destruct (Z.le_gt_cases f1 f2) as [|Hgt]; [assumption|]. exfalso.
    assert (0 <= Z.pos d1 * Z.pos d2 * (f1 - f2 - 1))%Z
      by (apply Z.mul_nonneg_nonneg; lia).
    assert (r2 * Z.pos d1 < Z.pos d2 * Z.pos d1)%Z
      by (apply Z.mul_lt_mono_pos_r; lia).
    assert (0 <= r1 * Z.pos d2)%Z by (apply Z.mul_nonneg_nonneg; lia).
    lia. }
  destruct (Z.eq_dec f1 f2) as [E|NE].
  - assert (Hr : (r1 * Z.pos d2 <= r2 * Z.pos d1)%Z) by nia.
    destruct H1 as [(-> & A1 & B1)|(-> & A1 & B1)];
      destruct H2 as [(-> & A2 & B2)|(-> & A2 & B2)]; try lia.
    exfalso.
    assert (E1 : (2 * r1 = Z.pos d1)%Z) by nia.
    assert (E2 : (2 * r2 = Z.pos d2)%Z) by nia.
    specialize (B1 E1). specialize (B2 E2). rewrite E in B1. congruence.
  - destruct H1 as [(-> & _)|(-> & _)]; destruct H2 as [(-> & _)|(-> & _)];
      lia.
Qed.

Lemma round_half_even_Z q k : q == inject_Z k -> round_half_even q = k.
Proof.
  intros E. destruct (round_half_even_near q) as [A B].
  set (m := round_half_even q) in *. clearbody m.
  assert (A' : inject_Z m - (1 # 2) <= inject_Z k) by lra.
  assert (B' : inject_Z k <= inject_Z m + (1 # 2)) by lra.
  unfold Qle, Qplus, Qminus, Qopp, inject_Z in A', B'.
  simpl in A', B'. lia.
Qed.

Lemma pow2_pos e : 0 < 2 ^ e.
Proof. apply Qpower_0_lt. reflexivity. Qed.

Lemma pow2_succ e : 2 ^ (e + 1) == 2 * 2 ^ e.
Proof. rewrite Qpower_plus by discriminate. rewrite Qpower_1_r. ring. Qed.

Lemma pow2_le a b : (a <= b)%Z -> 2 ^ a <= 2 ^ b.
Proof. intros H. apply Qpower_le_compat_l; [assumption | discriminate]. Qed.

Lemma pow2_log2 n :
  (0 < n)%Z ->
  2 ^ Z.log2 n <= inject_Z n /\ inject_Z n < 2 * 2 ^ Z.log2 n.
Proof.
  intros Hn. destruct (Z.log2_spec n Hn) as [A B].
  assert (H0 : (0 <= Z.log2 n)%Z) by apply Z.log2_nonneg.
  rewrite <- pow2_succ.
  change (2 : Q) with (inject_Z 2).
  rewrite <- !Zpower_Qpower by lia.
  split; [rewrite <- Zle_Qle | rewrite <- Zlt_Qlt]; lia.
Qed.

Lemma floor_log2_spec q :
  0 < q -> 2 ^ floor_log2 q <= q /\ q < 2 ^ (floor_log2 q + 1).
Proof.
  intros Hq. unfold floor_log2.
  destruct q as [n d]. cbn [Qnum Qden].
  assert (Hn : (0 < n)%Z).
  { unfold Qlt in Hq. simpl in Hq. lia. }
  destruct (pow2_log2 n Hn) as [A1 A2].
  destruct (pow2_log2 (Z.pos d) eq_refl) as [B1 B2].
  set (a := Z.log2 n) in *. set (b := Z.log2 (Z.pos d)) in *.
  assert (Hl : 2 ^ (a - b) * 2 ^ b == 2 ^ a).
  { rewrite Qpower_minus by discriminate. field.
    apply Qpower_not_0. discriminate. }
  assert (Hq' : (n # d) * inject_Z (Z.pos d) == inject_Z n).
  { rewrite (Qmake_Qdiv n d). field. discriminate. }
  pose proof (pow2_pos (a - b)) as P0.
  pose proof (pow2_pos b) as P1.
  pose proof (pow2_pos a) as P2.
  set (P := 2 ^ (a - b)) in *. set (B := 2 ^ b) in *. set (A := 2 ^ a) in *.
  set (N := inject_Z n) in *. set (D := inject_Z (Z.pos d)) in *.
  set (q := n # d) in *.
  destruct (Qle_bool P q) eqn:T.
  - apply Qle_bool_iff in T. split; [exact T|].
    rewrite pow2_succ. fold P.
    apply Qnot_le_lt. intros C.
    assert (2 * P * D <= q * D) by (apply Qmult_le_compat_r; lra).
    assert (2 * P * B <= 2 * P * D) by (apply Qmult_le_l; lra).
    lra.
  - assert (T' : q < P).
    { apply Qnot_le_lt. intros C. apply Qle_bool_iff in C. congruence. }
    replace (a - b - 1 + 1)%Z with (a - b)%Z by lia. fold P.
    split; [| exact T'].
    assert (E : 2 ^ (a - b - 1) * 2 == P).
    { unfold P. replace (a - b)%Z with (a - b - 1 + 1)%Z at 2 by lia.
      rewrite pow2_succ. ring. }
    pose proof (pow2_pos (a - b - 1)) as P3.
    set (P' := 2 ^ (a - b - 1)) in *.
    apply Qnot_lt_le. intros C.
    assert (q * D < P' * D) by (apply Qmult_lt_compat_r; lra).
    assert (P' * D <= P' * (2 * B)) by (apply Qmult_le_l; lra).
    assert (P' * (2 * B) == P * B) by (rewrite <- E; ring).
    lra.
Qed.

Lemma floor_log2_monotone q1 q2 :
  0 < q1 -> q1 <= q2 -> (floor_log2 q1 <= floor_log2 q2)%Z.
Proof.
  intros H1 Hle.
  destruct (floor_log2_spec q1 H1) as [A1 _].
  destruct (floor_log2_spec q2) as [_ B2]; [lra|].
  assert (H : 2 ^ floor_log2 q1 < 2 ^ (floor_log2 q2 + 1)) by lra.
  apply Qpower_lt_compat_l_inv in H; [lia | reflexivity].
Qed.

Lemma b64_pos_eq q :
  b64_pos q
  == inject_Z (round_half_even (q / 2 ^ ulp_exp q)) * 2 ^ ulp_exp q.
Proof. unfold b64_pos. cbv zeta. apply Qred_correct. Qed.

Lemma scaled_lt q e k : q < 2 ^ (e + k) -> q / 2 ^ e < 2 ^ k.
Proof.
  intros H. pose proof (pow2_pos e) as P.
  apply Qlt_shift_div_r; [exact P|].
  rewrite Qpower_plus in H by discriminate. lra.
Qed.

Lemma scaled_le q e k : 2 ^ (e + k) <= q -> 2 ^ k <= q / 2 ^ e.
Proof.
  intros H. pose proof (pow2_pos e) as P.
  apply Qle_shift_div_l; [exact P|].
  rewrite Qpower_plus in H by discriminate. lra.
Qed.

Lemma pow2_inject k : (0 <= k)%Z -> 2 ^ k == inject_Z (2 ^ k).
Proof.
  intros H. change (2 : Q) with (inject_Z 2).
  now rewrite Zpower_Qpower.
Qed.

(** The significand of a positive number is at most [2^53], and at least
    [2^52] above the subnormal range. *)
Lemma significand_bounds q :
  0 < q ->
  let m := round_half_even (q / 2 ^ ulp_exp q) in
  (0 <= m <= 2 ^ 53)%Z /\
  ((-1074 < ulp_exp q)%Z -> (2 ^ 52 <= m)%Z).
Proof.
  intros Hq m. pose proof (pow2_pos (ulp_exp q)) as P.
  destruct (floor_log2_spec q Hq) as [A B].
  assert (Hx : 0 <= q / 2 ^ ulp_exp q).
  { apply Qle_shift_div_l; [exact P | lra]. }
  assert (Hup : q / 2 ^ ulp_exp q <= 2 ^ 53).
  { apply Qlt_le_weak, scaled_lt.
    eapply Qlt_le_trans; [exact B|]. apply pow2_le. unfold ulp_exp. lia. }
  repeat split.
  - rewrite <- (round_half_even_Z 0 0) by reflexivity.
    apply round_half_even_monotone. exact Hx.
  - rewrite <- (round_half_even_Z (2 ^ 53) (2 ^ 53)) by reflexivity.
    apply round_half_even_monotone. exact Hup.
  - intros He.
    rewrite <- (round_half_even_Z (2 ^ 52) (2 ^ 52)) by reflexivity.
    apply round_half_even_monotone. apply scaled_le.
    eapply Qle_trans; [| exact A]. apply pow2_le. unfold ulp_exp in *. lia.
Qed.

Lemma b64_pos_nonneg q : 0 < q -> 0 <= b64_pos q.
Proof.
  intros Hq. rewrite b64_pos_eq.
  destruct (significand_bounds q Hq) as [[H0 _] _].
  pose proof (pow2_pos (ulp_exp q)).
  apply Qmult_le_0_compat; [| lra].
  change 0 with (inject_Z 0). rewrite <- Zle_Qle. exact H0.
Qed.

Lemma b64_pos_monotone q1 q2 :
  0 < q1 -> q1 <= q2 -> b64_pos q1 <= b64_pos q2.
Proof.
  intros H1 Hle. assert (H2 : 0 < q2) by lra.
  rewrite !b64_pos_eq.
  destruct (significand_bounds q1 H1) as [[_ U1] _].
  destruct (significand_bounds q2 H2) as [_ L2].
  cbv zeta in *.
  assert (He : (ulp_exp q1 <= ulp_exp q2)%Z).
  { pose proof (floor_log2_monotone q1 q2 H1 Hle). unfold ulp_exp. lia. }
  pose proof (pow2_pos (ulp_exp q1)) as P1.
  pose proof (pow2_pos (ulp_exp q2)) as P2.
  destruct (Z.eq_dec (ulp_exp q1) (ulp_exp q2)) as [E|NE].
  - rewrite E in *.
    apply Qmult_le_compat_r; [| lra].
    rewrite <- Zle_Qle. apply round_half_even_monotone.
    apply Qmult_le_compat_r; [exact Hle|].
    apply Qlt_le_weak, Qinv_lt_0_compat, P2.
  - assert (Hlow : (-1074 < ulp_exp q2)%Z) by (unfold ulp_exp in *; lia).
    specialize (L2 Hlow).
    set (m1 := round_half_even (q1 / 2 ^ ulp_exp q1)) in *.
    set (m2 := round_half_even (q2 / 2 ^ ulp_exp q2)) in *.
    clearbody m1 m2.
    apply Qle_trans with (2 ^ 53 * 2 ^ ulp_exp q1).
    { apply Qmult_le_compat_r; [| lra].
      rewrite (pow2_inject 53) by lia. rewrite <- Zle_Qle. exact U1. }
    apply Qle_trans with (2 ^ 52 * 2 ^ ulp_exp q2).
    { rewrite <- !Qpower_plus by discriminate. apply pow2_le. lia. }
    apply Qmult_le_compat_r; [| lra].
    rewrite (pow2_inject 52) by lia. rewrite <- Zle_Qle. exact L2.
Qed.

(** Above the subnormal range the relative error is at most [2^-53]. *)
Lemma b64_pos_error q :
  2 ^ (-1022) <= q ->
  b64_pos q - q <= q * 2 ^ (-53) /\ q - b64_pos q <= q * 2 ^ (-53).
Proof.
  intros Hn. assert (Hq : 0 < q) by (pose proof (pow2_pos (-1022)); lra).
  destruct (floor_log2_spec q Hq) as [A B].
  assert (Hfl : (-1022 <= floor_log2 q)%Z).
  { assert (H : 2 ^ (-1022) < 2 ^ (floor_log2 q + 1)) by lra.
    apply Qpower_lt_compat_l_inv in H; [lia | reflexivity]. }
  assert (He : ulp_exp q = (floor_log2 q - 52)%Z) by (unfold ulp_exp; lia).
  rewrite b64_pos_eq.
  destruct (round_half_even_near (q / 2 ^ ulp_exp q)) as [N1 N2].
  set (m := inject_Z (round_half_even (q / 2 ^ ulp_exp q))) in *.
  clearbody m.
  pose proof (pow2_pos (ulp_exp q)) as P.
  assert (Hx : q / 2 ^ ulp_exp q * 2 ^ ulp_exp q == q) by (field; lra).
  assert (Hu : 2 ^ ulp_exp q * (1 # 2) <= q * 2 ^ (-53)).
  { apply Qle_trans with (2 ^ floor_log2 q * 2 ^ (-53)).
    - rewrite He. rewrite <- Qpower_plus by discriminate.
      replace (floor_log2 q + -53)%Z with (floor_log2 q - 52 + -1)%Z by lia.
      rewrite Qpower_plus by discriminate.
      apply Qmult_le_l; [apply pow2_pos|]. discriminate.
    - apply Qmult_le_compat_r; [exact A|]. discriminate. }
  set (x := q / 2 ^ ulp_exp q) in *. set (u := 2 ^ ulp_exp q) in *.
  assert (M1 : (m - (1 # 2)) * u <= x * u)
    by (apply Qmult_le_compat_r; lra).
  assert (M2 : x * u <= (m + (1 # 2)) * u)
    by (apply Qmult_le_compat_r; lra).
  split; lra.
Qed.

Lemma b64_of_pos q : 0 < q -> b64 q = b64_pos q.
Proof.
  destruct q as [[|n|n] d]; unfold Qlt; simpl; intros H; try lia.
  reflexivity.
Qed.

Lemma b64_of_neg q : q < 0 -> b64 q = - b64_pos (- q).
Proof.
  destruct q as [[|n|n] d]; unfold Qlt; simpl; intros H; try lia.
  reflexivity.
Qed.

Lemma b64_of_zero q : q == 0 -> b64 q = 0.
Proof.
  destruct q as [[|n|n] d]; unfold Qeq; simpl; intros H; try lia.
  reflexivity.
Qed.

Lemma b64_sign_cases q :
  (0 < q /\ b64 q = b64_pos q) \/
  (q == 0 /\ b64 q = 0) \/
  (q < 0 /\ b64 q = - b64_pos (- q)).
Proof.
  destruct (Q_dec q 0) as [[H|H]|H].
  - right. right. split; [exact H | now apply b64_of_neg].
  - left. split; [exact H | now apply b64_of_pos].
  - right. left. split; [exact H | now apply b64_of_zero].
Qed.

(** Rounding is monotone. *)
Lemma b64_monotone q1 q2 : q1 <= q2 -> b64 q1 <= b64 q2.
Proof.
  intros Hle.
  destruct (b64_sign_cases q1) as [[S1 ->]|[[S1 ->]|[S1 ->]]];
    destruct (b64_sign_cases q2) as [[S2 ->]|[[S2 ->]|[S2 ->]]];
    try lra.
  - now apply b64_pos_monotone.
  - now apply b64_pos_nonneg.
  - pose proof (b64_pos_nonneg (- q1)). pose proof (b64_pos_nonneg q2). lra.
  - pose proof (b64_pos_nonneg (- q1)). lra.
  - pose proof (b64_pos_monotone (- q2) (- q1)). lra.
Qed.

(** Above the subnormal range rounding has relative error at most
    [2^-53]. *)
Lemma b64_error q :
  2 ^ (-1022) <= Qabs q -> Qabs (b64 q - q) <= Qabs q * 2 ^ (-53).
Proof.
  intros Hn. pose proof (pow2_pos (-1022)) as P.
  apply Qabs_Qle_condition.
  destruct (b64_sign_cases q) as [[S ->]|[[S ->]|[S ->]]].
  - rewrite (Qabs_pos q) in * by lra.
    destruct (b64_pos_error q Hn). split; lra.
  - rewrite S in Hn. change (Qabs 0) with 0 in Hn. lra.
  - rewrite (Qabs_neg q) in * by lra.
    destruct (b64_pos_error (- q) Hn). split; lra.
Qed.

Lemma b64_negative q : q <= - 2 ^ (-1022) -> b64 q < 0.
Proof.
  intros H. pose proof (pow2_pos (-1022)) as P.
  assert (Hn : 2 ^ (-1022) <= Qabs q) by (rewrite Qabs_neg; lra).
  apply b64_error in Hn. apply Qabs_Qle_condition in Hn.
  rewrite Qabs_neg in Hn by lra.
  assert (E : 2 ^ (-53) == 1 # 9007199254740992) by reflexivity.
  rewrite E in Hn. lra.
Qed.

(** The hours computed for a difference of [micros] microseconds:
    [total_seconds() / 3600], each division rounded to binary64, is
    within relative error [2^-51] of the exact quotient. *)
Lemma hours_tolerance micros :
  let exact := inject_Z micros / 3600000000 in
  Qabs (fdiv (total_seconds micros) 3600 - exact) <= Qabs exact * 2 ^ (-51).
Proof.
  intros exact. unfold fdiv, total_seconds.
  set (q := inject_Z micros / 1000000).
  assert (Eq : exact == q / 3600) by (unfold exact, q; field).
  destruct (Z.eq_dec micros 0) as [->|Hne].
  - unfold exact. vm_compute. discriminate.
  - assert (Hq : (1 # 1000000) <= Qabs q).
    { assert (Hm : inject_Z micros <= -1 \/ 1 <= inject_Z micros).
      { destruct (Z_lt_le_dec micros 0); [left | right].
        - change (-1) with (inject_Z (-1)). rewrite <- Zle_Qle. lia.
        - change 1 with (inject_Z 1). rewrite <- Zle_Qle. lia. }
      assert (Eq' : q * 1000000 == inject_Z micros) by (unfold q; field).
      apply Qabs_case; intros; lra. }
    assert (T1 : 2 ^ (-1022) <= (1 # 8000000000)).
    { apply Qle_trans with (2 ^ (-40)); [apply pow2_le; lia | discriminate]. }
    assert (E53 : 2 ^ (-53) == 1 # 9007199254740992) by reflexivity.
    assert (E51 : 2 ^ (-51) == 1 # 2251799813685248) by reflexivity.
    assert (H1 : Qabs (b64 q - q) <= Qabs q * 2 ^ (-53))
      by (apply b64_error; lra).
    set (s := b64 q) in *.
    assert (Hs : (1 # 2000000) <= Qabs s).
    { apply Qabs_Qle_condition in H1. rewrite E53 in H1.
      revert Hq H1.
      apply (Qabs_case q); apply (Qabs_case s); intros; lra. }
    assert (Esh : s / 3600 == s * (1 # 3600)) by field.
    assert (Hs' : Qabs (s / 3600) == Qabs s * (1 # 3600)).
    { rewrite Esh, Qabs_Qmult. reflexivity. }
    assert (H2 : Qabs (b64 (s / 3600) - s / 3600)
                 <= Qabs (s / 3600) * 2 ^ (-53)).
    { apply b64_error. rewrite Hs'. lra. }
    set (h := b64 (s / 3600)) in *. clearbody h s.
    rewrite Hs' in H2. rewrite E53 in H1, H2. rewrite E51.
    assert (Eq2 : exact == q * (1 # 3600)) by (rewrite Eq; field).
    assert (Ee : Qabs exact == Qabs q * (1 # 3600)).
    { rewrite Eq2, Qabs_Qmult. reflexivity. }
    rewrite Ee. apply Qabs_Qle_condition.
    apply Qabs_Qle_condition in H1, H2.
    revert Hq Hs H1 H2. rewrite Eq2, Esh.
    apply (Qabs_case q); apply (Qabs_case s); intros; split; lra.
Qed.

(** The computed hours grow with the elapsed time. *)
Lemma hours_monotone m1 m2 :
  (m1 <= m2)%Z ->
  fdiv (total_seconds m1) 3600 <= fdiv (total_seconds m2) 3600.
Proof.
  intros H. unfold fdiv, total_seconds.
  apply b64_monotone.
  apply Qmult_le_compat_r; [| discriminate].
  apply b64_monotone.
  apply Qmult_le_compat_r; [| discriminate].
  rewrite <- Zle_Qle. exact H.
Qed.

Lemma hours_negative micros :
  (micros < 0)%Z -> fdiv (total_seconds micros) 3600 < 0.
Proof.
  intros H. pose proof (hours_tolerance micros) as T. cbv zeta in T.
  assert (E51 : 2 ^ (-51) == 1 # 2251799813685248) by reflexivity.
  assert (Hm : inject_Z micros <= -1).
  { change (-1) with (inject_Z (-1)). rewrite <- Zle_Qle. lia. }
  set (exact := inject_Z micros / 3600000000) in *.
  assert (Ee : exact * 3600000000 == inject_Z micros)
    by (unfold exact; field).
  rewrite E51 in T. apply Qabs_Qle_condition in T.
  rewrite Qabs_neg in T by lra. lra.
Qed.

(** Integers of at most 53 bits are floats. *)
Lemma b64_small_int z :
  (Z.abs z < 2 ^ 53)%Z -> b64 (inject_Z z) == inject_Z z.
Proof.
  assert (Hpos : forall k, (0 < k < 2 ^ 53)%Z ->
                           b64_pos (inject_Z k) == inject_Z k).
  { intros k Hk.
    assert (Hq : 0 < inject_Z k).
    { change 0 with (inject_Z 0). rewrite <- Zlt_Qlt. lia. }
    destruct (floor_log2_spec _ Hq) as [A _].
    assert (Hfl : (floor_log2 (inject_Z k) < 53)%Z).
    { assert (H : 2 ^ floor_log2 (inject_Z k) < 2 ^ 53).
      { eapply Qle_lt_trans; [exact A|].
        rewrite (pow2_inject 53) by lia. rewrite <- Zlt_Qlt. lia. }
      apply Qpower_lt_compat_l_inv in H; [lia | reflexivity]. }
    rewrite b64_pos_eq.
    assert (He : (ulp_exp (inject_Z k) <= 0)%Z) by (unfold ulp_exp; lia).
    set (e := ulp_exp (inject_Z k)) in *. clearbody e.
    pose proof (pow2_pos e) as P.
    assert (Hinv : 2 ^ (- e) * 2 ^ e == 1).
    { rewrite <- Qpower_plus by discriminate.
      replace (- e + e)%Z with 0%Z by lia. reflexivity. }
    assert (Hx : inject_Z k / 2 ^ e == inject_Z (k * 2 ^ (- e))).
    { rewrite inject_Z_mult, <- (pow2_inject (- e)) by lia.
      apply Qmult_inj_r with (2 ^ e); [lra|].
      transitivity (inject_Z k); [field; lra|].
      rewrite <- Qmult_assoc, Hinv. ring. }
    rewrite (round_half_even_Z _ _ Hx).
    rewrite inject_Z_mult, <- (pow2_inject (- e)) by lia.
    rewrite <- Qmult_assoc, Hinv. ring. }
  intros Hz.
  destruct (b64_sign_cases (inject_Z z)) as [[S ->]|[[S ->]|[S ->]]].
  - apply Hpos. change 0 with (inject_Z 0) in S. rewrite <- Zlt_Qlt in S.
    lia.
  - symmetry. exact S.
  - change 0 with (inject_Z 0) in S. rewrite <- Zlt_Qlt in S.
    rewrite <- inject_Z_opp, Hpos by lia.
    rewrite inject_Z_opp. ring.
Qed.

(** A whole number of hours is computed exactly. *)
Lemma whole_hours_exact k :
  (Z.abs k < 2 ^ 40)%Z ->
  fdiv (total_seconds (3600000000 * k)) 3600 == inject_Z k.
Proof.
  intros Hk. unfold fdiv.
  assert (Es : total_seconds (3600000000 * k) == inject_Z (3600 * k)).
  { unfold total_seconds.
    transitivity (b64 (inject_Z (3600 * k))).
    - assert (E : inject_Z (3600000000 * k) / 1000000
                  == inject_Z (3600 * k)).
      { rewrite !inject_Z_mult. field. }
      apply Qle_antisym; apply b64_monotone; rewrite E; apply Qle_refl.
    - apply b64_small_int. lia. }
  transitivity (b64 (inject_Z k)).
  - assert (E : total_seconds (3600000000 * k) / 3600 == inject_Z k).
    { rewrite Es, inject_Z_mult. field. }
    apply Qle_antisym; apply b64_monotone; rewrite E; apply Qle_refl.
  - apply b64_small_int. lia.
Qed.

(* ===================================================================== *)
(** * The analyzer: results                                               *)
(* ===================================================================== *)

Example sample_parser_reads_midnight :
  Samples.fromisoformat (replace_Z "2024-01-01T00:00:00Z")
  = Some Samples.midnight.
Proof. reflexivity. Qed.

Example sample_parser_rejects_prose :
  Samples.fromisoformat (replace_Z "yesterday") = None.
Proof. reflexivity. Qed.

Lemma bind_returns {A B} (c : result A) (k : A -> result B) b :
  Py.bind c k = Returns b -> exists a, c = Returns a /\ k a = Returns b.
Proof. destruct c; simpl; intros H; [eauto | discriminate]. Qed.

Lemma get_returns o k dflt v :
  get o k dflt = Returns v ->
  exists d, o = VDict d /\
            v = match assoc k d with Some x => x | None => dflt end.
Proof. destruct o; simpl; intros H; try discriminate. inversion H; eauto. Qed.

Lemma eq_str_true v lit : eq_str v lit = true <-> v = VStr lit.
Proof.
  destruct v; simpl; split; intros H; try discriminate.
  - apply String.eqb_eq in H. now subst.
  - inversion H. apply String.eqb_refl.
Qed.
Section AnalyzerFacts.

Variable fromisoformat : string -> option datetime.
Variable th : Q.

Lemma duty_status_field_assoc d sd k :
  match assoc "currentDutyStatus" d with
  | Some x => x
  | None => VDict []
  end = VDict sd ->
  duty_status_field (VDict d) k = assoc k sd.
Proof.
  unfold duty_status_field.
  destruct (assoc "currentDutyStatus" d) as [v|]; intros H.
  - subst v. reflexivity.
  - inversion H. reflexivity.
Qed.

Lemma eq_str_default_true o lit :
  lit <> "" ->
  eq_str match o with Some x => x | None => VStr "" end lit = true ->
  o = Some (VStr lit).
Proof.
  intros Hne H. apply eq_str_true in H. destruct o as [x|].
  - now subst.
  - inversion H. congruence.
Qed.

Lemma PC_STATUS_nonempty : PC_STATUS <> "".
Proof. discriminate. Qed.

(** The three ways [analyze_clock] returns. *)
Lemma analyze_clock_cases hos_clock now r :
  analyze_clock fromisoformat th hos_clock now = Returns r ->
  (exists id name,
      r = mk_result id name false 0 None false th /\
      (~ in_target_status hos_clock \/ pc_without_start hos_clock = true))
  \/ (exists id name s,
         r = mk_result id name true 0 None false th /\
         in_target_status hos_clock /\
         duty_status_field hos_clock "hosStatusStartTime" = Some (VStr s) /\
         s <> "" /\
         fromisoformat (replace_Z s) = None)
  \/ (exists id name s start micros,
         r = mk_result id name true (fdiv (total_seconds micros) 3600)
                       (Some start)
                       (Qle_bool th (fdiv (total_seconds micros) 3600)) th /\
         in_target_status hos_clock /\
         duty_status_field hos_clock "hosStatusStartTime" = Some (VStr s) /\
         s <> "" /\
         fromisoformat (replace_Z s) = Some start /\
         dt_sub now start = Returns micros).
Proof.
  unfold analyze_clock. intros H.
  apply bind_returns in H as (driver & Hd & H).
  apply bind_returns in H as (id & Hid & H).
  apply bind_returns in H as (name & Hname & H).
  apply bind_returns in H as (cds & Hcds & H).
  apply bind_returns in H as (st & Hst & H).
  apply bind_returns in H as (start & Hstart & H).
  apply get_returns in Hcds as (d & -> & ->).
  apply get_returns in Hst as (sd & Hsd & ->).
  apply get_returns in Hstart as (sd' & Hsd' & ->).
  rewrite Hsd in Hsd'. inversion Hsd'; subst sd'. clear Hsd'.
  pose proof (duty_status_field_assoc d sd "hosStatusType" Hsd) as Ftype.
  pose proof (duty_status_field_assoc d sd "hosStatusStartTime" Hsd) as Fstart.
  unfold in_target_status, pc_without_start. rewrite Ftype, Fstart.
  destruct (eq_str _ PC_STATUS) eqn:Epc; simpl in H.
  - apply (eq_str_default_true _ _ PC_STATUS_nonempty) in Epc as Htype.
    rewrite Htype.
    assert (Eself : eq_str (VStr PC_STATUS) PC_STATUS = true)
      by (apply eq_str_true; reflexivity).
    rewrite Eself. clear Eself.
    destruct (assoc "hosStatusStartTime" sd) as [start|] eqn:Astart;
      [| inversion H; left; eauto 6 ].
    destruct (truthy start) eqn:Tstart; simpl in H;
      [| inversion H; left; eauto 6 ].
    destruct start as [ | | | | s | | ]; simpl in H; try discriminate.
    assert (Hs : s <> "")
      by (intros ->; simpl in Tstart; discriminate).
    unfold parse_iso in H.
    destruct (fromisoformat (replace_Z s)) as [started|] eqn:Eparse;
      simpl in H.
    + apply bind_returns in H as (micros & Hsub & H). inversion H.
      right; right. exists id, name, s, started, micros. auto 7.
    + inversion H. right; left. exists id, name, s. auto 6.
  - inversion H. left. exists id, name. split; [reflexivity|].
    left. intros Htype. rewrite Htype in Epc.
    assert (Eself : eq_str (VStr PC_STATUS) PC_STATUS = true)
      by (apply eq_str_true; reflexivity).
    congruence.
Qed.

(** On a record of the documented shape the lookups of [analyze_clock]
    go through, and what is left is the decision on the two fields. *)
Lemma analyze_clock_shaped hos_clock now :
  record_shaped hos_clock = true ->
  exists id name,
    analyze_clock fromisoformat th hos_clock now =
    let status_type :=
      match duty_status_field hos_clock "hosStatusType" with
      | Some v => v | None => VStr "" end in
    let status_start_str :=
      match duty_status_field hos_clock "hosStatusStartTime" with
      | Some v => v | None => VStr "" end in
    if negb (eq_str status_type PC_STATUS) || negb (truthy status_start_str)
    then Returns (mk_result id name false 0 None false th)
    else
      match (s <- str_replace_Z status_start_str ;;
             parse_iso fromisoformat s) with
      | Raises e =>
          if existsb (subclass (exn_class e)) [ValueError; TypeError]
          then Returns (mk_result id name true 0 None false th)
          else Raises e
      | Returns started =>
          micros <- dt_sub now started ;;
          Returns (mk_result id name true (fdiv (total_seconds micros) 3600)
                             (Some started)
                             (Qle_bool th (fdiv (total_seconds micros) 3600)) th)
      end.
Proof.
  destruct hos_clock as [ | | | | | | d]; simpl; try discriminate.
  intros Hshape. apply andb_true_iff in Hshape as [Hdrv Hcds].
  unfold analyze_clock, get at 1.
  destruct (assoc "driver" d) as [drv|];
    [destruct drv; try discriminate|]; simpl;
    (destruct (assoc "currentDutyStatus" d) as [cds|];
     [destruct cds; try discriminate|]; simpl; eauto).
Qed.

End AnalyzerFacts.

(** Claim C1.  Whatever the record, the reference time and the threshold,
    a result returned by [analyze_clock] satisfies the invariant of the
    data model: if it exceeds the threshold then the driver is in
    personal conveyance and the elapsed hours are at least the threshold;
    if the driver is not reported in personal conveyance then the elapsed
    hours are 0, there is no start time and the threshold is not
    exceeded.  In particular a record whose status type is not
    ["personalConveyance"] gets 0 hours and no violation, whatever its
    other fields; and on a record of the documented shape such a result
    is indeed returned. *)
Theorem analyze_clock_invariant
        (fromisoformat : string -> option datetime) (th : Q)
        (hos_clock : value) (now : datetime) :
  (forall r,
      analyze_clock fromisoformat th hos_clock now = Returns r ->
      (exceeds_threshold r = true ->
       is_currently_in_pc r = true /\
       (threshold_hours r <= consecutive_pc_hours r)%Q) /\
      (is_currently_in_pc r = false ->
       consecutive_pc_hours r = 0%Q /\ pc_start_time r = None /\
       exceeds_threshold r = false) /\
      (~ in_target_status hos_clock ->
       consecutive_pc_hours r = 0%Q /\ exceeds_threshold r = false) /\
      threshold_hours r = th)
  /\ (record_shaped hos_clock = true -> ~ in_target_status hos_clock ->
      exists r, analyze_clock fromisoformat th hos_clock now = Returns r).
Proof.
  split.
  - intros r Hr.
    destruct (analyze_clock_cases _ _ _ _ _ Hr)
      as [(id & name & -> & Hwhy)
         | [(id & name & s & -> & Hin & _)
           | (id & name & s & start & micros & -> & Hin & _)]]; simpl.
    + repeat split; try discriminate; reflexivity.
    + repeat split; try discriminate; try reflexivity; contradiction.
    + repeat split; try discriminate; try reflexivity; try contradiction.
      apply Qle_bool_iff. assumption.
  - intros Hshape Hout.
    destruct (analyze_clock_shaped fromisoformat th hos_clock now Hshape)
      as (id & name & ->).
    cbv zeta.
    destruct (eq_str _ PC_STATUS) eqn:Epc; simpl; [| eauto].
    exfalso. apply Hout.
    apply (eq_str_default_true _ _ PC_STATUS_nonempty) in Epc. exact Epc.
Qed.

Lemma analyze_clock_invariant_witness :
  exists r,
    analyze_clock Samples.fromisoformat 16 Samples.ann_off_duty
                  Samples.five_pm = Returns r /\
    consecutive_pc_hours r = 0%Q /\ exceeds_threshold r = false.
Proof.
  assert (Hout : ~ in_target_status Samples.ann_off_duty)
    by (unfold in_target_status; simpl; discriminate).
  destruct (analyze_clock_invariant Samples.fromisoformat 16
                                    Samples.ann_off_duty Samples.five_pm)
    as [Hinv Hret].
  destruct (Hret eq_refl Hout) as [r Hr].
  exists r. split; [exact Hr|].
  apply (Hinv r Hr). exact Hout.
Defined.

(** Claim C2.  Take a record in personal conveyance whose start time
    parses to a timestamp, any reference time and any threshold.  Every
    result [analyze_clock] returns on it reports the driver in personal
    conveyance since that timestamp, and as elapsed hours the float
    computed by [(now - start).total_seconds() / 3600]: the microseconds
    between the two instants divided by [10**6] and then by 3600, each
    division rounded to binary64.  These hours are within relative error
    [2^-51] of the exact quotient (the rounding tolerance), a whole number
    of hours is computed exactly, and nothing is clamped: the hours are
    negative when now precedes the start.  The threshold is exceeded
    exactly when the hours reported are at least the threshold, equality
    included.  Such a result is returned whenever the record has the
    documented shape and the two timestamps are of the same kind (both
    carry a UTC offset, as a UTC timestamp and the callers' now do). *)
Theorem analyze_clock_elapsed
        (fromisoformat : string -> option datetime) (th : Q)
        (hos_clock : value) (now : datetime) (s : string) (start : datetime) :
  in_target_status hos_clock ->
  duty_status_field hos_clock "hosStatusStartTime" = Some (VStr s) ->
  s <> "" ->
  fromisoformat (replace_Z s) = Some start ->
  let micros := (instant now - instant start)%Z in
  let exact := (inject_Z micros / 3600000000)%Q in
  (forall r,
      analyze_clock fromisoformat th hos_clock now = Returns r ->
      is_currently_in_pc r = true /\
      pc_start_time r = Some start /\
      consecutive_pc_hours r = fdiv (total_seconds micros) 3600 /\
      (Qabs (consecutive_pc_hours r - exact) <= Qabs exact * 2 ^ (-51))%Q /\
      (forall k, micros = (3600000000 * k)%Z -> (Z.abs k < 2 ^ 40)%Z ->
                 (consecutive_pc_hours r == inject_Z k)%Q) /\
      (exceeds_threshold r = true <-> (th <= consecutive_pc_hours r)%Q) /\
      ((consecutive_pc_hours r == th)%Q -> exceeds_threshold r = true) /\
      ((instant now < instant start)%Z -> (consecutive_pc_hours r < 0)%Q)) /\
  (record_shaped hos_clock = true ->
   is_aware now = is_aware start ->
   exists r, analyze_clock fromisoformat th hos_clock now = Returns r).
Proof.
  intros Hin Hstart Hs Hparse micros exact.
  assert (Ts : truthy (VStr s) = true).
  { simpl. destruct (String.eqb_spec s ""); [contradiction | reflexivity]. }
  split.
  - intros r Hr.
    destruct (analyze_clock_cases _ _ _ _ _ Hr)
      as [(id & name & -> & [Hout | Hno])
         | [(id & name & s' & -> & _ & Hstart' & _ & Hnone)
           | (id & name & s' & start' & micros' & -> & _ & Hstart' & _
              & Hparse' & Hsub)]].
    + contradiction.
    + exfalso. unfold pc_without_start in Hno.
      unfold in_target_status in Hin. rewrite Hin, Hstart, Ts in Hno.
      rewrite andb_false_r in Hno. discriminate.
    + exfalso. rewrite Hstart in Hstart'. inversion Hstart'; subst s'.
      congruence.
    + rewrite Hstart in Hstart'. inversion Hstart'; subst s'.
      rewrite Hparse in Hparse'. inversion Hparse'; subst start'.
      unfold dt_sub in Hsub.
      destruct (Bool.eqb (is_aware now) (is_aware start)); [| discriminate].
      inversion Hsub; subst micros'. fold micros.
      cbn [is_currently_in_pc pc_start_time consecutive_pc_hours
           exceeds_threshold].
      split; [reflexivity|]. split; [reflexivity|].
      split; [reflexivity|].
      split; [apply hours_tolerance|].
      split; [intros k -> Hk; apply whole_hours_exact; exact Hk|].
      split; [apply Qle_bool_iff|].
      split.
      * intros Heq. apply Qle_bool_iff. rewrite Heq. apply Qle_refl.
      * intros Hlt. apply hours_negative. unfold micros. lia.
  - intros Hshape Haware.
    destruct (analyze_clock_shaped fromisoformat th hos_clock now Hshape)
      as (id & name & ->).
    unfold in_target_status in Hin. rewrite Hin, Hstart. cbv zeta.
    assert (Eself : eq_str (VStr PC_STATUS) PC_STATUS = true)
      by (apply eq_str_true; reflexivity).
    rewrite Eself, Ts. simpl. unfold parse_iso. rewrite Hparse. simpl.
    unfold dt_sub. rewrite Haware, Bool.eqb_reflx. simpl. eauto.
Qed.

Lemma analyze_clock_elapsed_witness :
  exists r,
    analyze_clock Samples.fromisoformat 16 Samples.bob_pc Samples.five_pm
    = Returns r /\
    (consecutive_pc_hours r == 17)%Q /\ exceeds_threshold r = true.
Proof.
  destruct (analyze_clock_elapsed Samples.fromisoformat 16 Samples.bob_pc
              Samples.five_pm "2024-01-01T00:00:00Z" Samples.midnight)
    as (Hall & Hret); try reflexivity.
  - discriminate.
  - destruct (Hret eq_refl eq_refl) as (r & Hr).
    destruct (Hall r Hr) as (_ & _ & _ & _ & Hwhole & Hex & _).
    exists r. split; [exact Hr|].
    assert (Hq : (consecutive_pc_hours r == 17)%Q).
    { apply (Hwhole 17%Z); [reflexivity | reflexivity]. }
    split; [exact Hq|].
    apply Hex. rewrite Hq. discriminate.
Defined.

Example boundary_is_a_violation :
  exists r,
    analyze_clock Samples.fromisoformat 16 Samples.bob_pc Samples.four_pm
    = Returns r /\
    (consecutive_pc_hours r == 16)%Q /\ exceeds_threshold r = true.
Proof. eexists. split; [reflexivity|]. split; reflexivity. Qed.

Example earlier_now_is_not_clamped :
  exists r,
    analyze_clock Samples.fromisoformat 16 Samples.bob_pc
                  (mk_datetime 1704063600000000 (Some 0%Z))
    = Returns r /\
    (consecutive_pc_hours r == -1)%Q /\ exceeds_threshold r = false.
Proof. eexists. split; [reflexivity|]. split; reflexivity. Qed.

(** An unparseable string is recovered locally. *)
Lemma analyze_clock_unparseable_string
      (fromisoformat : string -> option datetime) (th : Q)
      (hos_clock : value) (now : datetime) (s : string) :
  record_shaped hos_clock = true ->
  in_target_status hos_clock ->
  duty_status_field hos_clock "hosStatusStartTime" = Some (VStr s) ->
  s <> "" ->
  fromisoformat (replace_Z s) = None ->
  exists id name,
    analyze_clock fromisoformat th hos_clock now
    = Returns (mk_result id name true 0 None false th).
Proof.
  intros Hshape Hin Hstart Hs Hparse.
  destruct (analyze_clock_shaped fromisoformat th hos_clock now Hshape)
    as (id & name & ->).
  unfold in_target_status in Hin. rewrite Hin, Hstart. cbv zeta.
  assert (Eself : eq_str (VStr PC_STATUS) PC_STATUS = true)
    by (apply eq_str_true; reflexivity).
  rewrite Eself.
  assert (Ts : truthy (VStr s) = true).
  { simpl. destruct (String.eqb s "") eqn:E; [|reflexivity].
    apply String.eqb_eq in E. contradiction. }
  rewrite Ts. simpl. unfold parse_iso. rewrite Hparse. simpl. eauto.
Qed.

Example garbled_start_is_recovered :
  analyze_clock Samples.fromisoformat 16 Samples.cal_pc_garbled
                Samples.five_pm
  = Returns (mk_result (VStr "d3") (VStr "Cal") true 0 None false 16).
Proof. reflexivity. Qed.

(** Claim C3, evaluated where the code departs from it.  The record
    [Samples.dee_pc_epoch] is of the documented shape, in personal
    conveyance, and carries a start time that is present but is not a
    timestamp (epoch seconds as a number).  [analyze_clock] does not
    return the degraded in-status result on it: the call of [replace]
    raises [AttributeError], which [except (ValueError, TypeError)] does
    not catch, so the exception reaches the caller. *)
Theorem analyze_clock_raises_on_epoch_start
        (fromisoformat : string -> option datetime) (th : Q) (now : datetime) :
  record_shaped Samples.dee_pc_epoch = true /\
  in_target_status Samples.dee_pc_epoch /\
  duty_status_field Samples.dee_pc_epoch "hosStatusStartTime"
  = Some (VInt 1704067200) /\
  analyze_clock fromisoformat th Samples.dee_pc_epoch now
  = Raises (mk_exn AttributeError
                   "'int' object has no attribute 'replace'").
Proof. repeat split. Qed.

(** One such record aborts the analysis of the whole batch. *)
Lemma analyze_all_clocks_aborts_on_epoch_start
      (fromisoformat : string -> option datetime) (th : Q) (now : datetime) :
  analyze_all_clocks fromisoformat th
                     [Samples.ann_off_duty; Samples.dee_pc_epoch;
                      Samples.bob_pc] now
  = Raises (mk_exn AttributeError
                   "'int' object has no attribute 'replace'").
Proof. reflexivity. Qed.

(** * Filtering *)

Lemma get_alerts_is_filter results :
  get_alerts results = filter exceeds_threshold results.
Proof.
  induction results as [|r rest IH]; simpl; [reflexivity|].
  destruct (exceeds_threshold r); now rewrite IH.
Qed.

(** Claim C6.  [get_alerts] is a stable filter: its output is a
    subsequence of its input (same relative order), every element of the
    output exceeds the threshold, and every element of the input that
    exceeds the threshold is in the output. *)
Theorem get_alerts_stable_filter (results : list PCAnalysisResult) :
  subsequence (get_alerts results) results /\
  Forall (fun r => exceeds_threshold r = true) (get_alerts results) /\
  (forall r, In r results -> exceeds_threshold r = true ->
             In r (get_alerts results)).
Proof.
  induction results as [|r rest (Hsub & Hall & Hin)]; simpl.
  - repeat split; [constructor | constructor | intros r []].
  - destruct (exceeds_threshold r) eqn:E; repeat split.
    + now apply subseq_keep.
    + now constructor.
    + intros r' [-> | Hr'] E'; [now left | right; auto].
    + now apply subseq_skip.
    + assumption.
    + intros r' [-> | Hr'] E'; [congruence | auto].
Qed.

(* ===================================================================== *)
(** * The alerter                                                         *)
(* ===================================================================== *)

Lemma calls_in_app t1 t2 : calls_in (t1 ++ t2) = calls_in t1 ++ calls_in t2.
Proof.
  induction t1 as [|e t1 IH]; simpl; [reflexivity|].
  destruct e; simpl; now rewrite IH.
Qed.

Lemma sends_in_app t1 t2 : sends_in (t1 ++ t2) = sends_in t1 ++ sends_in t2.
Proof.
  induction t1 as [|e t1 IH]; simpl; [reflexivity|].
  destruct e; simpl; now rewrite IH.
Qed.

Lemma quiet_nil : quiet [].
Proof. split; reflexivity. Qed.

Lemma quiet_app d1 d2 : quiet d1 -> quiet d2 -> quiet (d1 ++ d2).
Proof.
  intros [C1 S1] [C2 S2]. split.
  - now rewrite calls_in_app, C1, C2.
  - now rewrite sends_in_app, S1, S2.
Qed.

Lemma quietly_ret {A : Type} (a : A) : extends_quietly (ret a).
Proof.
  intros t. exists []. rewrite app_nil_r.
  split; [reflexivity | apply quiet_nil].
Qed.

Lemma quietly_lift {A : Type} (r : result A) : extends_quietly (lift r).
Proof.
  intros t. exists []. rewrite app_nil_r.
  split; [reflexivity | apply quiet_nil].
Qed.

Lemma quietly_print line : extends_quietly (emit (Stdout line)).
Proof.
  intros t. exists [Stdout line].
  split; [reflexivity | split; reflexivity].
Qed.

Lemma quietly_bind {A B : Type} (c : io A) (k : A -> io B) :
  extends_quietly c -> (forall a, extends_quietly (k a)) ->
  extends_quietly (iobind c k).
Proof.
  intros Hc Hk t. unfold iobind.
  destruct (Hc t) as (d1 & E1 & Q1).
  destruct (c t) as [[a|e] t1]; simpl in E1; subst t1.
  - destruct (Hk a (t ++ d1)) as (d2 & E2 & Q2).
    exists (d1 ++ d2). rewrite E2, app_assoc.
    split; [reflexivity | now apply quiet_app].
  - exists d1. split; [reflexivity | assumption].
Qed.

Lemma quietly_after {A : Type} (e : event) (k : io A) t :
  extends_quietly k ->
  exists d, snd (iobind (emit e) (fun _ => k) t) = t ++ e :: d /\ quiet d.
Proof.
  intros Hk. unfold iobind, emit.
  destruct (Hk (t ++ [e])) as (d & E & Q).
  exists d. rewrite E, <- app_assoc. split; [reflexivity | assumption].
Qed.

Section AlerterFacts.

Variable http_post : trace -> value -> value -> http_reply.
Variable utcnow_iso : trace -> string.
Variable config : Alerting.AlertConfig.

Lemma quietly_now_iso : extends_quietly (Alerting.now_iso utcnow_iso).
Proof.
  intros t. exists []. rewrite app_nil_r.
  split; [reflexivity | apply quiet_nil].
Qed.

Lemma quietly_post url payload :
  extends_quietly (Alerting.requests_post http_post url payload).
Proof.
  intros t. exists [Post url payload]. unfold Alerting.requests_post.
  destruct (http_post t url payload);
    (split; [reflexivity | split; reflexivity]).
Qed.

Ltac quietly :=
  repeat first
    [ apply quietly_ret | apply quietly_lift | apply quietly_print
    | apply quietly_now_iso | apply quietly_post
    | apply quietly_bind; [| intros ?]
    | match goal with
      | |- extends_quietly (if ?b then _ else _) => destruct b
      end ].

Lemma console_trace a t :
  exists d,
    snd (Alerting._send_console_alert utcnow_iso a t)
    = t ++ Call Console a :: d /\ quiet d.
Proof. unfold Alerting._send_console_alert. apply quietly_after. quietly. Qed.

Lemma webhook_trace a t :
  exists d,
    snd (Alerting._send_webhook_alert http_post utcnow_iso config a t)
    = t ++ Call Webhook a :: d /\ quiet d.
Proof. unfold Alerting._send_webhook_alert. apply quietly_after. quietly. Qed.

Lemma email_trace a t :
  exists d,
    snd (Alerting._send_email_alert config a t)
    = t ++ Call Email a :: d /\ quiet d.
Proof. unfold Alerting._send_email_alert. apply quietly_after. quietly. Qed.



(** One [try]/[except] block of [send_alert]. *)
Lemma guarded_send (m : io unit)
      (set : Alerting.send_result -> Alerting.send_result)
      (lbl : string) (results : Alerting.send_result) t :
  try_io (iobind m (fun _ => ret (set results)))
         (fun e => ret (Alerting.append_error results (lbl ++ exn_msg e))) t
  = (Returns match fst (m t) with
             | Returns _ => set results
             | Raises e => Alerting.append_error results (lbl ++ exn_msg e)
             end,
     snd (m t)).
Proof.
  unfold try_io, iobind, ret. destruct (m t) as [[u|e] t']; reflexivity.
Qed.

(** What [send_alert] returns, stage by stage. *)
Lemma send_alert_stages a t :
  let t0 := t ++ [Sent a] in
  let r0 := Alerting.mk_send_result false false false [] in
  let r1 := if enabled config Console then
              match fst (Alerting._send_console_alert utcnow_iso a t0) with
              | Returns _ => Alerting.set_console r0
              | Raises e =>
                  Alerting.append_error r0 (label Console ++ exn_msg e)
              end
            else r0 in
  let t1 := if enabled config Console
            then snd (Alerting._send_console_alert utcnow_iso a t0)
            else t0 in
  let r2 := if enabled config Webhook then
              match fst (Alerting._send_webhook_alert
                           http_post utcnow_iso config a t1) with
              | Returns _ => Alerting.set_webhook r1
              | Raises e =>
                  Alerting.append_error r1 (label Webhook ++ exn_msg e)
              end
            else r1 in
  let t2 := if enabled config Webhook
            then snd (Alerting._send_webhook_alert
                        http_post utcnow_iso config a t1)
            else t1 in
  let r3 := if enabled config Email then
              match fst (Alerting._send_email_alert config a t2) with
              | Returns _ => Alerting.set_email r2
              | Raises e =>
                  Alerting.append_error r2 (label Email ++ exn_msg e)
              end
            else r2 in
  let t3 := if enabled config Email
            then snd (Alerting._send_email_alert config a t2)
            else t2 in
  Alerting.send_alert http_post utcnow_iso config a t = (Returns r3, t3).
Proof.
  unfold Alerting.send_alert, enabled, label. cbv zeta.
  unfold iobind at 1. unfold emit at 1.
  unfold iobind at 1.
  destruct (Alerting.console_output config).
  - rewrite guarded_send. unfold iobind at 1.
    destruct (truthy (Alerting.webhook_url config)).
    + rewrite guarded_send. unfold iobind at 1.
      destruct (truthy (Alerting.email_recipients config)).
      * rewrite guarded_send. reflexivity.
      * reflexivity.
    + unfold ret at 1. unfold iobind at 1.
      destruct (truthy (Alerting.email_recipients config)).
      * rewrite guarded_send. reflexivity.
      * reflexivity.
  - unfold ret at 1. unfold iobind at 1.
    destruct (truthy (Alerting.webhook_url config)).
    + rewrite guarded_send. unfold iobind at 1.
      destruct (truthy (Alerting.email_recipients config)).
      * rewrite guarded_send. reflexivity.
      * reflexivity.
    + unfold ret at 1. unfold iobind at 1.
      destruct (truthy (Alerting.email_recipients config)).
      * rewrite guarded_send. reflexivity.
      * reflexivity.
Qed.

End AlerterFacts.

Lemma console_renders_to_dict isoformat res :
  console_renders (PcAnalyzer.to_dict isoformat res) = true.
Proof. reflexivity. Qed.

Lemma calls_in_quiet_cons c a d :
  quiet d -> calls_in (Call c a :: d) = [(c, a)].
Proof. intros [Hc _]. simpl. now rewrite Hc. Qed.

Lemma sends_in_quiet_cons c a d :
  quiet d -> sends_in (Call c a :: d) = [].
Proof. intros [_ Hs]. simpl. exact Hs. Qed.


(** A webhook answering 500 next to an enabled console. *)
Example webhook_500_leaves_console_alone :
  fst (Alerting.send_alert
         Samples.post_500 (fun _ => "2024-01-01T17:00:00+00:00")
         (Alerting.mk_config (VStr "https://hooks.example/pc") VNone true)
         (to_dict Samples.isoformat
                  (mk_result (VStr "d2") (VStr "Bob") true 17
                             (Some Samples.midnight) true 16)) [])
  = Returns (Alerting.mk_send_result
               true false false
               ["Webhook error: 500 Server Error: Internal Server Error"]).
Proof. reflexivity. Qed.


Section BulkFacts.

Variable http_post : trace -> value -> value -> http_reply.
Variable utcnow_iso : trace -> string.
Variable config : Alerting.AlertConfig.

(** [send_alert] never raises, and leaves one [Sent] mark. *)
Lemma send_alert_trace a t :
  exists r d,
    Alerting.send_alert http_post utcnow_iso config a t
    = (Returns r, t ++ Sent a :: d) /\ sends_in d = [].
Proof.
  pose proof (send_alert_stages http_post utcnow_iso config a t) as Hrun.
  cbv zeta in Hrun. rewrite Hrun. clear Hrun.
  remember (t ++ [Sent a]) as t0 eqn:Et0.
  destruct (console_trace utcnow_iso a t0) as (d1 & T1 & _ & S1).
  remember (if enabled config Console
            then snd (Alerting._send_console_alert utcnow_iso a t0)
            else t0) as t1 eqn:Et1.
  destruct (webhook_trace http_post utcnow_iso config a t1)
    as (d2 & T2 & _ & S2).
  remember (if enabled config Webhook
            then snd (Alerting._send_webhook_alert http_post utcnow_iso
                                                    config a t1)
            else t1) as t2 eqn:Et2.
  destruct (email_trace config a t2) as (d3 & T3 & _ & S3).
  eexists.
  exists ((if enabled config Console then Call Console a :: d1 else []) ++
          (if enabled config Webhook then Call Webhook a :: d2 else []) ++
          (if enabled config Email then Call Email a :: d3 else [])).
  split; [f_equal |].
  - rewrite Et0 in *.
    destruct (enabled config Console), (enabled config Webhook),
      (enabled config Email); subst t1 t2;
      rewrite ?T3, ?T2, ?T1; rewrite ?app_nil_r;
      repeat rewrite <- app_assoc; simpl; rewrite ?app_nil_r; reflexivity.
  - destruct (enabled config Console), (enabled config Webhook),
      (enabled config Email);
      repeat rewrite sends_in_app; simpl; rewrite ?S1, ?S2, ?S3; reflexivity.
Qed.

(** The loop of [send_bulk_alerts], from any summary built so far. *)
Lemma send_bulk_alerts_loop_spec alerts :
  forall summary t,
  exists rs d,
    Alerting.send_bulk_alerts_loop http_post utcnow_iso config alerts
                                   summary t
    = (Returns (Alerting.mk_bulk
                  (Alerting.total_alerts summary)
                  (Alerting.successful summary
                   + length (filter no_errors rs))
                  (Alerting.failed summary
                   + length (filter (fun r => negb (no_errors r)) rs))
                  (Alerting.results summary ++ rs)),
       t ++ d) /\
    sends_in d = alerts /\
    Forall2 (fun a r =>
               exists ta,
                 fst (Alerting.send_alert http_post utcnow_iso config a ta)
                 = Returns r) alerts rs.
Proof.
  induction alerts as [|a rest IH]; intros summary t.
  - exists [], []. simpl. unfold ret.
    rewrite !Nat.add_0_r, !app_nil_r. destruct summary. auto.
  - destruct (send_alert_trace a t) as (r & d1 & Hsend & S1).
    cbn [Alerting.send_bulk_alerts_loop]. unfold iobind at 1.
    rewrite Hsend.
    match goal with
    | |- context [Alerting.send_bulk_alerts_loop _ _ _ rest ?s ?t'] =>
        destruct (IH s t') as (rs & d2 & Hloop & S2 & Hall)
    end.
    exists (r :: rs), (Sent a :: d1 ++ d2).
    rewrite Hloop. split; [| split].
    + f_equal.
      * cbn [filter].
        assert (Hne : no_errors r
                      = match Alerting.errors r with
                        | [] => true
                        | _ :: _ => false
                        end) by reflexivity.
        destruct (Alerting.errors r) eqn:Er; rewrite Hne; simpl;
          f_equal; f_equal; try lia; now rewrite <- app_assoc.
      * repeat rewrite <- app_assoc. reflexivity.
    + simpl. rewrite sends_in_app, S1, S2. reflexivity.
    + constructor; [| exact Hall].
      exists t. now rewrite Hsend.
Qed.

End BulkFacts.


(** Two alerts, the webhook failing on both: both counted as failed. *)
Example bulk_counts_failed_alerts :
  exists s,
    fst (Alerting.send_bulk_alerts
           Samples.post_500 (fun _ => "2024-01-01T17:00:00+00:00")
           (Alerting.mk_config (VStr "https://hooks.example/pc") VNone true)
           [VDict [("driver_name", VStr "Bob")];
            VDict [("driver_name", VStr "Eve")]] [])
    = Returns s /\
    Alerting.total_alerts s = 2%nat /\
    Alerting.successful s = 0%nat /\
    Alerting.failed s = 2%nat.
Proof. eexists. split; [vm_compute; reflexivity|]. repeat split. Qed.


(** Claim C10.  With the console disabled, no webhook URL and no e-mail
    recipients, [send_alert] returns all three flags false and an empty
    error list, entering no channel; [send_bulk_alerts] then counts every
    alert as successful: [successful] = [total_alerts] and [failed] = 0. *)
Theorem no_channel_counts_as_success
        (http_post : trace -> value -> value -> http_reply)
        (utcnow_iso : trace -> string) (config : Alerting.AlertConfig) :
  Alerting.console_output config = false ->
  truthy (Alerting.webhook_url config) = false ->
  truthy (Alerting.email_recipients config) = false ->
  (forall alert_data t,
      Alerting.send_alert http_post utcnow_iso config alert_data t
      = (Returns (Alerting.mk_send_result false false false []),
         t ++ [Sent alert_data])) /\
  (forall alerts t,
      exists s d,
        Alerting.send_bulk_alerts http_post utcnow_iso config alerts t
        = (Returns s, t ++ d) /\
        Alerting.total_alerts s = length alerts /\
        Alerting.successful s = length alerts /\
        Alerting.failed s = 0%nat /\
        Forall (fun r => r = Alerting.mk_send_result false false false [])
               (Alerting.results s)).
Proof.
  intros Hc Hw He.
  assert (Hsend : forall alert_data t,
             Alerting.send_alert http_post utcnow_iso config alert_data t
             = (Returns (Alerting.mk_send_result false false false []),
                t ++ [Sent alert_data])).
  { intros a t.
    pose proof (send_alert_stages http_post utcnow_iso config a t) as Hrun.
    cbv zeta in Hrun. unfold enabled in Hrun.
    rewrite Hc, Hw, He in Hrun. exact Hrun. }
  split; [exact Hsend|].
  intros alerts t. unfold Alerting.send_bulk_alerts.
  assert (Hloop : forall n ok rs t,
             Forall (fun r => r = Alerting.mk_send_result false false false [])
                    rs ->
             exists s d,
               Alerting.send_bulk_alerts_loop
                 http_post utcnow_iso config alerts
                 (Alerting.mk_bulk n ok 0 rs) t
               = (Returns s, t ++ d) /\
               Alerting.total_alerts s = n /\
               Alerting.successful s = (ok + length alerts)%nat /\
               Alerting.failed s = 0%nat /\
               Forall (fun r =>
                         r = Alerting.mk_send_result false false false [])
                      (Alerting.results s)).
  { clear t. induction alerts as [|a rest IH]; intros n ok rs t Hrs.
    - eexists. exists []. simpl. unfold ret. rewrite app_nil_r.
      repeat split; simpl; auto.
    - cbn [Alerting.send_bulk_alerts_loop]. unfold iobind at 1.
      rewrite Hsend. cbn.
      destruct (IH n (ok + 1)%nat
                   (rs ++ [Alerting.mk_send_result false false false []])
                   (t ++ [Sent a])) as (s & d & Hrun & Ht & Hs & Hf & Hall).
      { apply Forall_app. split; [exact Hrs | repeat constructor]. }
      exists s, (Sent a :: d). rewrite Hrun.
      rewrite <- app_assoc. repeat split; simpl; auto. lia. }
  destruct (Hloop (length alerts) 0%nat [] t (Forall_nil _))
    as (s & d & Hrun & Ht & Hs & Hf & Hall).
  exists s, d. auto.
Qed.

Lemma no_channel_counts_as_success_witness :
  exists s d,
    Alerting.send_bulk_alerts
      (fun _ _ _ => Status 200 "") (fun _ => "2024-01-01T17:00:00+00:00")
      (Alerting.mk_config VNone VNone false)
      [Samples.bob_pc; Samples.ann_off_duty] []
    = (Returns s, [] ++ d) /\
    Alerting.total_alerts s = 2%nat /\
    Alerting.successful s = 2%nat /\
    Alerting.failed s = 0%nat /\
    Forall (fun r => r = Alerting.mk_send_result false false false [])
           (Alerting.results s).
Proof.
  exact (proj2 (no_channel_counts_as_success
                  (fun _ _ _ => Status 200 "")
                  (fun _ => "2024-01-01T17:00:00+00:00")
                  (Alerting.mk_config VNone VNone false)
                  eq_refl eq_refl eq_refl)
               [Samples.bob_pc; Samples.ann_off_duty] []).
Defined.

(* ===================================================================== *)
(** * The two entry points                                                *)
(* ===================================================================== *)

Section InlineFacts.

Variable fromisoformat : string -> option datetime.
Variable th : Q.
Variable corr_id : value.
Variable now : datetime.

(** One turn of the inline loop, on a record whose lookups succeed. *)
Lemma inline_unfold d dd sd rest alerts n t :
  match assoc "driver" d with Some x => x | None => VDict [] end = VDict dd ->
  match assoc "currentDutyStatus" d with Some x => x | None => VDict [] end
  = VDict sd ->
  Entrypoint.analyze_loop fromisoformat corr_id (VDict d :: rest) now th
                          alerts n t
  = if eq_str match assoc "hosStatusType" sd with
              | Some x => x | None => VNone end "personalConveyance"
    then
      let start := match assoc "hosStatusStartTime" sd with
                   | Some x => x | None => VNone end in
      if truthy start then
        match Entrypoint.check_duration fromisoformat (VDict dd) start now th
        with
        | Returns (Some alert) =>
            Entrypoint.analyze_loop fromisoformat corr_id rest now th
                                    (alerts ++ [alert]) (n + 1)%nat t
        | Returns None =>
            Entrypoint.analyze_loop fromisoformat corr_id rest now th
                                    alerts (n + 1)%nat t
        | Raises e =>
            Entrypoint.analyze_loop
              fromisoformat corr_id rest now th alerts (n + 1)%nat
              (t ++ [Stdout [Shown corr_id; Lit " Parse error: ";
                            Lit (exn_msg e)]])
        end
      else Entrypoint.analyze_loop fromisoformat corr_id rest now th
                                   alerts (n + 1)%nat t
    else Entrypoint.analyze_loop fromisoformat corr_id rest now th
                                 alerts n t.
Proof.
  intros Hdd Hsd. cbn [Entrypoint.analyze_loop].
  unfold iobind, lift, try_io, ret, emit, get at 1 2.
  rewrite Hdd, Hsd. unfold get.
  destruct (eq_str _ "personalConveyance"); [| reflexivity].
  cbv zeta. destruct (truthy _); [| reflexivity].
  destruct (Entrypoint.check_duration _ _ _ _ _) as [[alert|]|e]; reflexivity.
Qed.

Lemma default_none_eq_str (o : option value) :
  eq_str match o with Some x => x | None => VNone end "personalConveyance"
  = eq_str match o with Some x => x | None => VStr "" end PC_STATUS.
Proof. destruct o; reflexivity. Qed.

Lemma default_none_truthy (o : option value) :
  truthy match o with Some x => x | None => VNone end
  = truthy match o with Some x => x | None => VStr "" end.
Proof. destruct o; reflexivity. Qed.

(** One turn of the inline loop on a record the analyzer accepts. *)
Lemma inline_step clock r :
  analyze_clock fromisoformat th clock now = Returns r ->
  exists new d,
    (forall rest alerts n t,
        Entrypoint.analyze_loop fromisoformat corr_id (clock :: rest) now th
                                alerts n t
        = Entrypoint.analyze_loop
            fromisoformat corr_id rest now th (alerts ++ new)
            (n + (if is_currently_in_pc r then 1 else 0)
             + (if pc_without_start clock then 1 else 0))%nat
            (t ++ d)) /\
    Forall2 same_driver new (get_alerts [r]).
Proof.
  unfold analyze_clock. intros H.
  apply bind_returns in H as (driver & Hd & H).
  apply bind_returns in H as (id & Hid & H).
  apply bind_returns in H as (name & Hname & H).
  apply bind_returns in H as (cds & Hcds & H).
  apply bind_returns in H as (st & Hst & H).
  apply bind_returns in H as (start & Hstart & H).
  apply get_returns in Hd as (d & -> & ->).
  apply get_returns in Hid as (dd & Hdd & ->).
  apply get_returns in Hname as (dd' & Hdd' & ->).
  rewrite Hdd in Hdd'. inversion Hdd'; subst dd'. clear Hdd'.
  apply get_returns in Hcds as (d' & Hd' & ->).
  inversion Hd'; subst d'. clear Hd'.
  apply get_returns in Hst as (sd & Hsd & ->).
  apply get_returns in Hstart as (sd' & Hsd' & ->).
  rewrite Hsd in Hsd'. inversion Hsd'; subst sd'. clear Hsd'.
  pose proof (duty_status_field_assoc d sd "hosStatusType" Hsd) as Ftype.
  pose proof (duty_status_field_assoc d sd "hosStatusStartTime" Hsd) as Fstart.
  unfold pc_without_start. rewrite Ftype, Fstart.
  pose proof (fun rest alerts n t =>
                inline_unfold d dd sd rest alerts n t Hdd Hsd) as Hstep.
  cbv zeta in Hstep.
  rewrite default_none_eq_str, default_none_truthy in Hstep.
  destruct (eq_str _ PC_STATUS) eqn:Epc; simpl in H.
  - apply (eq_str_default_true _ _ PC_STATUS_nonempty) in Epc as Htype.
    rewrite Htype in *.
    assert (Eself : eq_str (VStr PC_STATUS) PC_STATUS = true)
      by (apply eq_str_true; reflexivity).
    rewrite Eself.
    destruct (assoc "hosStatusStartTime" sd) as [start|] eqn:Astart.
    + destruct (truthy start) eqn:Tstart; simpl in H.
      * destruct start as [ | | | | s | | ]; simpl in H; try discriminate.
        unfold Entrypoint.check_duration in Hstep.
        cbn [Py.bind str_replace_Z] in Hstep.
        unfold parse_iso in H, Hstep.
        destruct (fromisoformat (replace_Z s)) as [started|];
          simpl in H; cbn [Py.bind] in Hstep.
        -- destruct (dt_sub now started) as [micros|e]; simpl in H;
             cbn [Py.bind] in Hstep; [| discriminate].
           inversion H; subst r; clear H.
           cbn [is_currently_in_pc exceeds_threshold get_alerts andb negb].
           destruct (Qle_bool th (fdiv (total_seconds micros) 3600)) eqn:Ele.
           ++ unfold get in Hstep. cbn [Py.bind] in Hstep.
              eexists. exists []. split.
              ** intros. rewrite Hstep, (app_nil_r t), Nat.add_0_r.
                 reflexivity.
              ** constructor; [| constructor].
                 unfold same_driver, same_identity. simpl.
                 do 4 eexists. split; [reflexivity|].
                 split; [| split; [| reflexivity]].
                 --- destruct (assoc "id" dd); auto.
                 --- destruct (assoc "name" dd); auto.
           ++ exists [], []. split; [| constructor].
              intros. rewrite Hstep, !app_nil_r, Nat.add_0_r. reflexivity.
        -- inversion H; subst r; clear H.
           cbn [is_currently_in_pc exceeds_threshold get_alerts andb negb].
           eexists []. eexists. split; [| constructor].
           intros. rewrite Hstep, (app_nil_r alerts), Nat.add_0_r.
           reflexivity.
      * inversion H; subst r; clear H.
           cbn [is_currently_in_pc exceeds_threshold get_alerts andb negb].
        exists [], []. split; [| constructor].
        intros. rewrite Hstep, !app_nil_r, Nat.add_0_r. reflexivity.
    + simpl in H. inversion H; subst r; clear H.
           cbn [is_currently_in_pc exceeds_threshold get_alerts andb negb].
      exists [], []. split; [| constructor].
      intros. rewrite Hstep, !app_nil_r, Nat.add_0_r. reflexivity.
  - inversion H; subst r; clear H.
           cbn [is_currently_in_pc exceeds_threshold get_alerts andb negb].
    exists [], []. split; [| constructor].
    intros. rewrite Hstep, !app_nil_r.
    destruct (assoc "hosStatusType" sd) as [stv|];
      rewrite ?Epc; cbn [andb]; rewrite ?Nat.add_0_r; reflexivity.
Qed.
(** [analyze_all_clocks] analyses the records one by one, in order. *)
Lemma analyze_all_clocks_loop_spec clocks :
  forall acc results,
    analyze_all_clocks_loop fromisoformat th clocks now acc
    = Returns results ->
    exists rs,
      results = acc ++ rs /\
      Forall2 (fun c r => analyze_clock fromisoformat th c now = Returns r)
              clocks rs.
Proof.
  induction clocks as [|c rest IH]; intros acc results H; simpl in H.
  - inversion H. exists []. now rewrite app_nil_r.
  - apply bind_returns in H as (r & Hr & H).
    apply IH in H as (rs & -> & Hall).
    exists (r :: rs). rewrite <- app_assoc. auto.
Qed.

(** The inline loop on a snapshot the analyzer accepts. *)
Lemma inline_loop clocks rs :
  Forall2 (fun c r => analyze_clock fromisoformat th c now = Returns r)
          clocks rs ->
  forall alerts n t,
  exists new d,
    Entrypoint.analyze_loop fromisoformat corr_id clocks now th alerts n t
    = (Returns (alerts ++ new,
                (n + length (filter is_currently_in_pc rs)
                 + length (filter pc_without_start clocks))%nat),
       t ++ d) /\
    Forall2 same_driver new (get_alerts rs).
Proof.
  induction 1 as [|c r clocks rs Hc Hall IH]; intros alerts n t.
  - exists [], []. simpl. unfold ret.
    rewrite !app_nil_r, !Nat.add_0_r. auto.
  - destruct (inline_step c r Hc) as (new1 & d1 & Hstep & Hsame1).
    rewrite Hstep.
    destruct (IH (alerts ++ new1)
                 (n + (if is_currently_in_pc r then 1 else 0)
                  + (if pc_without_start c then 1 else 0))%nat
                 (t ++ d1)) as (new2 & d2 & Hrun & Hsame2).
    exists (new1 ++ new2), (d1 ++ d2). rewrite Hrun. split.
    + rewrite <- !app_assoc. do 2 f_equal. f_equal. cbn [filter].
      destruct (is_currently_in_pc r), (pc_without_start c); simpl; lia.
    + replace (get_alerts (r :: rs)) with (get_alerts [r] ++ get_alerts rs)
        by (simpl; destruct (exceeds_threshold r); reflexivity).
      now apply Forall2_app.
Qed.

End InlineFacts.

Lemma violation_labels_return fstring alerts rs :
  Forall2 same_driver alerts rs ->
  exists labels,
    Entrypoint.violation_labels fstring alerts = Returns labels.
Proof.
  induction 1 as [|a r alerts rs Ha Hall (labels & IH)]; simpl.
  - eauto.
  - destruct Ha as (id & name & hours & start & -> & _).
    simpl. rewrite IH. simpl. eauto.
Qed.

Lemma iobind_returns {A B : Type} (c : io A) (k : A -> io B) t b t' :
  iobind c k t = (Returns b, t') ->
  exists a t1, c t = (Returns a, t1) /\ k a t1 = (Returns b, t').
Proof.
  unfold iobind. destruct (c t) as [[a|e] t1]; intros H.
  - eauto.
  - discriminate.
Qed.

Lemma lift_returns {A : Type} (r : result A) t a t1 :
  lift r t = (Returns a, t1) -> r = Returns a.
Proof. unfold lift. now inversion 1. Qed.

(** A response of the structured run carries the summary of its
    analysis. *)
Lemma analyze_and_alert_returns
      fromisoformat isoformat http_post utcnow event cfg hos_clocks
      current_time t resp t' :
  Handler.analyze_and_alert fromisoformat isoformat http_post utcnow event
                            cfg hos_clocks current_time t
  = (Returns resp, t') ->
  exists results delivery detail,
    analyze_all_clocks fromisoformat (Handler.pc_threshold_hours cfg)
                       hos_clocks current_time = Returns results /\
    resp = Handler.mk_response 200
             (Handler.Success
                (Handler.summary_of (Handler.pc_threshold_hours cfg)
                                    hos_clocks results)
                (map (to_dict isoformat) (get_alerts results))
                delivery detail).
Proof.
  unfold Handler.analyze_and_alert. intros H.
  apply iobind_returns in H as (? & t1 & _ & H).
  apply iobind_returns in H as (results & t2 & Hres & H).
  apply lift_returns in Hres.
  apply iobind_returns in H as (? & t3 & _ & H).
  apply iobind_returns in H as (? & t4 & _ & H).
  apply iobind_returns in H as (delivery & t5 & _ & H).
  apply iobind_returns in H as (? & t6 & _ & H).
  apply iobind_returns in H as (event_body & t7 & _ & H).
  apply iobind_returns in H as (detailed & t8 & _ & H).
  unfold ret in H. inversion H.
  exists results, delivery. eauto.
Qed.

(** Claim C7, as amended.  Take a snapshot on which the structured run
    (steps 2 to 5 of [handler.main]) returns a response.  Then the inline
    script, on the same snapshot, reference time and threshold, returns
    a report with the same [drivers_checked] and [alerts_triggered], and
    its alerts name the same drivers in the same order with the same
    rounded hours.  Its [drivers_in_pc] is that of the structured run
    plus the number of personalConveyance records that have no start
    time; the two agree when there is no such record. *)
Theorem inline_and_structured_runs_agree
        (fromisoformat : string -> option datetime)
        (isoformat : datetime -> string)
        (fstring : list fragment -> string)
        (http_post : trace -> value -> value -> http_reply)
        (utcnow : trace -> datetime)
        (event : value) (cfg : Handler.config) (corr_id : value)
        (clocks : list value) (now : datetime)
        (t t' u : trace) (resp : Handler.response) :
  Handler.analyze_and_alert fromisoformat isoformat http_post utcnow event
                            cfg clocks now t
  = (Returns resp, t') ->
  exists violators hs delivery detail s alerts d,
    Handler.body resp
    = Handler.Success hs (map (to_dict isoformat) violators) delivery detail /\
    Entrypoint.analyze_and_report fromisoformat fstring corr_id clocks now
                                  (Handler.pc_threshold_hours cfg) u
    = (Returns (Entrypoint.Report s alerts), u ++ d) /\
    Entrypoint.drivers_checked s = Handler.drivers_checked hs /\
    Entrypoint.alerts_triggered s = Handler.alerts_triggered hs /\
    Forall2 same_driver alerts violators /\
    Entrypoint.drivers_in_pc s
    = (Handler.drivers_in_pc hs
       + length (filter pc_without_start clocks))%nat /\
    (Forall (fun c => pc_without_start c = false) clocks ->
     Entrypoint.drivers_in_pc s = Handler.drivers_in_pc hs).
Proof.
  intros Hrun.
  apply analyze_and_alert_returns in Hrun
    as (results & delivery & detail & Hres & ->).
  set (th := Handler.pc_threshold_hours cfg) in *.
  unfold analyze_all_clocks in Hres.
  apply analyze_all_clocks_loop_spec in Hres as (rs & -> & Hall).
  simpl app.
  destruct (inline_loop fromisoformat th corr_id now clocks rs Hall [] 0%nat u)
    as (alerts & d1 & Hloop & Hsame).
  simpl in Hloop.
  destruct (violation_labels_return fstring alerts _ Hsame)
    as (labels & Hlabels).
  exists (get_alerts rs),
    (Handler.summary_of th clocks rs), delivery, detail.
  unfold Entrypoint.analyze_and_report.
  unfold iobind at 1. rewrite Hloop. cbn [fst snd].
  unfold iobind at 1, lift at 1. rewrite Hlabels.
  assert (Hcount : forall k,
             (k = length (filter is_currently_in_pc rs)
                  + length (filter pc_without_start clocks))%nat ->
             k = (Handler.drivers_in_pc (Handler.summary_of th clocks rs)
                  + length (filter pc_without_start clocks))%nat)
    by (intros k ->; reflexivity).
  assert (Hnone : Forall (fun c => pc_without_start c = false) clocks ->
                  length (filter pc_without_start clocks) = 0%nat).
  { clear. induction 1 as [|c l Hc _ IH]; simpl; [reflexivity|].
    now rewrite Hc. }
  assert (Hlen : length alerts = length (get_alerts rs))
    by (eapply Forall2_length; eassumption).
  destruct alerts as [|a alerts].
  - eexists. exists []. eexists.
    split; [reflexivity|]. split.
    { unfold iobind, ret, emit. rewrite <- !app_assoc. reflexivity. }
    simpl. repeat split; auto.
    intros Hall0. rewrite (Hnone Hall0). lia.
  - eexists. exists (a :: alerts). eexists.
    split; [reflexivity|]. split.
    { unfold iobind, ret, emit. rewrite <- !app_assoc. reflexivity. }
    cbn [Entrypoint.drivers_checked Entrypoint.alerts_triggered
         Entrypoint.drivers_in_pc Handler.summary_of Handler.drivers_checked
         Handler.alerts_triggered Handler.drivers_in_pc].
    repeat split; auto.
    intros Hall0. rewrite (Hnone Hall0). lia.
Qed.

Lemma inline_and_structured_runs_agree_witness :
  exists violators hs delivery detail s alerts d,
    Handler.body
      (Handler.mk_response 200
         (Handler.Success
            (Handler.mk_summary 3 2 1 16)
            [to_dict Samples.isoformat
               (mk_result (VStr "d2") (VStr "Bob") true
                          (fdiv (total_seconds 61200000000) 3600)
                          (Some Samples.midnight) true 16)]
            (Some (Alerting.mk_bulk
                     1 1 0 [Alerting.mk_send_result true false false []]))
            None))
    = Handler.Success hs (map (to_dict Samples.isoformat) violators)
                      delivery detail /\
    Entrypoint.analyze_and_report
      Samples.fromisoformat Samples.fstring (VStr "run-1")
      [Samples.ann_off_duty; Samples.bob_pc; Samples.cal_pc_garbled]
      Samples.five_pm (Handler.pc_threshold_hours Samples.defaults) []
    = (Returns (Entrypoint.Report s alerts), [] ++ d) /\
    Entrypoint.drivers_checked s = Handler.drivers_checked hs /\
    Entrypoint.alerts_triggered s = Handler.alerts_triggered hs /\
    Forall2 same_driver alerts violators /\
    Entrypoint.drivers_in_pc s
    = (Handler.drivers_in_pc hs
       + length (filter pc_without_start
                        [Samples.ann_off_duty; Samples.bob_pc;
                         Samples.cal_pc_garbled]))%nat /\
    (Forall (fun c => pc_without_start c = false)
            [Samples.ann_off_duty; Samples.bob_pc; Samples.cal_pc_garbled] ->
     Entrypoint.drivers_in_pc s = Handler.drivers_in_pc hs).
Proof.
  eapply (inline_and_structured_runs_agree
            Samples.fromisoformat Samples.isoformat Samples.fstring
            Samples.post_ok Samples.clock_5pm (VDict []) Samples.defaults
            (VStr "run-1")
            [Samples.ann_off_duty; Samples.bob_pc; Samples.cal_pc_garbled]
            Samples.five_pm []).
  vm_compute. reflexivity.
Defined.


(** The claim as stated fails on a driver in personal conveyance whose
    record has no start time: the inline script counts the driver, the
    structured run does not. *)
Lemma inline_counts_a_driver_the_analyzer_drops :
  exists hs s,
    fst (Handler.analyze_and_alert
           Samples.fromisoformat Samples.isoformat Samples.post_ok
           Samples.clock_5pm (VDict []) Samples.defaults
           [Samples.eve_pc_no_start] Samples.five_pm [])
    = Returns (Handler.mk_response 200 (Handler.Success hs [] None None)) /\
    fst (Entrypoint.analyze_and_report
           Samples.fromisoformat Samples.fstring (VStr "run-1")
           [Samples.eve_pc_no_start] Samples.five_pm 16 [])
    = Returns (Entrypoint.Report s []) /\
    Handler.drivers_checked hs = 1%nat /\
    Entrypoint.drivers_checked s = 1%nat /\
    Handler.drivers_in_pc hs = 0%nat /\
    Entrypoint.drivers_in_pc s = 1%nat /\
    Entrypoint.drivers_in_pc s <> Handler.drivers_in_pc hs.
Proof.
  eexists. eexists.
  split; [vm_compute; reflexivity|].
  split; [vm_compute; reflexivity|].
  repeat split. discriminate.
Qed.

(** The structured run gives up on a snapshot the inline script gets
    through: a start time that is not a string. *)
Example structured_run_stops_where_inline_goes_on :
  fst (Handler.analyze_and_alert
         Samples.fromisoformat Samples.isoformat Samples.post_ok
         Samples.clock_5pm (VDict []) Samples.defaults
         [Samples.bob_pc; Samples.dee_pc_epoch] Samples.five_pm [])
  = Raises (mk_exn AttributeError "'int' object has no attribute 'replace'")
  /\
  exists s alert,
    fst (Entrypoint.analyze_and_report
           Samples.fromisoformat Samples.fstring (VStr "run-1")
           [Samples.bob_pc; Samples.dee_pc_epoch] Samples.five_pm 16 [])
    = Returns (Entrypoint.Report s [alert]) /\
    Entrypoint.drivers_in_pc s = 2%nat /\
    Entrypoint.alerts_triggered s = 1%nat.
Proof.
  split; [vm_compute; reflexivity|].
  eexists. eexists. split; [vm_compute; reflexivity|]. split; reflexivity.
Qed.


(** * Threshold resolution *)

(** How [get_config] resolves the threshold from a dict body. *)
Lemma get_config_threshold json_loads float_of_string environ body cfg :
  Handler.get_config json_loads float_of_string environ
                     (Samples.body_event body)
  = Returns cfg ->
  Handler.py_float float_of_string
    (py_or match assoc "pc_threshold_hours" body with
           | Some v => v
           | None => VNone
           end
           match assoc "PC_THRESHOLD_HOURS" environ with
           | Some s => VStr s
           | None => VFloat Handler.DEFAULT_PC_THRESHOLD_HOURS
           end)
  = Returns (Handler.pc_threshold_hours cfg).
Proof.
  unfold Handler.get_config, Samples.body_event. simpl. intros H.
  unfold Handler.environ_get in H at 1.
  destruct (Handler.py_float _ _) as [q|e]; simpl in H; [| discriminate].
  destruct (Handler.list_setting environ (VDict body) "driver_tag_ids"
                                 "DRIVER_TAG_IDS") as [tags|e];
    simpl in H; [| discriminate].
  destruct (Handler.list_setting environ (VDict body) "email_recipients"
                                 "EMAIL_RECIPIENTS") as [rcpt|e];
    simpl in H; [| discriminate].
  inversion H. reflexivity.
Qed.

(** A non-zero number in the body is the threshold used. *)
Lemma get_config_uses_nonzero_override
      json_loads float_of_string environ body (z : Z) cfg :
  assoc "pc_threshold_hours" body = Some (VInt z) -> z <> 0%Z ->
  Handler.get_config json_loads float_of_string environ
                     (Samples.body_event body)
  = Returns cfg ->
  Handler.pc_threshold_hours cfg = b64 (inject_Z z) /\
  ((Z.abs z < 2 ^ 53)%Z -> (Handler.pc_threshold_hours cfg == inject_Z z)%Q).
Proof.
  intros Hb Hz H. apply get_config_threshold in H. rewrite Hb in H.
  unfold py_or in H. simpl in H.
  destruct (Z.eqb_spec z 0); [contradiction|]. simpl in H.
  destruct (Qle_bool _ _); [discriminate|]. inversion H.
  split; [reflexivity|]. apply b64_small_int.
Qed.

(** Claim C8, evaluated where the code departs from it.  An event body
    that supplies [pc_threshold_hours] = 0, with no environment default
    set: [get_config] resolves the threshold to the hard-coded 16 hours,
    not to the supplied 0, because [body.get(..) or ..] treats 0 as
    missing.  The inline script, on the same override, uses 0. *)
Theorem get_config_drops_zero_override
        (json_loads : string -> option value)
        (float_of_string : string -> option Q) :
  Handler.get_config json_loads float_of_string []
                     (Samples.body_event [("pc_threshold_hours", VInt 0)])
  = Returns (Handler.mk_cfg 16 VNone VNone VNone) /\
  Entrypoint.resolve_threshold float_of_string
                               (VDict [("pc_threshold_hours", VInt 0)])
  = Returns 0.
Proof. split; reflexivity. Qed.

(** With an empty environment the handler falls back to 16 hours. *)
Example get_config_default_threshold :
  Handler.get_config Samples.no_json (fun _ => None) []
                     (Samples.body_event [])
  = Returns Samples.defaults.
Proof. reflexivity. Qed.

Example get_config_override_wins :
  Handler.get_config Samples.no_json (fun _ => Some 12%Q)
                     [("PC_THRESHOLD_HOURS", "12")]
                     (Samples.body_event [("pc_threshold_hours", VInt 8)])
  = Returns (Handler.mk_cfg 8 VNone VNone VNone).
Proof. reflexivity. Qed.

Example get_config_environment_default :
  Handler.get_config Samples.no_json (fun _ => Some 12%Q)
                     [("PC_THRESHOLD_HOURS", "12")]
                     (Samples.body_event [])
  = Returns (Handler.mk_cfg 12 VNone VNone VNone).
Proof. reflexivity. Qed.

(** With the environment default set, a supplied zero yields the
    environment default. *)
Example get_config_zero_yields_environment_default :
  Handler.get_config Samples.no_json (fun _ => Some 12%Q)
                     [("PC_THRESHOLD_HOURS", "12")]
                     (Samples.body_event [("pc_threshold_hours", VInt 0)])
  = Returns (Handler.mk_cfg 12 VNone VNone VNone).
Proof. reflexivity. Qed.


(** * Secrets *)

Section SecretsFacts.

Variable environ : list (string * string).
Variable json_loads : string -> option value.
Variable sts_client : result unit.
Variable assume_role : string -> string -> result value.
Variable ssm_client : value -> result unit.
Variable get_parameter : value -> string -> result value.

(** [get_credentials] does not write to the trace, and fails only when
    nothing usable is cached and the role cannot be assumed. *)
Lemma get_credentials_raises force cache t e cache' t' :
  Secrets.get_credentials environ sts_client assume_role force cache t
  = (Raises e, cache', t') ->
  (cache = None \/ force = true) /\
  Secrets.assume_exec_role environ sts_client assume_role = Raises e /\
  cache' = cache /\ t' = t.
Proof.
  unfold Secrets.get_credentials.
  destruct cache as [c|], force;
    destruct (Secrets.assume_exec_role environ sts_client assume_role);
    intros H; inversion H; subst; auto.
Qed.

End SecretsFacts.

(** Claim C9, as amended.  [get_secrets] returns an empty mapping when
    no secrets path is configured.  With a path configured:
    - once the credentials and the SSM client have been obtained it does
      not raise: it returns the secrets decoded from the parameter when
      the fetch and the decoding go through, and an empty mapping (after
      printing the fault) when either fails;
    - a fault of the credential exchange is not caught: [get_secrets]
      raises what [get_credentials] raises, which with an empty cache is
      the fault of the exchange, be it a missing role ARN, a refusal by
      STS or a malformed reply of STS;
    - a fault in the creation of the SSM client is not caught either.
    Nothing else makes [get_secrets] raise.  The inline entry point
    catches what it raises and goes on with an empty mapping. *)
Theorem get_secrets_faults
        (environ : list (string * string))
        (json_loads : string -> option value)
        (sts_client : result unit)
        (assume_role : string -> string -> result value)
        (ssm_client : value -> result unit)
        (get_parameter : value -> string -> result value)
        (corr_id : value) (cache : option value) (t : trace) :
  (* no secrets path: an empty mapping *)
  ((assoc "SamsaraFunctionSecretsPath" environ = None \/
    assoc "SamsaraFunctionSecretsPath" environ = Some "") ->
   Secrets.get_secrets environ json_loads sts_client assume_role ssm_client
                       get_parameter cache t
   = (Returns (VDict []), cache, t)) /\
  (* a path is configured *)
  (forall path,
      assoc "SamsaraFunctionSecretsPath" environ = Some path -> path <> "" ->
      (* credentials and client in hand *)
      (forall creds cache' t1 u,
          Secrets.get_credentials environ sts_client assume_role false cache t
          = (Returns creds, cache', t1) ->
          ssm_client creds = Returns u ->
          (* the fetch and the decoding go through: the decoded secrets *)
          (forall response parameter text secrets,
              get_parameter creds path = Returns response ->
              getitem response "Parameter" = Returns parameter ->
              getitem parameter "Value" = Returns (VStr text) ->
              json_loads text = Some secrets ->
              Secrets.get_secrets environ json_loads sts_client assume_role
                                  ssm_client get_parameter cache t
              = (Returns secrets, cache', t1)) /\
          (* either fails: an empty mapping, and the fault printed *)
          (forall e,
              Secrets.fetch_parameter json_loads get_parameter creds path
              = Raises e ->
              Secrets.get_secrets environ json_loads sts_client assume_role
                                  ssm_client get_parameter cache t
              = (Returns (VDict []), cache',
                 t1 ++ [Stdout [Lit "Error fetching secrets: ";
                                Lit (exn_msg e)]])) /\
          (* in no case does it raise *)
          (exists secrets t',
              Secrets.get_secrets environ json_loads sts_client assume_role
                                  ssm_client get_parameter cache t
              = (Returns secrets, cache', t'))) /\
      (* a fault of the credential exchange propagates *)
      (forall e cache' t1,
          Secrets.get_credentials environ sts_client assume_role false cache t
          = (Raises e, cache', t1) ->
          Secrets.get_secrets environ json_loads sts_client assume_role
                              ssm_client get_parameter cache t
          = (Raises e, cache', t1)) /\
      (cache = None ->
       forall e,
         Secrets.assume_exec_role environ sts_client assume_role = Raises e ->
         Secrets.get_secrets environ json_loads sts_client assume_role
                             ssm_client get_parameter cache t
         = (Raises e, None, t)) /\
      (* a fault in the creation of the SSM client propagates *)
      (forall creds cache' t1 e,
          Secrets.get_credentials environ sts_client assume_role false cache t
          = (Returns creds, cache', t1) ->
          ssm_client creds = Raises e ->
          Secrets.get_secrets environ json_loads sts_client assume_role
                              ssm_client get_parameter cache t
          = (Raises e, cache', t1))) /\
  (* the faults of the credential exchange *)
  (forall u,
      sts_client = Returns u ->
      (assoc "SamsaraFunctionExecRoleArn" environ = None ->
       Secrets.assume_exec_role environ sts_client assume_role
       = Raises (mk_exn KeyError (py_repr "SamsaraFunctionExecRoleArn"))) /\
      (forall arn,
          assoc "SamsaraFunctionExecRoleArn" environ = Some arn ->
          let session :=
            match assoc "SamsaraFunctionName" environ with
            | Some name => name
            | None => "function"
            end in
          (forall e, assume_role arn session = Raises e ->
                     Secrets.assume_exec_role environ sts_client assume_role
                     = Raises e) /\
          (forall reply e,
              assume_role arn session = Returns reply ->
              getitem reply "Credentials" = Raises e ->
              Secrets.assume_exec_role environ sts_client assume_role
              = Raises e) /\
          (forall reply c e,
              assume_role arn session = Returns reply ->
              getitem reply "Credentials" = Returns c ->
              getitem c "AccessKeyId" = Raises e \/
              (returns (getitem c "AccessKeyId") = true /\
               getitem c "SecretAccessKey" = Raises e) \/
              (returns (getitem c "AccessKeyId") = true /\
               returns (getitem c "SecretAccessKey") = true /\
               getitem c "SessionToken" = Raises e) ->
              Secrets.assume_exec_role environ sts_client assume_role
              = Raises e))) /\
  (* what it raises comes from the credential exchange or the client *)
  (forall e cache' t',
      Secrets.get_secrets environ json_loads sts_client assume_role
                          ssm_client get_parameter cache t
      = (Raises e, cache', t') ->
      Secrets.assume_exec_role environ sts_client assume_role = Raises e \/
      exists creds, ssm_client creds = Raises e) /\
  (* the inline entry point catches it *)
  (forall e cache' t',
      Secrets.get_secrets environ json_loads sts_client assume_role
                          ssm_client get_parameter cache t
      = (Raises e, cache', t') ->
      Entrypoint.load_secrets json_loads environ sts_client assume_role
                              ssm_client get_parameter corr_id cache t
      = (VDict [], cache',
         t' ++ [Stdout [Shown corr_id; Lit " Secrets error: ";
                        Lit (exn_msg e)]])) /\
  (* and always ends up with a mapping *)
  (exists secrets,
      fst (fst (Entrypoint.load_secrets
                  json_loads environ sts_client assume_role ssm_client
                  get_parameter corr_id cache t))
      = VDict secrets /\
      (returns (fst (fst (Secrets.get_secrets
                            environ json_loads sts_client assume_role
                            ssm_client get_parameter cache t))) = false ->
       secrets = [])).
Proof.
  split; [| split; [| split; [| split; [| split]]]].
  - unfold Secrets.get_secrets. intros [-> | ->]; reflexivity.
  - intros path Hpath Hne.
    assert (Hrun :
      Secrets.get_secrets environ json_loads sts_client assume_role
                          ssm_client get_parameter cache t
      = match Secrets.get_credentials environ sts_client assume_role false
                                      cache t with
        | (Raises e, c, t1) => (Raises e, c, t1)
        | (Returns creds, c, t1) =>
            match ssm_client creds with
            | Raises e => (Raises e, c, t1)
            | Returns _ =>
                match Secrets.fetch_parameter json_loads get_parameter
                                              creds path with
                | Returns secrets => (Returns secrets, c, t1)
                | Raises e =>
                    (Returns (VDict []), c,
                     t1 ++ [Stdout [Lit "Error fetching secrets: ";
                                    Lit (exn_msg e)]])
                end
            end
        end).
    { unfold Secrets.get_secrets. rewrite Hpath.
      destruct (String.eqb_spec path ""); [contradiction | reflexivity]. }
    rewrite Hrun. clear Hrun.
    split; [| split; [| split]].
    + intros creds cache' t1 u Hcreds Hclient.
      rewrite Hcreds, Hclient. split; [| split].
      * intros response parameter text secrets Hget Hpar Hval Hjson.
        unfold Secrets.fetch_parameter, Handler.loads.
        rewrite Hget. cbn [Py.bind]. rewrite Hpar. cbn [Py.bind].
        rewrite Hval. cbn [Py.bind]. rewrite Hjson. reflexivity.
      * intros e He. rewrite He. reflexivity.
      * destruct (Secrets.fetch_parameter json_loads get_parameter creds path);
          eauto.
    + intros e cache' t1 Hcreds. rewrite Hcreds. reflexivity.
    + intros -> e He. unfold Secrets.get_credentials. rewrite He.
      reflexivity.
    + intros creds cache' t1 e Hcreds Hclient.
      rewrite Hcreds, Hclient. reflexivity.
  - intros u Hsts. unfold Secrets.assume_exec_role, Secrets.environ_item.
    rewrite Hsts. cbn [Py.bind]. split.
    + intros ->. reflexivity.
    + intros arn ->. cbn [Py.bind]. cbv zeta. split; [| split].
      * intros e ->. reflexivity.
      * intros reply e Hreply Hcred. rewrite Hreply. cbn [Py.bind].
        rewrite Hcred. reflexivity.
      * intros reply c e Hreply Hcred Hkeys. rewrite Hreply. cbn [Py.bind].
        rewrite Hcred. cbn [Py.bind].
        destruct Hkeys as [H1 | [(H1 & H2) | (H1 & H2 & H3)]].
        -- rewrite H1. reflexivity.
        -- destruct (getitem c "AccessKeyId"); [| discriminate].
           cbn [Py.bind]. rewrite H2. reflexivity.
        -- destruct (getitem c "AccessKeyId"); [| discriminate].
           destruct (getitem c "SecretAccessKey"); [| discriminate].
           cbn [Py.bind]. rewrite H3. reflexivity.
  - intros e cache' t'. unfold Secrets.get_secrets.
    destruct (assoc "SamsaraFunctionSecretsPath" environ) as [path|];
      [| discriminate].
    destruct (String.eqb path ""); [discriminate|].
    destruct (Secrets.get_credentials environ sts_client assume_role false
                                      cache t)
      as [[[creds|e1] c1] t1] eqn:Ecreds.
    + destruct (ssm_client creds) as [u|e2] eqn:Eclient.
      * destruct (Secrets.fetch_parameter _ _ _ _); discriminate.
      * intros H. inversion H; subst. right. eauto.
    + intros H. inversion H; subst. left.
      apply get_credentials_raises in Ecreds. tauto.
  - intros e cache' t' H. unfold Entrypoint.load_secrets. rewrite H.
    reflexivity.
  - unfold Entrypoint.load_secrets.
    destruct (Secrets.get_secrets environ json_loads sts_client assume_role
                                  ssm_client get_parameter cache t)
      as [[[secrets|e] c1] t1].
    + destruct secrets; simpl; eexists; (split; [reflexivity|]);
        discriminate.
    + simpl. eexists. split; reflexivity.
Qed.

(** A deployment in which everything answers: the secrets stored under
    the path are returned as decoded; with a parameter that is not JSON
    the result is the empty mapping; when STS refuses the role the call
    raises. *)
Lemma get_secrets_faults_witness :
  let environ := [("SamsaraFunctionSecretsPath", "/functions/pc-alert");
                  ("SamsaraFunctionExecRoleArn", "arn:aws:iam::1:role/x")] in
  let sts_reply :=
    VDict [("Credentials",
            VDict [("AccessKeyId", VStr "AK"); ("SecretAccessKey", VStr "SK");
                   ("SessionToken", VStr "ST")])] in
  let creds := VDict [("aws_access_key_id", VStr "AK");
                      ("aws_secret_access_key", VStr "SK");
                      ("aws_session_token", VStr "ST")] in
  let stored := VDict [("Parameter", VDict [("Value", VStr "{...}")])] in
  let secrets := VDict [("SAMSARA_API_KEY", VStr "k-1")] in
  Secrets.get_secrets environ (fun _ => Some secrets) (Returns tt)
                      (fun _ _ => Returns sts_reply) (fun _ => Returns tt)
                      (fun _ _ => Returns stored) None []
  = (Returns secrets, Some creds, []) /\
  Secrets.get_secrets environ Samples.no_json (Returns tt)
                      (fun _ _ => Returns sts_reply) (fun _ => Returns tt)
                      (fun _ _ => Returns stored) None []
  = (Returns (VDict []), Some creds,
     [] ++ [Stdout [Lit "Error fetching secrets: ";
                    Lit "Expecting value"]]) /\
  Secrets.get_secrets environ Samples.no_json (Returns tt)
                      Samples.sts_denies (fun _ => Returns tt)
                      (fun _ _ => Returns stored) None []
  = (Raises (mk_exn ClientError "AccessDenied"), None, []).
Proof.
  intros environ sts_reply creds stored secrets.
  split; [| split].
  - destruct (get_secrets_faults
                environ (fun _ => Some secrets) (Returns tt)
                (fun _ _ => Returns sts_reply) (fun _ => Returns tt)
                (fun _ _ => Returns stored) VNone None [])
      as (_ & Hpath & _).
    destruct (Hpath "/functions/pc-alert" eq_refl ltac:(discriminate))
      as (Hok & _).
    destruct (Hok creds (Some creds) [] tt eq_refl eq_refl) as (Hdec & _).
    apply (Hdec stored (VDict [("Value", VStr "{...}")]) "{...}" secrets);
      reflexivity.
  - destruct (get_secrets_faults
                environ Samples.no_json (Returns tt)
                (fun _ _ => Returns sts_reply) (fun _ => Returns tt)
                (fun _ _ => Returns stored) VNone None [])
      as (_ & Hpath & _).
    destruct (Hpath "/functions/pc-alert" eq_refl ltac:(discriminate))
      as (Hok & _).
    destruct (Hok creds (Some creds) [] tt eq_refl eq_refl) as (_ & Hbad & _).
    apply (Hbad (mk_exn JSONDecodeError "Expecting value")). reflexivity.
  - destruct (get_secrets_faults
                environ Samples.no_json (Returns tt)
                Samples.sts_denies (fun _ => Returns tt)
                (fun _ _ => Returns stored) VNone None [])
      as (_ & Hpath & _).
    destruct (Hpath "/functions/pc-alert" eq_refl ltac:(discriminate))
      as (_ & _ & Hexch & _).
    apply (Hexch eq_refl). reflexivity.
Defined.

(** The claim as stated fails when the role to assume is not configured,
    and when STS refuses the role: [get_secrets] raises. *)
Lemma get_secrets_raises_on_credential_faults :
  Secrets.get_secrets Samples.environ_without_role Samples.no_json
                      (Returns tt) Samples.sts_denies
                      (fun _ => Returns tt) (fun _ _ => Returns VNone)
                      None []
  = (Raises (mk_exn KeyError "'SamsaraFunctionExecRoleArn'"), None, []) /\
  Secrets.get_secrets
    (("SamsaraFunctionExecRoleArn", "arn:aws:iam::1:role/exec")
       :: Samples.environ_without_role)
    Samples.no_json (Returns tt) Samples.sts_denies
    (fun _ => Returns tt) (fun _ _ => Returns VNone) None []
  = (Raises (mk_exn ClientError "AccessDenied"), None, []).
Proof. split; reflexivity. Qed.

(** The inline entry point survives both. *)
Example load_secrets_survives_credential_faults :
  fst (fst (Entrypoint.load_secrets
              Samples.no_json Samples.environ_without_role (Returns tt)
              Samples.sts_denies (fun _ => Returns tt)
              (fun _ _ => Returns VNone) (VStr "run-1") None []))
  = VDict [].
Proof. reflexivity. Qed.

(* ===================================================================== *)
(** * More on the analyzer                                                *)
(* ===================================================================== *)

(** A record [analyze_clock] returns on has the documented shape. *)
Lemma returns_record_shaped fromisoformat th hos_clock now r :
  analyze_clock fromisoformat th hos_clock now = Returns r ->
  record_shaped hos_clock = true.
Proof.
  unfold analyze_clock. intros H.
  apply bind_returns in H as (driver & Hd & H).
  apply bind_returns in H as (id & Hid & H).
  apply bind_returns in H as (name & Hname & H).
  apply bind_returns in H as (cds & Hcds & H).
  apply bind_returns in H as (st & Hst & _).
  apply get_returns in Hd as (d & -> & ->).
  apply get_returns in Hid as (dd & Hdd & _).
  apply get_returns in Hcds as (d' & Hd' & ->).
  inversion Hd'; subst d'.
  apply get_returns in Hst as (sd & Hsd & _).
  simpl.
  destruct (assoc "driver" d); [subst; simpl|];
    (destruct (assoc "currentDutyStatus" d); [subst; reflexivity|]);
    reflexivity.
Qed.

Lemma analyze_all_clocks_loop_complete fromisoformat th now clocks :
  forall rs acc,
    Forall2 (fun c r => analyze_clock fromisoformat th c now = Returns r)
            clocks rs ->
    analyze_all_clocks_loop fromisoformat th clocks now acc
    = Returns (acc ++ rs).
Proof.
  induction clocks as [|c rest IH]; intros rs acc Hall; inversion Hall; subst.
  - simpl. now rewrite app_nil_r.
  - simpl. rewrite H1. simpl. rewrite (IH _ _ H3), <- app_assoc. reflexivity.
Qed.

(** Property X1.  [analyze_all_clocks] is [analyze_clock] applied record
    by record: it returns a list exactly when every record of the snapshot
    is analysed successfully, and then the list holds the result of each
    record, one per record and in the order of the snapshot. *)
Theorem analyze_all_clocks_pointwise
        (fromisoformat : string -> option datetime) (th : Q)
        (clocks : list value) (now : datetime)
        (results : list PCAnalysisResult) :
  analyze_all_clocks fromisoformat th clocks now = Returns results <->
  Forall2 (fun c r => analyze_clock fromisoformat th c now = Returns r)
          clocks results.
Proof.
  unfold analyze_all_clocks. split.
  - intros H. apply analyze_all_clocks_loop_spec in H as (rs & -> & Hall).
    exact Hall.
  - intros Hall.
    now rewrite (analyze_all_clocks_loop_complete _ _ _ _ _ [] Hall).
Qed.

Lemma analyze_all_clocks_loop_raises fromisoformat th now good :
  forall rs bad rest e acc,
    Forall2 (fun c r => analyze_clock fromisoformat th c now = Returns r)
            good rs ->
    analyze_clock fromisoformat th bad now = Raises e ->
    analyze_all_clocks_loop fromisoformat th (good ++ bad :: rest) now acc
    = Raises e.
Proof.
  induction good as [|c good IH]; intros rs bad rest e acc Hall Hbad;
    inversion Hall; subst; simpl.
  - now rewrite Hbad.
  - rewrite H1. simpl. eapply IH; eassumption.
Qed.

(** Property X2.  The batch has no recovery of its own: when the records
    before [bad] are analysed successfully and [analyze_clock] raises on
    [bad], [analyze_all_clocks] raises that same exception, whatever the
    results already obtained and whatever records follow. *)
Theorem analyze_all_clocks_stops_at_first_failure
        (fromisoformat : string -> option datetime) (th : Q)
        (good : list value) (bad : value) (rest : list value)
        (now : datetime) (rs : list PCAnalysisResult) (e : exn) :
  Forall2 (fun c r => analyze_clock fromisoformat th c now = Returns r)
          good rs ->
  analyze_clock fromisoformat th bad now = Raises e ->
  analyze_all_clocks fromisoformat th (good ++ bad :: rest) now = Raises e.
Proof.
  intros Hall Hbad. unfold analyze_all_clocks.
  eapply analyze_all_clocks_loop_raises; eassumption.
Qed.

Lemma analyze_all_clocks_stops_at_first_failure_witness :
  analyze_all_clocks Samples.fromisoformat 16
                     ([Samples.bob_pc] ++ Samples.dee_pc_epoch
                        :: [Samples.ann_off_duty]) Samples.five_pm
  = Raises (mk_exn AttributeError "'int' object has no attribute 'replace'").
Proof.
  eapply (analyze_all_clocks_stops_at_first_failure
            Samples.fromisoformat 16 [Samples.bob_pc] Samples.dee_pc_epoch
            [Samples.ann_off_duty] Samples.five_pm).
  - constructor; [reflexivity | constructor].
  - reflexivity.
Defined.

(** Property X3.  Lowering the threshold never loses a violation: a
    record that exceeds the threshold [th] also exceeds every smaller or
    equal threshold [th'], with the same hours and the same start time. *)
Theorem lower_threshold_keeps_violation
        (fromisoformat : string -> option datetime) (th th' : Q)
        (hos_clock : value) (now : datetime) (r : PCAnalysisResult) :
  (th' <= th)%Q ->
  analyze_clock fromisoformat th hos_clock now = Returns r ->
  exceeds_threshold r = true ->
  exists r',
    analyze_clock fromisoformat th' hos_clock now = Returns r' /\
    exceeds_threshold r' = true /\
    consecutive_pc_hours r' = consecutive_pc_hours r /\
    pc_start_time r' = pc_start_time r.
Proof.
  intros Hle Hr Hex.
  pose proof (returns_record_shaped _ _ _ _ _ Hr) as Hshape.
  destruct (analyze_clock_cases _ _ _ _ _ Hr)
    as [(id & name & -> & _)
       | [(id & name & s & -> & _)
         | (id & name & s & start & micros & -> & Hin & Hstart & Hs & Hparse
            & Hsub)]];
    try discriminate.
  simpl in Hex. apply Qle_bool_iff in Hex.
  destruct (analyze_clock_shaped fromisoformat th' hos_clock now Hshape)
    as (id' & name' & ->).
  unfold in_target_status in Hin. rewrite Hin, Hstart. cbv zeta.
  assert (Eself : eq_str (VStr PC_STATUS) PC_STATUS = true)
    by (apply eq_str_true; reflexivity).
  assert (Ts : truthy (VStr s) = true).
  { simpl. destruct (String.eqb_spec s ""); [contradiction | reflexivity]. }
  rewrite Eself, Ts. simpl. unfold parse_iso. rewrite Hparse. simpl.
  rewrite Hsub. simpl. eexists. split; [reflexivity|]. simpl.
  repeat split. apply Qle_bool_iff. eapply Qle_trans; eassumption.
Qed.

Lemma lower_threshold_keeps_violation_witness :
  exists r',
    analyze_clock Samples.fromisoformat 8 Samples.bob_pc Samples.five_pm
    = Returns r' /\
    exceeds_threshold r' = true /\
    consecutive_pc_hours r' = fdiv (total_seconds 61200000000) 3600 /\
    pc_start_time r' = Some Samples.midnight.
Proof.
  apply (lower_threshold_keeps_violation
           Samples.fromisoformat 16 8 Samples.bob_pc Samples.five_pm
           (mk_result (VStr "d2") (VStr "Bob") true
                      (fdiv (total_seconds 61200000000) 3600)
                      (Some Samples.midnight) true 16)).
  - discriminate.
  - reflexivity.
  - reflexivity.
Defined.

(** Property X4.  A violation stays one as time passes: if a record exceeds
    the threshold at [now], it exceeds it at every later reference time of
    the same kind (aware or naive), with at least as many hours and the
    same start time. *)
Theorem violation_persists_over_time
        (fromisoformat : string -> option datetime) (th : Q)
        (hos_clock : value) (now later : datetime) (r : PCAnalysisResult) :
  is_aware later = is_aware now ->
  (instant now <= instant later)%Z ->
  analyze_clock fromisoformat th hos_clock now = Returns r ->
  exceeds_threshold r = true ->
  exists r',
    analyze_clock fromisoformat th hos_clock later = Returns r' /\
    exceeds_threshold r' = true /\
    (consecutive_pc_hours r <= consecutive_pc_hours r')%Q /\
    pc_start_time r' = pc_start_time r.
Proof.
  intros Haware Hle Hr Hex.
  pose proof (returns_record_shaped _ _ _ _ _ Hr) as Hshape.
  destruct (analyze_clock_cases _ _ _ _ _ Hr)
    as [(id & name & -> & _)
       | [(id & name & s & -> & _)
         | (id & name & s & start & micros & -> & Hin & Hstart & Hs & Hparse
            & Hsub)]];
    try discriminate.
  simpl in Hex. apply Qle_bool_iff in Hex.
  destruct (analyze_clock_shaped fromisoformat th hos_clock later Hshape)
    as (id' & name' & ->).
  unfold in_target_status in Hin. rewrite Hin, Hstart. cbv zeta.
  assert (Eself : eq_str (VStr PC_STATUS) PC_STATUS = true)
    by (apply eq_str_true; reflexivity).
  assert (Ts : truthy (VStr s) = true).
  { simpl. destruct (String.eqb_spec s ""); [contradiction | reflexivity]. }
  rewrite Eself, Ts. simpl. unfold parse_iso. rewrite Hparse. simpl.
  unfold dt_sub in *. rewrite Haware.
  destruct (Bool.eqb (is_aware now) (is_aware start)); [| discriminate].
  inversion Hsub; subst micros; clear Hsub. simpl.
  assert (Hmono : (fdiv (total_seconds (instant now - instant start)) 3600
                   <= fdiv (total_seconds (instant later - instant start)) 3600)%Q).
  { apply hours_monotone. lia. }
  eexists. split; [reflexivity|]. simpl. repeat split.
  - apply Qle_bool_iff. eapply Qle_trans; eassumption.
  - exact Hmono.
Qed.

Lemma violation_persists_over_time_witness :
  exists r',
    analyze_clock Samples.fromisoformat 16 Samples.bob_pc Samples.five_pm
    = Returns r' /\
    exceeds_threshold r' = true /\
    (fdiv (total_seconds 57600000000) 3600 <= consecutive_pc_hours r')%Q /\
    pc_start_time r' = Some Samples.midnight.
Proof.
  apply (violation_persists_over_time
           Samples.fromisoformat 16 Samples.bob_pc Samples.four_pm
           Samples.five_pm
           (mk_result (VStr "d2") (VStr "Bob") true
                      (fdiv (total_seconds 57600000000) 3600)
                      (Some Samples.midnight) true 16)).
  - reflexivity.
  - discriminate.
  - reflexivity.
  - reflexivity.
Defined.

Lemma violation_is_in_pc fromisoformat th c now r :
  analyze_clock fromisoformat th c now = Returns r ->
  exceeds_threshold r = true ->
  is_currently_in_pc r = true /\ threshold_hours r = th /\
  exists start, pc_start_time r = Some start.
Proof.
  intros Hr Hex.
  destruct (analyze_clock_cases _ _ _ _ _ Hr)
    as [(id & name & -> & _)
       | [(id & name & s & -> & _)
         | (id & name & s & start & micros & -> & _)]];
    try discriminate.
  simpl. eauto.
Qed.

(** Property X5.  The counts of a run are ordered: the drivers alerted are
    at most the drivers in personal conveyance, which are at most the
    drivers checked, and one result is produced per driver checked. *)
Theorem summary_counts_are_ordered
        (fromisoformat : string -> option datetime) (th : Q)
        (clocks : list value) (now : datetime)
        (results : list PCAnalysisResult) :
  analyze_all_clocks fromisoformat th clocks now = Returns results ->
  let s := Handler.summary_of th clocks results in
  (Handler.alerts_triggered s <= Handler.drivers_in_pc s)%nat /\
  (Handler.drivers_in_pc s <= Handler.drivers_checked s)%nat /\
  Handler.drivers_checked s = length results.
Proof.
  unfold analyze_all_clocks. intros H.
  apply analyze_all_clocks_loop_spec in H as (rs & -> & Hall).
  simpl. induction Hall as [|c r clocks rs Hr Hall (IH1 & IH2 & IH3)]; simpl.
  - repeat split; lia.
  - destruct (exceeds_threshold r) eqn:Hex.
    + destruct (violation_is_in_pc _ _ _ _ _ Hr Hex) as (-> & _). simpl.
      repeat split; lia.
    + destruct (is_currently_in_pc r); simpl; repeat split; lia.
Qed.

Lemma summary_counts_are_ordered_witness :
  let s := Handler.summary_of
             16 [Samples.ann_off_duty; Samples.bob_pc; Samples.cal_pc_garbled]
             [mk_result (VStr "d1") (VStr "Ann") false 0 None false 16;
              mk_result (VStr "d2") (VStr "Bob") true
                        (fdiv (total_seconds 61200000000) 3600)
                        (Some Samples.midnight) true 16;
              mk_result (VStr "d3") (VStr "Cal") true 0 None false 16] in
  (Handler.alerts_triggered s <= Handler.drivers_in_pc s)%nat /\
  (Handler.drivers_in_pc s <= Handler.drivers_checked s)%nat /\
  Handler.drivers_checked s = 3%nat.
Proof.
  apply (summary_counts_are_ordered
           Samples.fromisoformat 16
           [Samples.ann_off_duty; Samples.bob_pc; Samples.cal_pc_garbled]
           Samples.five_pm).
  reflexivity.
Defined.

(** Property X6.  Every payload handed to the alerter is a complete
    violation: it is marked as exceeding the threshold and as currently in
    personal conveyance, carries the threshold of the run, a start time
    rendered as a string and numeric hours, and the console rendering of
    it goes through. *)
Theorem alert_payloads_are_complete
        (fromisoformat : string -> option datetime)
        (isoformat : datetime -> string) (th : Q)
        (clocks : list value) (now : datetime)
        (results : list PCAnalysisResult) :
  analyze_all_clocks fromisoformat th clocks now = Returns results ->
  Forall (fun payload =>
            get payload "exceeds_threshold" VNone = Returns (VBool true) /\
            get payload "is_currently_in_pc" VNone = Returns (VBool true) /\
            get payload "threshold_hours" VNone = Returns (VFloat th) /\
            (exists started,
                get payload "pc_start_time" VNone = Returns (VStr started)) /\
            (exists hours,
                get payload "consecutive_pc_hours" VNone
                = Returns (VFloat hours)) /\
            console_renders payload = true)
         (map (to_dict isoformat) (get_alerts results)).
Proof.
  unfold analyze_all_clocks. intros H.
  apply analyze_all_clocks_loop_spec in H as (rs & -> & Hall).
  simpl. induction Hall as [|c r clocks rs Hr Hall IH]; simpl.
  - constructor.
  - destruct (exceeds_threshold r) eqn:Hex; [| exact IH].
    simpl. constructor; [| exact IH].
    destruct (violation_is_in_pc _ _ _ _ _ Hr Hex) as (Hin & Hth & start & Hs).
    unfold to_dict, console_renders. simpl. rewrite Hex, Hin, Hth, Hs.
    repeat split; eauto.
Qed.

Lemma alert_payloads_are_complete_witness :
  Forall (fun payload =>
            get payload "exceeds_threshold" VNone = Returns (VBool true) /\
            get payload "is_currently_in_pc" VNone = Returns (VBool true) /\
            get payload "threshold_hours" VNone = Returns (VFloat 16) /\
            (exists started,
                get payload "pc_start_time" VNone = Returns (VStr started)) /\
            (exists hours,
                get payload "consecutive_pc_hours" VNone
                = Returns (VFloat hours)) /\
            console_renders payload = true)
         (map (to_dict Samples.isoformat)
              (get_alerts
                 [mk_result (VStr "d1") (VStr "Ann") false 0 None false 16;
                  mk_result (VStr "d2") (VStr "Bob") true
                            (fdiv (total_seconds 61200000000) 3600)
                            (Some Samples.midnight) true 16])).
Proof.
  apply (alert_payloads_are_complete
           Samples.fromisoformat Samples.isoformat 16
           [Samples.ann_off_duty; Samples.bob_pc] Samples.five_pm).
  reflexivity.
Defined.

(** Property X7.  A start time that parses but has no UTC offset is not
    recovered: against a timezone-aware reference time the subtraction
    raises [TypeError] outside the [try], so [analyze_clock] raises on such
    a personal-conveyance record. *)
Theorem naive_start_time_raises
        (fromisoformat : string -> option datetime) (th : Q)
        (hos_clock : value) (now : datetime) (s : string) (start : datetime) :
  record_shaped hos_clock = true ->
  in_target_status hos_clock ->
  duty_status_field hos_clock "hosStatusStartTime" = Some (VStr s) ->
  s <> "" ->
  fromisoformat (replace_Z s) = Some start ->
  is_aware start = false ->
  is_aware now = true ->
  analyze_clock fromisoformat th hos_clock now
  = Raises (mk_exn TypeError
                   "can't subtract offset-naive and offset-aware datetimes").
Proof.
  intros Hshape Hin Hstart Hs Hparse Hnaive Haware.
  destruct (analyze_clock_shaped fromisoformat th hos_clock now Hshape)
    as (id & name & ->).
  unfold in_target_status in Hin. rewrite Hin, Hstart. cbv zeta.
  assert (Eself : eq_str (VStr PC_STATUS) PC_STATUS = true)
    by (apply eq_str_true; reflexivity).
  assert (Ts : truthy (VStr s) = true).
  { simpl. destruct (String.eqb_spec s ""); [contradiction | reflexivity]. }
  rewrite Eself, Ts. simpl. unfold parse_iso. rewrite Hparse. simpl.
  unfold dt_sub. rewrite Hnaive, Haware. reflexivity.
Qed.

Lemma naive_start_time_raises_witness :
  analyze_clock
    Samples.fromisoformat 16
    (VDict [Samples.driver "d6" "Fay";
            Samples.duty "personalConveyance"
                         (Samples.started (VStr "2024-01-01T00:00:00"))])
    Samples.five_pm
  = Raises (mk_exn TypeError
                   "can't subtract offset-naive and offset-aware datetimes").
Proof.
  apply (naive_start_time_raises
           Samples.fromisoformat 16 _ Samples.five_pm "2024-01-01T00:00:00"
           (mk_datetime 1704067200000000 None));
    try reflexivity.
  discriminate.
Defined.

(** Property X8.  A start time that is a string and does not parse is
    recovered inside [analyze_clock]: for a personal-conveyance record of
    the documented shape the analysis returns, and the result says the
    driver is in personal conveyance with 0 hours, no start time and no
    violation. *)
Theorem unparseable_start_time_degrades
        (fromisoformat : string -> option datetime) (th : Q)
        (hos_clock : value) (now : datetime) (s : string) :
  record_shaped hos_clock = true ->
  in_target_status hos_clock ->
  duty_status_field hos_clock "hosStatusStartTime" = Some (VStr s) ->
  s <> "" ->
  fromisoformat (replace_Z s) = None ->
  exists r,
    analyze_clock fromisoformat th hos_clock now = Returns r /\
    is_currently_in_pc r = true /\
    (consecutive_pc_hours r == 0)%Q /\
    pc_start_time r = None /\
    exceeds_threshold r = false /\
    PcAnalyzer.threshold_hours r = th.
Proof.
  intros Hshape Hin Hstart Hs Hparse.
  destruct (analyze_clock_unparseable_string
              fromisoformat th hos_clock now s Hshape Hin Hstart Hs Hparse)
    as (id & name & Hrun).
  eexists. split; [exact Hrun|]. simpl. repeat split; reflexivity.
Qed.

Lemma unparseable_start_time_degrades_witness :
  exists r,
    analyze_clock Samples.fromisoformat 16 Samples.cal_pc_garbled
                  Samples.five_pm = Returns r /\
    is_currently_in_pc r = true /\
    (consecutive_pc_hours r == 0)%Q /\
    pc_start_time r = None /\
    exceeds_threshold r = false /\
    PcAnalyzer.threshold_hours r = 16.
Proof.
  apply (unparseable_start_time_degrades
           Samples.fromisoformat 16 Samples.cal_pc_garbled Samples.five_pm
           "yesterday"); try reflexivity.
  discriminate.
Defined.

(* ===================================================================== *)
(** * More on the configuration                                           *)
(* ===================================================================== *)

Section ConfigFacts.

Variable json_loads : string -> option value.
Variable float_of_string : string -> option Q.
Variable environ : list (string * string).

(** [get_config] on an event whose body is, or decodes to, [body]. *)
Lemma get_config_on_body body :
  Handler.get_config json_loads float_of_string environ
                     (Samples.body_event body)
  = (pc_threshold_hours <-
       Handler.py_float float_of_string
         (py_or match assoc "pc_threshold_hours" body with
                | Some v => v
                | None => VNone
                end
                (Handler.environ_get environ "PC_THRESHOLD_HOURS"
                   (VFloat Handler.DEFAULT_PC_THRESHOLD_HOURS))) ;;
     driver_tag_ids <-
       Handler.list_setting environ (VDict body) "driver_tag_ids"
                            "DRIVER_TAG_IDS" ;;
     email_recipients <-
       Handler.list_setting environ (VDict body) "email_recipients"
                            "EMAIL_RECIPIENTS" ;;
     Returns (Handler.mk_cfg
                pc_threshold_hours driver_tag_ids
                (py_or match assoc "webhook_url" body with
                       | Some v => v
                       | None => VNone
                       end
                       (Handler.environ_get environ "WEBHOOK_URL" VNone))
                email_recipients)).
Proof. reflexivity. Qed.

(** Property X9.  The forms of the event body.  A body sent as a JSON
    string that decodes to an object is read like that object; a string
    that is not JSON, and a missing body, are read like the empty object;
    a string that decodes to a JSON array makes [get_config] raise
    [AttributeError], since the decoded value has no [get]. *)
Theorem get_config_decodes_the_body (s : string) :
  (forall body,
      json_loads s = Some (VDict body) ->
      Handler.get_config json_loads float_of_string environ
                         (VDict [("body", VStr s)])
      = Handler.get_config json_loads float_of_string environ
                           (Samples.body_event body)) /\
  (json_loads s = None ->
   Handler.get_config json_loads float_of_string environ
                      (VDict [("body", VStr s)])
   = Handler.get_config json_loads float_of_string environ
                        (Samples.body_event [])) /\
  Handler.get_config json_loads float_of_string environ (VDict [])
  = Handler.get_config json_loads float_of_string environ
                       (Samples.body_event []) /\
  (forall other,
      json_loads s = Some (VList other) ->
      Handler.get_config json_loads float_of_string environ
                         (VDict [("body", VStr s)])
      = Raises (no_attribute (VList other) "get")).
Proof.
  repeat split.
  - intros body Hs. unfold Handler.get_config, Samples.body_event. simpl.
    unfold Handler.loads. rewrite Hs. reflexivity.
  - intros Hs. unfold Handler.get_config, Samples.body_event. simpl.
    unfold Handler.loads. rewrite Hs. reflexivity.
  - intros other Hs. unfold Handler.get_config. simpl.
    unfold Handler.loads. rewrite Hs. reflexivity.
Qed.

Lemma list_setting_value body k K :
  Handler.list_setting environ (VDict body) k K
  = Returns
      match assoc K environ with
      | None => VNone
      | Some s =>
          if String.eqb s "" then VNone
          else py_or match assoc k body with Some v => v | None => VNone end
                     (VList (map VStr (split_comma s)))
      end.
Proof.
  unfold Handler.list_setting, Handler.environ_get.
  destruct (assoc K environ) as [s|]; simpl; [| reflexivity].
  destruct (String.eqb s ""); reflexivity.
Qed.

(** Property X10.  The list settings are gated by the environment.  When
    [DRIVER_TAG_IDS] (or [EMAIL_RECIPIENTS]) is unset or empty the setting
    is [None] even if the body supplies it; when it is set, the setting is
    the body's value if that is truthy and the comma-split environment
    value otherwise.  The webhook URL is the body's if truthy and the
    environment's [WEBHOOK_URL] otherwise. *)
Theorem get_config_list_settings (body : list (string * value))
        (cfg : Handler.config) :
  Handler.get_config json_loads float_of_string environ
                     (Samples.body_event body) = Returns cfg ->
  (assoc "DRIVER_TAG_IDS" environ = None \/
   assoc "DRIVER_TAG_IDS" environ = Some "" ->
   Handler.driver_tag_ids cfg = VNone) /\
  (forall s, assoc "DRIVER_TAG_IDS" environ = Some s -> s <> "" ->
             Handler.driver_tag_ids cfg
             = py_or match assoc "driver_tag_ids" body with
                     | Some v => v
                     | None => VNone
                     end
                     (VList (map VStr (split_comma s)))) /\
  (assoc "EMAIL_RECIPIENTS" environ = None \/
   assoc "EMAIL_RECIPIENTS" environ = Some "" ->
   Handler.email_recipients cfg = VNone) /\
  (forall s, assoc "EMAIL_RECIPIENTS" environ = Some s -> s <> "" ->
             Handler.email_recipients cfg
             = py_or match assoc "email_recipients" body with
                     | Some v => v
                     | None => VNone
                     end
                     (VList (map VStr (split_comma s)))) /\
  Handler.webhook_url cfg
  = py_or match assoc "webhook_url" body with
          | Some v => v
          | None => VNone
          end
          match assoc "WEBHOOK_URL" environ with
          | Some s => VStr s
          | None => VNone
          end.
Proof.
  rewrite get_config_on_body, !list_setting_value. intros H.
  apply bind_returns in H as (q & _ & H). simpl in H.
  inversion H; subst cfg; clear H. simpl.
  repeat split.
  - intros [-> | ->]; reflexivity.
  - intros s -> Hs. destruct (String.eqb_spec s ""); [contradiction|].
    reflexivity.
  - intros [-> | ->]; reflexivity.
  - intros s -> Hs. destruct (String.eqb_spec s ""); [contradiction|].
    reflexivity.
Qed.

(** Property X11.  Without a truthy override in the body the threshold
    is the number read from [PC_THRESHOLD_HOURS] when that variable is set,
    and 16 hours when it is not. *)
Theorem get_config_threshold_fallback (body : list (string * value))
        (cfg : Handler.config) :
  Handler.get_config json_loads float_of_string environ
                     (Samples.body_event body) = Returns cfg ->
  truthy match assoc "pc_threshold_hours" body with
         | Some v => v
         | None => VNone
         end = false ->
  match assoc "PC_THRESHOLD_HOURS" environ with
  | Some s => float_of_string s = Some (Handler.pc_threshold_hours cfg)
  | None => Handler.pc_threshold_hours cfg
            = Handler.DEFAULT_PC_THRESHOLD_HOURS
  end.
Proof.
  intros Hcfg Hfalsy. apply get_config_threshold in Hcfg.
  unfold py_or in Hcfg. rewrite Hfalsy in Hcfg.
  destruct (assoc "PC_THRESHOLD_HOURS" environ) as [s|]; simpl in Hcfg.
  - destruct (float_of_string s); inversion Hcfg. reflexivity.
  - inversion Hcfg. reflexivity.
Qed.

(** Property X12.  A threshold override that is a non-empty string and
    not a number makes [get_config] raise [ValueError]; there is no
    fallback to the environment or to the default.  The message is
    [float]'s: the text of the override as [repr] writes it (in
    apostrophes, or in double quotes when it has an apostrophe and no
    double quote), for a text of ASCII characters. *)
Theorem get_config_rejects_bad_threshold (body : list (string * value))
        (s : string) :
  assoc "pc_threshold_hours" body = Some (VStr s) -> s <> "" ->
  is_ascii s = true ->
  float_of_string s = None ->
  Handler.get_config json_loads float_of_string environ
                     (Samples.body_event body)
  = Raises (mk_exn ValueError
                   ("could not convert string to float: " ++ py_repr s)).
Proof.
  intros Hb Hs _ Hf. rewrite get_config_on_body, Hb.
  unfold py_or. simpl.
  destruct (String.eqb_spec s ""); [contradiction|]. simpl.
  rewrite Hf. reflexivity.
Qed.

End ConfigFacts.

Lemma get_config_decodes_the_body_witness :
  Handler.get_config Samples.no_json (fun _ => None) []
                     (VDict [("body", VStr "not json")])
  = Handler.get_config Samples.no_json (fun _ => None) []
                       (Samples.body_event []).
Proof.
  apply (proj1 (proj2 (get_config_decodes_the_body
                         Samples.no_json (fun _ => None) [] "not json"))).
  reflexivity.
Defined.

Lemma get_config_list_settings_witness :
  Handler.driver_tag_ids
    (Handler.mk_cfg 16 VNone (VStr "https://hooks.example/pc") VNone)
  = VNone.
Proof.
  apply (proj1 (get_config_list_settings
                  Samples.no_json (fun _ => None) []
                  [("driver_tag_ids", VList [VStr "t1"]);
                   ("webhook_url", VStr "https://hooks.example/pc")]
                  (Handler.mk_cfg 16 VNone (VStr "https://hooks.example/pc")
                                  VNone)
                  eq_refl)).
  left. reflexivity.
Defined.

Lemma get_config_threshold_fallback_witness :
  (fun s => if String.eqb s "12.5" then Some (25 # 2) else None) "12.5"
  = Some (Handler.pc_threshold_hours
            (Handler.mk_cfg (25 # 2) VNone VNone VNone)).
Proof.
  apply (get_config_threshold_fallback
           Samples.no_json
           (fun s => if String.eqb s "12.5" then Some (25 # 2) else None)
           [("PC_THRESHOLD_HOURS", "12.5")]
           [("pc_threshold_hours", VInt 0)]
           (Handler.mk_cfg (25 # 2) VNone VNone VNone));
    reflexivity.
Defined.

Lemma get_config_rejects_bad_threshold_witness :
  Handler.get_config Samples.no_json (fun _ => None) []
                     (Samples.body_event [("pc_threshold_hours", VStr "it's")])
  = Raises (mk_exn ValueError
                   ("could not convert string to float: "
                    ++ String double_quote "it's"
                    ++ String double_quote "")).
Proof.
  apply (get_config_rejects_bad_threshold
           Samples.no_json (fun _ => None) []
           [("pc_threshold_hours", VStr "it's")] "it's");
    try reflexivity.
  discriminate.
Defined.

(** * From the environment to the wire *)

Lemma split_comma_from_nonempty s current :
  split_comma_from s current <> [].
Proof.
  revert current. induction s as [|c s IH]; intros current; simpl.
  - discriminate.
  - destruct (Ascii.eqb c ","); [discriminate | apply IH].
Qed.

Lemma append_assoc_string (a b c : string) :
  ((a ++ b) ++ c)%string = (a ++ b ++ c)%string.
Proof. induction a as [|x a IH]; simpl; [reflexivity | now rewrite IH]. Qed.

Lemma append_empty_r (a : string) : (a ++ "")%string = a.
Proof. induction a as [|x a IH]; simpl; [reflexivity | now rewrite IH]. Qed.

Lemma concat_split_comma_from s :
  forall current,
    String.concat "," (split_comma_from s current) = (current ++ s)%string.
Proof.
  induction s as [|c s IH]; intros current; simpl.
  - now rewrite append_empty_r.
  - destruct (Ascii.eqb_spec c ","%char) as [->|Hc].
    + pose proof (split_comma_from_nonempty s "") as Hne.
      pose proof (IH ""%string) as Hrest.
      destruct (split_comma_from s "") as [|x l]; [contradiction|].
      cbn [String.concat]. cbn [String.concat] in Hrest.
      rewrite Hrest. reflexivity.
    + rewrite IH, append_assoc_string. reflexivity.
Qed.

Lemma all_str_strings l : all_str (map VStr l) = true.
Proof. induction l; simpl; auto. Qed.

Lemma str_items_strings l : SamsaraClient.str_items (map VStr l) = l.
Proof. induction l as [|s l IH]; simpl; [reflexivity | now rewrite IH]. Qed.

(** Property X13.  The configuration and the client compose: tags set in
    [DRIVER_TAG_IDS] and not overridden by the body are split by
    [get_config] and joined again by the client, so the [tagIds] query
    parameter is the text of the environment variable, unchanged. *)
Theorem configured_tags_reach_the_server
        (json_loads : string -> option value)
        (float_of_string : string -> option Q)
        (environ : list (string * string))
        (body : list (string * value)) (cfg : Handler.config)
        (tags : string) (params : list (string * value)) :
  assoc "DRIVER_TAG_IDS" environ = Some tags -> tags <> "" ->
  truthy match assoc "driver_tag_ids" body with
         | Some v => v
         | None => VNone
         end = false ->
  Handler.get_config json_loads float_of_string environ
                     (Samples.body_event body) = Returns cfg ->
  SamsaraClient.with_ids params "tagIds" (Handler.driver_tag_ids cfg)
  = Returns (dict_set params "tagIds" (VStr tags)).
Proof.
  intros Henv Hne Hbody Hcfg.
  rewrite get_config_on_body, !list_setting_value, Henv in Hcfg.
  destruct (String.eqb_spec tags ""); [contradiction|].
  apply bind_returns in Hcfg as (q & _ & Hcfg). simpl in Hcfg.
  inversion Hcfg; subst cfg; clear Hcfg. simpl.
  unfold py_or. rewrite Hbody.
  unfold SamsaraClient.with_ids.
  assert (Htruthy : truthy (VList (map VStr (split_comma tags))) = true).
  { simpl. pose proof (split_comma_from_nonempty tags "") as Hn.
    unfold split_comma. destruct (split_comma_from tags ""); [contradiction|].
    reflexivity. }
  rewrite Htruthy. unfold SamsaraClient.join.
  rewrite all_str_strings, str_items_strings. simpl.
  unfold split_comma. rewrite concat_split_comma_from. reflexivity.
Qed.

Lemma configured_tags_reach_the_server_witness :
  SamsaraClient.with_ids
    [] "tagIds"
    (Handler.driver_tag_ids
       (Handler.mk_cfg 16 (VList [VStr "t1"; VStr "t2"]) VNone VNone))
  = Returns (dict_set [] "tagIds" (VStr "t1,t2")).
Proof.
  apply (configured_tags_reach_the_server
           Samples.no_json (fun _ => None) [("DRIVER_TAG_IDS", "t1,t2")] []
           (Handler.mk_cfg 16 (VList [VStr "t1"; VStr "t2"]) VNone VNone)
           "t1,t2" []); try reflexivity.
  discriminate.
Defined.

(* ===================================================================== *)
(** * The paginated fetch                                                 *)
(* ===================================================================== *)

Lemma extend_from_empty items v out :
  SamsaraClient.extend items v = Returns out <->
  exists page, SamsaraClient.extend [] v = Returns page /\ out = items ++ page.
Proof.
  destruct v; simpl; split;
    try (intros H; discriminate);
    try (intros (page & H & _); discriminate);
    try (intros H; inversion H; eauto; fail);
    intros (page & H & ->); inversion H; reflexivity.
Qed.

(** When the body of the loop goes through. *)
Lemma read_page_returns code http_error json items out cursor more :
  SamsaraClient.read_page code http_error json items
  = Returns (out, cursor, more) <->
  Alerting.raise_for_status code http_error = Returns tt /\
  exists data page,
    json = Returns data /\
    Paging.page_content data = Some (page, cursor, more) /\
    out = items ++ page.
Proof.
  unfold SamsaraClient.read_page, Paging.page_content. split.
  - intros H.
    apply bind_returns in H as ([] & Hok & H).
    apply bind_returns in H as (data & Hjson & H).
    apply bind_returns in H as (page & Hpage & H).
    apply bind_returns in H as (items' & Hext & H).
    apply bind_returns in H as (pagination & Hpag & H).
    apply bind_returns in H as (c & Hc & H).
    apply bind_returns in H as (m & Hm & H).
    inversion H; subst; clear H.
    apply extend_from_empty in Hext as (p & Hp & ->).
    split; [exact Hok|]. exists data, p. split; [reflexivity|].
    rewrite Hpage, Hpag, Hp.
    destruct pagination; simpl in Hc; try discriminate.
    inversion Hc. inversion Hm. auto.
  - intros (Hok & data & page & -> & Hcontent & ->).
    rewrite Hok. simpl.
    destruct (get data "data" (VList [])) as [v|]; [| discriminate].
    destruct (get data "pagination" (VDict [])) as [pagination|];
      [| discriminate].
    destruct pagination; try discriminate.
    destruct (SamsaraClient.extend [] v) as [p|] eqn:Hp; [| discriminate].
    inversion Hcontent; subst; clear Hcontent. simpl.
    assert (Hext : SamsaraClient.extend items v = Returns (items ++ page))
      by (apply extend_from_empty; eauto).
    rewrite Hext. reflexivity.
Qed.

Section ClientFacts.

Variable session_get :
  list SamsaraClient.request -> SamsaraClient.request -> SamsaraClient.reply.
Variable api_token : value.

(** Property X14.  What the pagination loop of [SamsaraClient] returns.
    The loop returns [out] exactly when the server answers a finite run of
    pages, each requested with the cursor announced by the previous one,
    ending with a page that announces no further page: [out] is then the
    items already collected followed by the items of all pages in order,
    and the requests made are those of the run. *)
Theorem fetch_pages_returns_all_pages
        (fuel : nat) (path : string) (params : list (string * value))
        (after : value) (items out : list value)
        (log log' : list SamsaraClient.request) :
  SamsaraClient.fetch_pages session_get api_token fuel path params after
                            items log
  = Some (Returns out, log') <->
  exists pages reqs,
    Paging.serves session_get api_token
                  (SamsaraClient.BASE_URL ++ path)%string params after log pages reqs /\
    (length pages <= fuel)%nat /\
    out = items ++ concat pages /\
    log' = log ++ reqs.
Proof.
  revert params after items log. induction fuel as [|fuel IH];
    intros params after items log; simpl.
  - split; [discriminate|].
    intros (pages & reqs & Hs & Hlen & _). inversion Hs; subst; simpl in Hlen; lia.
  - fold (Paging.next_params params after).
    set (req := SamsaraClient.mk_request _ api_token
                  (Paging.next_params params after)).
    split.
    + destruct (session_get log req) as [e|code err json] eqn:Hreply;
        [discriminate|].
      destruct (SamsaraClient.read_page code err json items)
        as [[[items' cursor] more]|e] eqn:Hread; [| discriminate].
      apply read_page_returns in Hread
        as (Hok & data & page & -> & Hcontent & ->).
      destruct (truthy more) eqn:Hmore.
      * intros H. apply IH in H as (pages & reqs & Hs & Hlen & -> & ->).
        exists (page :: pages), (req :: reqs). repeat split.
        -- eapply Paging.serves_more; eauto.
        -- simpl. lia.
        -- simpl. now rewrite app_assoc.
        -- now rewrite <- app_assoc.
      * intros H. inversion H; subst.
        exists [page], [req]. repeat split.
        -- eapply Paging.serves_last; eauto.
        -- simpl. lia.
        -- simpl. now rewrite app_nil_r.
    + subst req. intros (pages & reqs & Hs & Hlen & -> & ->).
      inversion Hs; subst.
      * rewrite H.
        assert (Hread : SamsaraClient.read_page code http_error (Returns data)
                                                items
                        = Returns (items ++ items0, cursor, more))
          by (apply read_page_returns; eauto 6).
        rewrite Hread, H2. simpl. now rewrite app_nil_r.
      * rewrite H.
        assert (Hread : SamsaraClient.read_page code http_error (Returns data)
                                                items
                        = Returns (items ++ items0, cursor, more))
          by (apply read_page_returns; eauto 6).
        rewrite Hread, H2.
        apply IH. exists pages0, reqs0. repeat split.
        -- assumption.
        -- simpl in Hlen. lia.
        -- simpl. now rewrite app_assoc.
        -- now rewrite <- app_assoc.
Qed.

End ClientFacts.

Lemma assoc_dict_set (d : list (string * value)) k k' v :
  assoc k (dict_set d k' v)
  = if String.eqb k k' then Some v else assoc k d.
Proof.
  induction d as [|[k0 v0] d IH]; simpl.
  - reflexivity.
  - destruct (String.eqb_spec k' k0) as [->|Hne]; simpl.
    + destruct (String.eqb k k0); reflexivity.
    + rewrite IH. destruct (String.eqb_spec k k0) as [->|Hne'].
      * destruct (String.eqb_spec k0 k'); [congruence | reflexivity].
      * reflexivity.
Qed.

Lemma next_params_keeps params after k :
  k <> "after" ->
  assoc k (Paging.next_params params after) = assoc k params.
Proof.
  intros Hk. unfold Paging.next_params. destruct (truthy after); [| reflexivity].
  rewrite assoc_dict_set. destruct (String.eqb_spec k "after"); congruence.
Qed.

Section RequestFacts.

Variable session_get :
  list SamsaraClient.request -> SamsaraClient.request -> SamsaraClient.reply.
Variable api_token : value.

(** Every request of the loop goes to the same URL with the same token
    and the parameters it was entered with, the cursor apart. *)
Lemma fetch_pages_requests fuel :
  forall path params after items log r log',
    SamsaraClient.fetch_pages session_get api_token fuel path params after
                              items log = Some (r, log') ->
    exists reqs,
      log' = log ++ reqs /\
      Forall (fun q =>
                SamsaraClient.req_url q
                = (SamsaraClient.BASE_URL ++ path)%string /\
                SamsaraClient.req_token q = api_token /\
                forall k, k <> "after" ->
                          assoc k (SamsaraClient.req_params q)
                          = assoc k params) reqs.
Proof.
  induction fuel as [|fuel IH]; intros path params after items log r log';
    simpl; [discriminate|].
  fold (Paging.next_params params after).
  set (req := SamsaraClient.mk_request _ api_token
                (Paging.next_params params after)).
  assert (Hreq : SamsaraClient.req_url req
                 = (SamsaraClient.BASE_URL ++ path)%string /\
                 SamsaraClient.req_token req = api_token /\
                 forall k, k <> "after" ->
                           assoc k (SamsaraClient.req_params req)
                           = assoc k params).
  { repeat split. intros k Hk. now apply next_params_keeps. }
  destruct (session_get log req) as [e|code err json].
  - intros H. inversion H. exists [req]. auto.
  - destruct (SamsaraClient.read_page code err json items)
      as [[[items' cursor] more]|e].
    + destruct (truthy more).
      * intros H. apply IH in H as (reqs & -> & Hall).
        exists (req :: reqs). rewrite <- app_assoc. split; [reflexivity|].
        constructor; [exact Hreq|].
        eapply Forall_impl; [| exact Hall].
        intros q (Hu & Ht & Hp). repeat split; auto.
        intros k Hk. rewrite (Hp k Hk). now apply next_params_keeps.
      * intros H. inversion H. exists [req]. auto.
    + intros H. inversion H. exists [req]. auto.
Qed.

(** Property X15.  The tag filter is sent with every page: each request of
    [get_hos_clocks] goes to [/fleet/hos/clocks] with the client's token
    and carries the comma-joined tags as [tagIds], and no [driverIds]
    parameter when no driver filter is given; this holds for the requests
    of a failed fetch too. *)
Theorem get_hos_clocks_sends_the_filter
        (fuel : nat) (driver_ids tag_ids : value) (joined : string)
        (log log' : list SamsaraClient.request)
        (r : result (list value)) :
  truthy tag_ids = true ->
  SamsaraClient.join "," tag_ids = Returns joined ->
  SamsaraClient.get_hos_clocks session_get api_token fuel driver_ids tag_ids
                               log = Some (r, log') ->
  exists reqs,
    log' = log ++ reqs /\
    Forall (fun q =>
              SamsaraClient.req_url q
              = (SamsaraClient.BASE_URL ++ "/fleet/hos/clocks")%string /\
              SamsaraClient.req_token q = api_token /\
              assoc "tagIds" (SamsaraClient.req_params q)
              = Some (VStr joined) /\
              (truthy driver_ids = false ->
               assoc "driverIds" (SamsaraClient.req_params q) = None))
           reqs.
Proof.
  intros Htags Hjoin.
  unfold SamsaraClient.get_hos_clocks, SamsaraClient.with_ids.
  rewrite Htags, Hjoin.
  destruct (truthy driver_ids) eqn:Hdrv;
    [destruct (SamsaraClient.join "," driver_ids) as [jd|e] |]; simpl.
  - intros H. apply fetch_pages_requests in H as (reqs & -> & Hall).
    exists reqs. split; [reflexivity|].
    eapply Forall_impl; [| exact Hall].
    intros q (Hu & Ht & Hp). repeat split; auto; [| discriminate].
    rewrite Hp by discriminate. reflexivity.
  - intros H. inversion H. exists []. rewrite app_nil_r. auto.
  - intros H. apply fetch_pages_requests in H as (reqs & -> & Hall).
    exists reqs. split; [reflexivity|].
    eapply Forall_impl; [| exact Hall].
    intros q (Hu & Ht & Hp). repeat split; auto.
    + rewrite Hp by discriminate. reflexivity.
    + intros _. rewrite Hp by discriminate. reflexivity.
Qed.

(** Property X16.  The pagination loop has no bound of its own: against a
    server that answers every request with a well-formed page announcing
    a further page the loop never returns (it is still running at every
    number of iterations). *)
Theorem fetch_pages_needs_a_last_page :
  (forall log req,
      exists code http_error data items cursor more,
        session_get log req
        = SamsaraClient.Reply code http_error (Returns data) /\
        Alerting.raise_for_status code http_error = Returns tt /\
        Paging.page_content data = Some (items, cursor, more) /\
        truthy more = true) ->
  forall fuel path params after items log,
    SamsaraClient.fetch_pages session_get api_token fuel path params after
                              items log = None.
Proof.
  intros Hmore fuel. induction fuel as [|fuel IH];
    intros path params after items log;
    cbn [SamsaraClient.fetch_pages]; [reflexivity|].
  fold (Paging.next_params params after).
  destruct (Hmore log (SamsaraClient.mk_request
                         (SamsaraClient.BASE_URL ++ path) api_token
                         (Paging.next_params params after)))
    as (code & err & data & page & cursor & more & -> & Hok & Hc & Ht).
  assert (Hread : SamsaraClient.read_page code err (Returns data) items
                  = Returns (items ++ page, cursor, more))
    by (apply read_page_returns; eauto 6).
  rewrite Hread, Ht. apply IH.
Qed.

End RequestFacts.

Lemma fetch_pages_returns_all_pages_witness :
  exists pages reqs,
    Paging.serves
      (Paging.two_pages [Samples.ann_off_duty] [Samples.bob_pc])
      (VStr "token")
      (SamsaraClient.BASE_URL ++ "/fleet/hos/clocks")%string
      [] VNone [] pages reqs /\
    (length pages <= 5)%nat /\
    [Samples.ann_off_duty; Samples.bob_pc] = [] ++ concat pages /\
    [SamsaraClient.mk_request
       (SamsaraClient.BASE_URL ++ "/fleet/hos/clocks")%string
       (VStr "token") [];
     SamsaraClient.mk_request
       (SamsaraClient.BASE_URL ++ "/fleet/hos/clocks")%string
       (VStr "token") [("after", VStr "c1")]]
    = [] ++ reqs.
Proof.
  apply (proj1 (fetch_pages_returns_all_pages
                  (Paging.two_pages [Samples.ann_off_duty] [Samples.bob_pc])
                  (VStr "token") 5 "/fleet/hos/clocks" [] VNone []
                  [Samples.ann_off_duty; Samples.bob_pc] [] _)).
  reflexivity.
Defined.

Lemma get_hos_clocks_sends_the_filter_witness :
  exists reqs,
    [SamsaraClient.mk_request
       (SamsaraClient.BASE_URL ++ "/fleet/hos/clocks")%string
       (VStr "token") [("tagIds", VStr "t1,t2")];
     SamsaraClient.mk_request
       (SamsaraClient.BASE_URL ++ "/fleet/hos/clocks")%string
       (VStr "token") [("tagIds", VStr "t1,t2"); ("after", VStr "c1")]]
    = [] ++ reqs /\
    Forall (fun q =>
              SamsaraClient.req_url q
              = (SamsaraClient.BASE_URL ++ "/fleet/hos/clocks")%string /\
              SamsaraClient.req_token q = VStr "token" /\
              assoc "tagIds" (SamsaraClient.req_params q)
              = Some (VStr "t1,t2") /\
              (truthy VNone = false ->
               assoc "driverIds" (SamsaraClient.req_params q) = None))
           reqs.
Proof.
  apply (get_hos_clocks_sends_the_filter
           (Paging.two_pages [Samples.ann_off_duty] [Samples.bob_pc])
           (VStr "token") 5 VNone (VList [VStr "t1"; VStr "t2"]) "t1,t2"
           [] _ (Returns [Samples.ann_off_duty; Samples.bob_pc]));
    reflexivity.
Defined.

Lemma fetch_pages_needs_a_last_page_witness :
  SamsaraClient.fetch_pages Paging.endless (VStr "token") 1000
                            "/fleet/hos/clocks" [] VNone [] []
  = None.
Proof.
  apply (fetch_pages_needs_a_last_page Paging.endless (VStr "token")).
  intros log req. do 6 eexists. repeat split.
Defined.

(* ===================================================================== *)
(** * The paginated fetch of the inline script                            *)
(* ===================================================================== *)

Lemma inline_read_page_returns py_str code http_error json clocks out next :
  EntrypointClient.read_page py_str code http_error json clocks
  = Returns (out, next) <->
  Alerting.raise_for_status code http_error = Returns tt /\
  exists data page,
    json = Returns data /\
    Paging.page_link py_str data = Some (page, next) /\
    out = clocks ++ page.
Proof.
  unfold EntrypointClient.read_page, Paging.page_link, Paging.page_content.
  split.
  - intros H.
    apply bind_returns in H as ([] & Hok & H).
    apply bind_returns in H as (data & Hjson & H).
    apply bind_returns in H as (page & Hpage & H).
    apply bind_returns in H as (items' & Hext & H).
    apply bind_returns in H as (pagination & Hpag & H).
    apply bind_returns in H as (m & Hm & H).
    apply extend_from_empty in Hext as (p & Hp & ->).
    split; [exact Hok|]. exists data, p. split; [exact Hjson|].
    rewrite Hpage, Hpag, Hp.
    destruct pagination; simpl in Hm; try discriminate.
    inversion Hm; subst m; clear Hm.
    destruct (truthy _); simpl in H; inversion H; auto.
  - intros (Hok & data & page & -> & Hcontent & ->).
    rewrite Hok. simpl.
    destruct (get data "data" (VList [])) as [v|]; [| discriminate].
    destruct (get data "pagination" (VDict [])) as [pagination|];
      [| discriminate].
    destruct pagination; try discriminate.
    destruct (SamsaraClient.extend [] v) as [p|] eqn:Hp; [| discriminate].
    simpl.
    assert (Hext : SamsaraClient.extend clocks v = Returns (clocks ++ p))
      by (apply extend_from_empty; eauto).
    rewrite Hext. simpl.
    destruct (truthy _); simpl; inversion Hcontent; reflexivity.
Qed.

(** Property X17.  What the fetch of the inline script returns: it
    returns [out] exactly when the server answers a finite run of pages,
    each one after the first requested at the URL built from the end
    cursor of the previous one, the last one announcing no further page;
    [out] is then the clocks already collected followed by the clocks of
    all pages in order. *)
Theorem inline_fetch_returns_all_pages
        (requests_get : list SamsaraClient.request -> SamsaraClient.request
                        -> SamsaraClient.reply)
        (py_str : value -> string) (api_token : value)
        (fuel : nat) (url : string) (clocks out : list value)
        (log log' : list SamsaraClient.request) :
  url <> "" ->
  (EntrypointClient.get_hos_clocks_loop requests_get py_str fuel api_token
                                        (Some url) clocks log
   = Some (Returns out, log') <->
   exists pages reqs,
     Paging.follows requests_get py_str api_token url log pages reqs /\
     (length pages <= fuel)%nat /\
     out = clocks ++ concat pages /\
     log' = log ++ reqs).
Proof.
  revert url clocks log. induction fuel as [|fuel IH];
    intros url clocks log Hurl; cbn [EntrypointClient.get_hos_clocks_loop];
    (destruct (String.eqb_spec url ""); [contradiction|]).
  - split; [discriminate|].
    intros (pages & reqs & Hs & Hlen & _).
    inversion Hs; subst; simpl in Hlen; lia.
  - set (req := SamsaraClient.mk_request url api_token []).
    split.
    + destruct (requests_get log req) as [e|code err json] eqn:Hreply;
        [discriminate|].
      destruct (EntrypointClient.read_page py_str code err json clocks)
        as [[clocks' next]|e] eqn:Hread; [| discriminate].
      apply inline_read_page_returns in Hread
        as (Hok & data & page & -> & Hlink & ->).
      destruct next as [next|].
      * assert (Hnext : next <> "").
        { unfold Paging.page_link in Hlink.
          destruct (Paging.page_content data) as [[[? ?] ?]|]; [| discriminate].
          destruct (get data "pagination" (VDict [])) as [[]|];
            try discriminate.
          destruct (truthy _); inversion Hlink. discriminate. }
        intros H. apply (IH _ _ _ Hnext) in H
          as (pages & reqs & Hs & Hlen & -> & ->).
        exists (page :: pages), (req :: reqs). repeat split.
        -- eapply Paging.follows_more; eauto.
        -- simpl. lia.
        -- simpl. now rewrite app_assoc.
        -- now rewrite <- app_assoc.
      * destruct fuel; cbn [EntrypointClient.get_hos_clocks_loop];
          intros H; inversion H; subst;
          (exists [page], [req]; repeat split;
           [ eapply Paging.follows_last; eauto
           | simpl; lia
           | simpl; now rewrite app_nil_r ]).
    + subst req. intros (pages & reqs & Hs & Hlen & -> & ->).
      inversion Hs; subst.
      * rewrite H0.
        assert (Hread : EntrypointClient.read_page py_str code http_error
                                                   (Returns data) clocks
                        = Returns (clocks ++ items, None))
          by (apply inline_read_page_returns; eauto 6).
        rewrite Hread.
        destruct fuel; cbn [EntrypointClient.get_hos_clocks_loop];
          simpl; now rewrite app_nil_r.
      * rewrite H0.
        assert (Hread : EntrypointClient.read_page py_str code http_error
                                                   (Returns data) clocks
                        = Returns (clocks ++ items, Some next))
          by (apply inline_read_page_returns; eauto 6).
        rewrite Hread.
        assert (Hnext : next <> "") by (inversion H3; assumption).
        apply (IH _ _ _ Hnext). exists pages0, reqs0. repeat split.
        -- assumption.
        -- simpl in Hlen. lia.
        -- simpl. now rewrite app_assoc.
        -- now rewrite <- app_assoc.
Qed.

Lemma inline_fetch_returns_all_pages_witness :
  exists pages reqs,
    Paging.follows
      (Paging.two_linked_pages [Samples.ann_off_duty] [Samples.bob_pc])
      (fun v => match v with VStr s => s | _ => "" end) (VStr "token")
      EntrypointClient.CLOCKS_URL [] pages reqs /\
    (length pages <= 5)%nat /\
    [Samples.ann_off_duty; Samples.bob_pc] = [] ++ concat pages /\
    [SamsaraClient.mk_request EntrypointClient.CLOCKS_URL (VStr "token") [];
     SamsaraClient.mk_request
       (EntrypointClient.CLOCKS_URL ++ "?after=c1")%string (VStr "token") []]
    = [] ++ reqs.
Proof.
  apply (proj1 (inline_fetch_returns_all_pages
                  (Paging.two_linked_pages [Samples.ann_off_duty]
                                           [Samples.bob_pc])
                  (fun v => match v with VStr s => s | _ => "" end)
                  (VStr "token") 5 EntrypointClient.CLOCKS_URL []
                  [Samples.ann_off_duty; Samples.bob_pc] [] _
                  ltac:(discriminate))).
  reflexivity.
Defined.

(* ===================================================================== *)
(** * More on the alerter                                                 *)
(* ===================================================================== *)

Lemma posts_in_app t1 t2 :
  Paging.posts_in (t1 ++ t2) = Paging.posts_in t1 ++ Paging.posts_in t2.
Proof.
  induction t1 as [|e t1 IH]; simpl; [reflexivity|].
  destruct e; simpl; now rewrite IH.
Qed.

Lemma lines_in_app t1 t2 :
  Paging.lines_in (t1 ++ t2) = Paging.lines_in t1 ++ Paging.lines_in t2.
Proof.
  induction t1 as [|e t1 IH]; simpl; [reflexivity|].
  destruct e; simpl; now rewrite IH.
Qed.

Lemma offline_ret {A : Type} (a : A) : Paging.offline (ret a).
Proof. intros t. exists []. now rewrite app_nil_r. Qed.

Lemma offline_lift {A : Type} (r : result A) : Paging.offline (lift r).
Proof. intros t. exists []. now rewrite app_nil_r. Qed.

Lemma offline_emit e :
  (forall url payload, e <> Post url payload) -> Paging.offline (emit e).
Proof.
  intros He t. exists [e]. split; [reflexivity|].
  destruct e; try reflexivity. exfalso. eapply He. reflexivity.
Qed.

Lemma offline_bind {A B : Type} (c : io A) (k : A -> io B) :
  Paging.offline c -> (forall a, Paging.offline (k a)) ->
  Paging.offline (iobind c k).
Proof.
  intros Hc Hk t. unfold iobind.
  destruct (Hc t) as (d1 & E1 & P1).
  destruct (c t) as [[a|e] t1]; simpl in E1; subst t1.
  - destruct (Hk a (t ++ d1)) as (d2 & E2 & P2).
    exists (d1 ++ d2). rewrite E2, app_assoc, posts_in_app, P1, P2. auto.
  - exists d1. auto.
Qed.

Lemma offline_try {A : Type} (c : io A) (h : exn -> io A) :
  Paging.offline c -> (forall e, Paging.offline (h e)) ->
  Paging.offline (try_io c h).
Proof.
  intros Hc Hh t. unfold try_io.
  destruct (Hc t) as (d1 & E1 & P1).
  destruct (c t) as [[a|e] t1]; simpl in E1; subst t1.
  - exists d1. auto.
  - destruct (Hh e (t ++ d1)) as (d2 & E2 & P2).
    exists (d1 ++ d2). rewrite E2, app_assoc, posts_in_app, P1, P2. auto.
Qed.

Lemma offline_now_iso utcnow_iso : Paging.offline (Alerting.now_iso utcnow_iso).
Proof. intros t. exists []. now rewrite app_nil_r. Qed.

Ltac offline :=
  repeat first
    [ apply offline_ret | apply offline_lift | apply offline_now_iso
    | apply offline_emit; discriminate
    | apply offline_bind; [| intros ?]
    | apply offline_try; [| intros ?]
    | match goal with
      | |- Paging.offline (if ?b then _ else _) => destruct b
      | |- Paging.offline (match ?x with _ => _ end) => destruct x
      end ].

Lemma console_alert_offline utcnow_iso a :
  Paging.offline (Alerting._send_console_alert utcnow_iso a).
Proof. unfold Alerting._send_console_alert. offline. Qed.

Lemma email_alert_offline config a :
  Paging.offline (Alerting._send_email_alert config a).
Proof. unfold Alerting._send_email_alert. offline. Qed.

Lemma send_summary_offline config summary :
  Paging.offline (Alerting.send_summary config summary).
Proof. unfold Alerting.send_summary. offline. Qed.

Section WebhookOff.

Variable http_post : trace -> value -> value -> http_reply.
Variable utcnow_iso : trace -> string.
Variable config : Alerting.AlertConfig.
Hypothesis no_url : truthy (Alerting.webhook_url config) = false.

Lemma send_alert_offline a :
  Paging.offline (Alerting.send_alert http_post utcnow_iso config a).
Proof.
  unfold Alerting.send_alert. rewrite no_url.
  pose proof (console_alert_offline utcnow_iso a).
  pose proof (email_alert_offline config a).
  offline; assumption.
Qed.

Lemma send_bulk_alerts_loop_offline alerts :
  forall summary,
    Paging.offline (Alerting.send_bulk_alerts_loop http_post utcnow_iso
                                                   config alerts summary).
Proof.
  induction alerts as [|a rest IH]; intros summary; simpl.
  - apply offline_ret.
  - apply offline_bind; [apply send_alert_offline|]. intros r. apply IH.
Qed.

End WebhookOff.

(** Property X18.  Without a webhook URL the alerter stays off the
    network: [send_bulk_alerts] returns, handles every payload once and in
    order, and makes no HTTP request. *)
Theorem no_webhook_no_network
        (http_post : trace -> value -> value -> http_reply)
        (utcnow_iso : trace -> string) (config : Alerting.AlertConfig)
        (alerts : list value) (t : trace) :
  truthy (Alerting.webhook_url config) = false ->
  exists s d,
    Alerting.send_bulk_alerts http_post utcnow_iso config alerts t
    = (Returns s, t ++ d) /\
    Paging.posts_in d = [] /\
    sends_in d = alerts.
Proof.
  intros Hoff.
  destruct (send_bulk_alerts_loop_spec
              http_post utcnow_iso config alerts
              (Alerting.mk_bulk (length alerts) 0 0 []) t)
    as (rs & d & Hrun & Hsends & _).
  destruct (send_bulk_alerts_loop_offline
              http_post utcnow_iso config Hoff alerts
              (Alerting.mk_bulk (length alerts) 0 0 []) t)
    as (d' & Hd' & Hposts).
  unfold Alerting.send_bulk_alerts. rewrite Hrun in *. simpl in Hd'.
  apply app_inv_head in Hd'. subst d'.
  eexists. exists d. auto.
Qed.

Lemma no_webhook_no_network_witness :
  exists s d,
    Alerting.send_bulk_alerts
      Samples.post_500 (fun _ => "2024-01-01T17:00:00+00:00")
      (Alerting.mk_config VNone (VList [VStr "ops@example.com"]) true)
      [VDict [("driver_name", VStr "Bob")]] []
    = (Returns s, [] ++ d) /\
    Paging.posts_in d = [] /\
    sends_in d = [VDict [("driver_name", VStr "Bob")]].
Proof.
  apply (no_webhook_no_network
           Samples.post_500 (fun _ => "2024-01-01T17:00:00+00:00")
           (Alerting.mk_config VNone (VList [VStr "ops@example.com"]) true)
           [VDict [("driver_name", VStr "Bob")]] []).
  reflexivity.
Defined.

(** Reading a key after a merge: the merged-in entries win. *)
Lemma assoc_merge (items base : list (string * value)) k :
  NoDup (map fst items) ->
  assoc k (fold_left (fun acc kv => dict_set acc (fst kv) (snd kv)) items base)
  = match assoc k items with
    | Some v => Some v
    | None => assoc k base
    end.
Proof.
  revert base. induction items as [|[k0 v0] items IH]; intros base Hnd; simpl.
  - reflexivity.
  - inversion Hnd as [|? ? Hnotin Hnd']; subst.
    rewrite (IH _ Hnd'), assoc_dict_set.
    destruct (String.eqb_spec k k0) as [->|Hne].
    + destruct (assoc k0 items) as [v|] eqn:Hin; [| reflexivity].
      exfalso. apply Hnotin. clear -Hin.
      induction items as [|[k1 v1] items IH]; simpl in *; [discriminate|].
      destruct (String.eqb_spec k0 k1); [left; congruence | right; auto].
    + reflexivity.
Qed.

Section WebhookOn.

Variable http_post : trace -> value -> value -> http_reply.
Variable utcnow_iso : trace -> string.
Variable config : Alerting.AlertConfig.
Hypothesis has_url : truthy (Alerting.webhook_url config) = true.

(** The run of [_send_webhook_alert] on a dict payload, spelled out. *)
Lemma webhook_run (fields : list (string * value)) t :
  let t1 := t ++ [Call Webhook (VDict fields)] in
  let payload :=
    VDict (fold_left (fun acc kv => dict_set acc (fst kv) (snd kv)) fields
                     [("alert_type", VStr "pc_duration_exceeded");
                      ("timestamp", VStr (utcnow_iso t1))]) in
  let t2 := t1 ++ [Post (Alerting.webhook_url config) payload] in
  Alerting._send_webhook_alert http_post utcnow_iso config (VDict fields) t
  = match http_post t1 (Alerting.webhook_url config) payload with
    | Fault e => (Raises e, t2)
    | Status code http_error =>
        match Alerting.raise_for_status code http_error with
        | Raises e => (Raises e, t2)
        | Returns _ =>
            (Returns tt,
             t2 ++ [Stdout [Lit "Webhook alert sent successfully to ";
                            Shown (Alerting.webhook_url config)]])
        end
    end.
Proof.
  cbv zeta. unfold Alerting._send_webhook_alert. rewrite has_url.
  unfold iobind, emit, lift, Alerting.now_iso, Alerting.requests_post,
    dict_merge. simpl.
  destruct (http_post _ _ _) as [e|code err]; [reflexivity|]. simpl.
  destruct (Alerting.raise_for_status code err); reflexivity.
Qed.

End WebhookOn.

(** Property X19.  What the webhook receives.  With a webhook URL set, one
    request is posted to that URL for an alert (an object with distinct
    field names); its JSON body has every field of the alert with the
    alert's value, [alert_type] set to [pc_duration_exceeded] and
    [timestamp] set to the current time unless the alert has fields of
    those names (the alert's fields win), and no other key. *)
Theorem webhook_posts_the_alert
        (http_post : trace -> value -> value -> http_reply)
        (utcnow_iso : trace -> string) (config : Alerting.AlertConfig)
        (fields : list (string * value)) (t : trace) :
  truthy (Alerting.webhook_url config) = true ->
  NoDup (map fst fields) ->
  exists payload d,
    snd (Alerting._send_webhook_alert http_post utcnow_iso config
                                      (VDict fields) t)
    = t ++ Call Webhook (VDict fields)
        :: Post (Alerting.webhook_url config) (VDict payload) :: d /\
    Paging.posts_in d = [] /\
    (forall k v, assoc k fields = Some v -> assoc k payload = Some v) /\
    (assoc "alert_type" fields = None ->
     assoc "alert_type" payload = Some (VStr "pc_duration_exceeded")) /\
    (assoc "timestamp" fields = None ->
     assoc "timestamp" payload
     = Some (VStr (utcnow_iso (t ++ [Call Webhook (VDict fields)])))) /\
    (forall k, assoc k fields = None -> k <> "alert_type" ->
               k <> "timestamp" -> assoc k payload = None).
Proof.
  intros Hon Hnd.
  pose proof (webhook_run http_post utcnow_iso config Hon fields t) as Hrun.
  cbv zeta in Hrun. rewrite Hrun. clear Hrun.
  eexists.
  destruct (http_post _ _ _) as [e|code err];
    [| destruct (Alerting.raise_for_status code err)]; simpl;
    eexists; (split; [rewrite <- !app_assoc; simpl; reflexivity|]);
    (split; [reflexivity|]);
    (repeat split;
     [ intros k v Hk; rewrite (assoc_merge _ _ _ Hnd), Hk; reflexivity
     | intros Hk; rewrite (assoc_merge _ _ _ Hnd), Hk; reflexivity
     | intros Hk; rewrite (assoc_merge _ _ _ Hnd), Hk; reflexivity
     | intros k Hk Ha Ht; rewrite (assoc_merge _ _ _ Hnd), Hk; simpl;
       destruct (String.eqb_spec k "alert_type"); [contradiction|];
       destruct (String.eqb_spec k "timestamp"); [contradiction|];
       reflexivity ]).
Qed.

Lemma webhook_posts_the_alert_witness :
  exists payload d,
    snd (Alerting._send_webhook_alert
           Samples.post_ok (fun _ => "2024-01-01T17:00:00+00:00")
           (Alerting.mk_config (VStr "https://hooks.example/pc") VNone true)
           (VDict [("driver_id", VStr "d2"); ("alert_type", VStr "custom")])
           [])
    = [] ++ Call Webhook
               (VDict [("driver_id", VStr "d2"); ("alert_type", VStr "custom")])
        :: Post (VStr "https://hooks.example/pc") (VDict payload) :: d /\
    Paging.posts_in d = [] /\
    assoc "driver_id" payload = Some (VStr "d2") /\
    assoc "alert_type" payload = Some (VStr "custom") /\
    assoc "timestamp" payload = Some (VStr "2024-01-01T17:00:00+00:00").
Proof.
  destruct (webhook_posts_the_alert
              Samples.post_ok (fun _ => "2024-01-01T17:00:00+00:00")
              (Alerting.mk_config (VStr "https://hooks.example/pc") VNone true)
              [("driver_id", VStr "d2"); ("alert_type", VStr "custom")] [])
    as (payload & d & Hrun & Hposts & Hkeep & _ & Htime & _).
  - reflexivity.
  - repeat constructor; simpl; intuition discriminate.
  - exists payload, d. repeat split; auto.
Defined.

(** Property X20.  The webhook is judged by the reply alone: the request
    is posted, and the method raises when the transport fails or the
    status is in 400..599, and returns in every other case. *)
Theorem webhook_outcome_follows_the_status
        (http_post : trace -> value -> value -> http_reply)
        (utcnow_iso : trace -> string) (config : Alerting.AlertConfig)
        (fields : list (string * value)) (t : trace) :
  truthy (Alerting.webhook_url config) = true ->
  exists payload,
    In (Post (Alerting.webhook_url config) payload)
       (snd (Alerting._send_webhook_alert http_post utcnow_iso config
                                          (VDict fields) t)) /\
    fst (Alerting._send_webhook_alert http_post utcnow_iso config
                                      (VDict fields) t)
    = match http_post (t ++ [Call Webhook (VDict fields)])
                      (Alerting.webhook_url config) payload with
      | Fault e => Raises e
      | Status code http_error =>
          if ((400 <=? code)%Z && (code <? 600)%Z)%bool
          then Raises (mk_exn RequestException http_error)
          else Returns tt
      end.
Proof.
  intros Hon.
  pose proof (webhook_run http_post utcnow_iso config Hon fields t) as Hrun.
  cbv zeta in Hrun. rewrite Hrun. clear Hrun.
  exists (VDict (fold_left
                   (fun acc kv => dict_set acc (fst kv) (snd kv)) fields
                   [("alert_type", VStr "pc_duration_exceeded");
                    ("timestamp",
                     VStr (utcnow_iso
                             (t ++ [Call Webhook (VDict fields)])))])).
  destruct (http_post _ _ _) as [e|code err] eqn:Hreply.
  - simpl. split; [| reflexivity].
    apply in_or_app. right. left. reflexivity.
  - unfold Alerting.raise_for_status.
    destruct ((400 <=? code)%Z && (code <? 600)%Z)%bool; simpl;
      (split; [| reflexivity]).
    + apply in_or_app. right. left. reflexivity.
    + apply in_or_app. left. apply in_or_app. right. left. reflexivity.
Qed.

Lemma webhook_outcome_follows_the_status_witness :
  exists payload,
    In (Post (VStr "https://hooks.example/pc") payload)
       (snd (Alerting._send_webhook_alert
               Samples.post_500 (fun _ => "2024-01-01T17:00:00+00:00")
               (Alerting.mk_config (VStr "https://hooks.example/pc") VNone
                                   true)
               (VDict [("driver_id", VStr "d2")]) [])) /\
    fst (Alerting._send_webhook_alert
           Samples.post_500 (fun _ => "2024-01-01T17:00:00+00:00")
           (Alerting.mk_config (VStr "https://hooks.example/pc") VNone true)
           (VDict [("driver_id", VStr "d2")]) [])
    = Raises (mk_exn RequestException
                     "500 Server Error: Internal Server Error").
Proof.
  destruct (webhook_outcome_follows_the_status
              Samples.post_500 (fun _ => "2024-01-01T17:00:00+00:00")
              (Alerting.mk_config (VStr "https://hooks.example/pc") VNone true)
              [("driver_id", VStr "d2")] [] eq_refl)
    as (payload & Hin & Hout).
  exists payload. split; [exact Hin | exact Hout].
Defined.

(** The run summary on a dict: it returns, and writes lines only. *)
Lemma send_summary_run
      (config : Alerting.AlertConfig) (fields : list (string * value))
      (t : trace) :
  exists d,
    Alerting.send_summary config (VDict fields) t = (Returns tt, t ++ d) /\
    Paging.posts_in d = [] /\
    sends_in d = [].
Proof.
  unfold Alerting.send_summary, iobind, emit, lift, ret.
  destruct (Alerting.console_output config); simpl.
  - eexists. split; [rewrite <- !app_assoc; simpl; reflexivity|].
    repeat split.
  - exists []. rewrite app_nil_r. repeat split.
Qed.

(* ===================================================================== *)
(** * The structured run as a whole                                       *)
(* ===================================================================== *)

Section MainFacts.

Variable fromisoformat : string -> option datetime.
Variable isoformat : datetime -> string.
Variable json_loads : string -> option value.
Variable float_of_string : string -> option Q.
Variable environ : list (string * string).
Variable http_post : trace -> value -> value -> http_reply.
Variable utcnow : trace -> datetime.
Variable get_hos_clocks : trace -> value -> value -> result (list value).

(** [main] once the token and the configuration are in hand: the fetch
    is made after the five opening lines, and [main] goes on by what it
    gives. *)
Lemma main_at_fetch event context api_token cfg t :
  get context "samsara_api_token" VNone = Returns api_token ->
  truthy api_token = true ->
  Handler.get_config json_loads float_of_string environ event = Returns cfg ->
  let fetching :=
    t ++ [Stdout [Lit "Starting PC Duration Alert Monitor..."];
          Stdout [Lit "Configuration:"];
          Stdout [Lit "   - PC Threshold: ";
                  Shown (VFloat (Handler.pc_threshold_hours cfg));
                  Lit " hours"];
          Stdout [Lit "   - Driver Tag Filter: ";
                  Shown (py_or (Handler.driver_tag_ids cfg)
                               (VStr "All drivers"))];
          Stdout [Lit newline; Lit "Fetching HOS clocks..."]] in
    Handler.main fromisoformat isoformat json_loads float_of_string environ
                 http_post utcnow get_hos_clocks event context t
    = match get_hos_clocks fetching api_token (Handler.driver_tag_ids cfg)
      with
      | Raises e =>
          (Returns (Handler.mk_response 500 (Handler.Failure (exn_msg e))),
           fetching ++ [Stdout [Lit newline; Lit "Error: "; Lit (exn_msg e)];
                        Traceback e])
      | Returns [] =>
          (Returns (Handler.mk_response 200 Handler.NoDrivers),
           fetching ++ [Stdout [Lit "   Retrieved clocks for ";
                                Shown (VInt 0); Lit " drivers"]])
      | Returns (c :: cs) =>
          let t1 := fetching
                      ++ [Stdout [Lit "   Retrieved clocks for ";
                                  Shown (VInt (Z.of_nat (length (c :: cs))));
                                  Lit " drivers"]] in
          match Handler.analyze_and_alert fromisoformat isoformat http_post
                                          utcnow event cfg (c :: cs)
                                          (utcnow t1) t1 with
          | (Returns r, t') => (Returns r, t')
          | (Raises e, t') =>
              (Returns (Handler.mk_response 500
                          (Handler.Failure (exn_msg e))),
               t' ++ [Stdout [Lit newline; Lit "Error: "; Lit (exn_msg e)];
                      Traceback e])
          end
      end.
Proof.
  intros Htok Htruthy Hcfg fetching.
  unfold Handler.main.
    cbv [iobind emit lift try_io ret]. rewrite Htok. cbv beta iota.
    rewrite Htruthy. cbv [negb]. cbv beta iota. rewrite Hcfg. cbv beta iota.
    match goal with
    | |- context [get_hos_clocks ?X api_token _] =>
        lazymatch X with
        | fetching => fail
        | _ => replace X with fetching
            by (subst fetching; repeat rewrite <- app_assoc; reflexivity)
        end
    end.
    destruct (get_hos_clocks fetching api_token (Handler.driver_tag_ids cfg))
      as [[|c cs]|e].
    - reflexivity.
    - cbv zeta.
      destruct (Handler.analyze_and_alert _ _ _ _ _ _ _ _ _) as [[r|e] t'].
      + reflexivity.
      + rewrite <- app_assoc. reflexivity.
    - rewrite <- app_assoc. reflexivity.
Qed.

(** [main] once the token and the configuration are in hand: the three
    ways it goes on, by what the fetch gives. *)
Lemma main_after_config event context api_token cfg t :
  get context "samsara_api_token" VNone = Returns api_token ->
  truthy api_token = true ->
  Handler.get_config json_loads float_of_string environ event = Returns cfg ->
  exists d0,
    calls_in d0 = [] /\ sends_in d0 = [] /\ Paging.posts_in d0 = [] /\
    Handler.main fromisoformat isoformat json_loads float_of_string environ
                 http_post utcnow get_hos_clocks event context t
    = match get_hos_clocks (t ++ d0) api_token (Handler.driver_tag_ids cfg)
      with
      | Raises e =>
          (Returns (Handler.mk_response 500 (Handler.Failure (exn_msg e))),
           (t ++ d0) ++ [Stdout [Lit newline; Lit "Error: "; Lit (exn_msg e)];
                         Traceback e])
      | Returns [] =>
          (Returns (Handler.mk_response 200 Handler.NoDrivers),
           (t ++ d0) ++ [Stdout [Lit "   Retrieved clocks for ";
                                 Shown (VInt 0); Lit " drivers"]])
      | Returns (c :: cs) =>
          let t1 := (t ++ d0)
                      ++ [Stdout [Lit "   Retrieved clocks for ";
                                  Shown (VInt (Z.of_nat (length (c :: cs))));
                                  Lit " drivers"]] in
          match Handler.analyze_and_alert fromisoformat isoformat http_post
                                          utcnow event cfg (c :: cs)
                                          (utcnow t1) t1 with
          | (Returns r, t') => (Returns r, t')
          | (Raises e, t') =>
              (Returns (Handler.mk_response 500
                          (Handler.Failure (exn_msg e))),
               t' ++ [Stdout [Lit newline; Lit "Error: "; Lit (exn_msg e)];
                      Traceback e])
          end
      end.
Proof.
  intros Htok Htruthy Hcfg.
  exists [Stdout [Lit "Starting PC Duration Alert Monitor..."];
          Stdout [Lit "Configuration:"];
          Stdout [Lit "   - PC Threshold: ";
                  Shown (VFloat (Handler.pc_threshold_hours cfg));
                  Lit " hours"];
          Stdout [Lit "   - Driver Tag Filter: ";
                  Shown (py_or (Handler.driver_tag_ids cfg)
                               (VStr "All drivers"))];
          Stdout [Lit newline; Lit "Fetching HOS clocks..."]].
  repeat (split; [reflexivity|]).
  exact (main_at_fetch event context api_token cfg t Htok Htruthy Hcfg).
Qed.


(** Steps 2 to 5 when the analysis fails: nothing but the heading. *)
Lemma analyze_and_alert_fault event cfg clocks now t e :
  analyze_all_clocks fromisoformat (Handler.pc_threshold_hours cfg)
                     clocks now = Raises e ->
  Handler.analyze_and_alert fromisoformat isoformat http_post utcnow event
                            cfg clocks now t
  = (Raises e, t ++ [Stdout [Lit newline; Lit "Analyzing PC duration..."]]).
Proof.
  intros H. unfold Handler.analyze_and_alert.
  cbv [iobind emit lift]. rewrite H. reflexivity.
Qed.

(** Steps 2 to 5 when the analysis goes through. *)
Lemma analyze_and_alert_run event cfg clocks now t results :
  analyze_all_clocks fromisoformat (Handler.pc_threshold_hours cfg)
                     clocks now = Returns results ->
  exists delivery d,
    Handler.analyze_and_alert fromisoformat isoformat http_post utcnow event
                              cfg clocks now t
    = (match (b <- get event "body" (VDict []) ;;
              get b "include_all_pc_drivers" VNone) with
       | Returns detailed =>
           Returns
             (Handler.mk_response 200
                (Handler.Success
                   (Handler.summary_of (Handler.pc_threshold_hours cfg)
                                       clocks results)
                   (map (to_dict isoformat) (get_alerts results))
                   delivery
                   (if truthy detailed
                    then Some (map (to_dict isoformat)
                                   (filter is_currently_in_pc results))
                    else None)))
       | Raises e => Raises e
       end, t ++ d) /\
    sends_in d = map (to_dict isoformat) (get_alerts results) /\
    (truthy (Handler.webhook_url cfg) = false -> Paging.posts_in d = []) /\
    match delivery with
    | None => get_alerts results = []
    | Some s =>
        get_alerts results <> [] /\
        Alerting.total_alerts s = length (get_alerts results) /\
        length (Alerting.results s) = length (get_alerts results)
    end.
Proof.
  intros H. unfold Handler.analyze_and_alert. cbv zeta.
  unfold iobind at 1. unfold emit at 1.
  unfold iobind at 1. unfold lift at 1. rewrite H.
  unfold iobind at 1. unfold emit at 1.
  unfold iobind at 1. unfold emit at 1.
  set (t3 := ((t ++ _) ++ _) ++ _).
  set (cfg' := Alerting.mk_config _ _ _).
  assert (Ht3 : exists d3, t3 = t ++ d3 /\ sends_in d3 = [] /\
                           Paging.posts_in d3 = []).
  { subst t3. eexists. split; [repeat rewrite <- app_assoc; reflexivity|].
    split; reflexivity. }
  destruct Ht3 as (d3 & Ht3 & S3 & P3). clearbody t3. subst t3.
  assert (Hdel : exists delivery d4,
    (match get_alerts results with
     | [] => ret None
     | _ :: _ =>
         emit (Stdout [Lit newline; Lit "Sending alerts..."]) ;;
         sent <~ Alerting.send_bulk_alerts
                   http_post (fun t => isoformat (utcnow t)) cfg'
                   (map (to_dict isoformat) (get_alerts results)) ;;
         ret (Some sent)
     end) (t ++ d3) = (Returns delivery, (t ++ d3) ++ d4) /\
    sends_in d4 = map (to_dict isoformat) (get_alerts results) /\
    (truthy (Handler.webhook_url cfg) = false -> Paging.posts_in d4 = []) /\
    match delivery with
    | None => get_alerts results = []
    | Some s =>
        get_alerts results <> [] /\
        Alerting.total_alerts s = length (get_alerts results) /\
        length (Alerting.results s) = length (get_alerts results)
    end).
  { destruct (get_alerts results) as [|a rest] eqn:Ha.
    - exists None, []. unfold ret. rewrite app_nil_r. repeat split.
    - unfold iobind at 1. unfold emit at 1.
      unfold Alerting.send_bulk_alerts.
      set (payloads := map (to_dict isoformat) (a :: rest)).
      set (t4 := (t ++ d3) ++ _).
      destruct (send_bulk_alerts_loop_spec
                  http_post (fun t => isoformat (utcnow t)) cfg' payloads
                  (Alerting.mk_bulk (length payloads) 0 0 []) t4)
        as (rs & d & Hrun & Hsends & Hall).
      unfold iobind at 1. rewrite Hrun. unfold ret.
      eexists. eexists. split.
      { subst t4. rewrite <- app_assoc. reflexivity. }
      split; [simpl; exact Hsends|].
      split.
      { intros Hoff.
        destruct (send_bulk_alerts_loop_offline
                    http_post (fun t => isoformat (utcnow t)) cfg' Hoff
                    payloads (Alerting.mk_bulk (length payloads) 0 0 []) t4)
          as (d' & Hd' & Hposts).
        rewrite Hrun in Hd'. simpl in Hd'.
        apply app_inv_head in Hd'. subst d'. simpl. exact Hposts. }
      split; [discriminate|]. simpl.
      split.
      { subst payloads. simpl. now rewrite length_map. }
      apply Forall2_length in Hall. rewrite <- Hall.
      subst payloads. simpl. now rewrite length_map. }
  destruct Hdel as (delivery & d4 & Hdel & S4 & P4 & Hshape).
  unfold iobind at 1. rewrite Hdel.
  destruct (send_summary_run
              cfg'
              [("drivers_checked",
                VInt (Z.of_nat (Handler.drivers_checked
                   (Handler.summary_of (Handler.pc_threshold_hours cfg)
                                       clocks results))));
               ("drivers_in_pc",
                VInt (Z.of_nat (Handler.drivers_in_pc
                   (Handler.summary_of (Handler.pc_threshold_hours cfg)
                                       clocks results))));
               ("alerts_triggered",
                VInt (Z.of_nat (Handler.alerts_triggered
                   (Handler.summary_of (Handler.pc_threshold_hours cfg)
                                       clocks results))));
               ("threshold_hours",
                VFloat (Handler.threshold_hours
                   (Handler.summary_of (Handler.pc_threshold_hours cfg)
                                       clocks results)))]
              ((t ++ d3) ++ d4))
    as (d5 & Hsum & P5 & S5).
  unfold iobind at 1. unfold Handler.summary_dict. rewrite Hsum.
  exists delivery, (d3 ++ d4 ++ d5).
  split.
  { cbv [iobind lift ret bind].
    replace (t ++ d3 ++ d4 ++ d5) with (((t ++ d3) ++ d4) ++ d5)
      by (repeat rewrite <- app_assoc; reflexivity).
    destruct (get event "body" (VDict [])) as [b|e]; [|reflexivity].
    destruct (get b "include_all_pc_drivers" VNone); reflexivity. }
  split.
  { rewrite !sends_in_app, S3, S4, S5, app_nil_r. reflexivity. }
  split; [|exact Hshape].
  intros Hoff. rewrite !posts_in_app, P3, (P4 Hoff), P5. reflexivity.
Qed.

(** [main] without a usable token. *)
Lemma main_no_token event context api_token t :
  get context "samsara_api_token" VNone = Returns api_token ->
  truthy api_token = false ->
  Handler.main fromisoformat isoformat json_loads float_of_string environ
               http_post utcnow get_hos_clocks event context t
  = (Returns (Handler.mk_response 401
                (Handler.MissingToken
                   "Missing Samsara API token in context")),
     t ++ [Stdout [Lit "Starting PC Duration Alert Monitor..."]]).
Proof.
  intros Htok Hfalsy. unfold Handler.main.
  cbv [iobind emit lift ret]. rewrite Htok. cbv beta iota.
  rewrite Hfalsy. reflexivity.
Qed.

(** [main] when the configuration cannot be read. *)
Lemma main_config_fault event context api_token e t :
  get context "samsara_api_token" VNone = Returns api_token ->
  truthy api_token = true ->
  Handler.get_config json_loads float_of_string environ event = Raises e ->
  Handler.main fromisoformat isoformat json_loads float_of_string environ
               http_post utcnow get_hos_clocks event context t
  = (Raises e, t ++ [Stdout [Lit "Starting PC Duration Alert Monitor..."]]).
Proof.
  intros Htok Htruthy Hcfg. unfold Handler.main.
  cbv [iobind emit lift ret]. rewrite Htok. cbv beta iota.
  rewrite Htruthy. cbv [negb]. cbv beta iota. rewrite Hcfg. reflexivity.
Qed.

(** With token and configuration in hand [main] answers 200 or 500. *)
Lemma main_answers event context api_token cfg t :
  get context "samsara_api_token" VNone = Returns api_token ->
  truthy api_token = true ->
  Handler.get_config json_loads float_of_string environ event = Returns cfg ->
  exists resp,
    fst (Handler.main fromisoformat isoformat json_loads float_of_string
                      environ http_post utcnow get_hos_clocks event context t)
    = Returns resp /\
    ((Handler.statusCode resp = 200%Z /\
      (Handler.body resp = Handler.NoDrivers \/
       exists s alerts delivery detail,
         Handler.body resp = Handler.Success s alerts delivery detail)) \/
     (Handler.statusCode resp = 500%Z /\
      exists msg, Handler.body resp = Handler.Failure msg)).
Proof.
  intros Htok Htruthy Hcfg.
  destruct (main_after_config event context api_token cfg t Htok Htruthy Hcfg)
    as (d0 & _ & _ & _ & Hmain).
  rewrite Hmain. clear Hmain.
  destruct (get_hos_clocks _ _ _) as [[|c cs]|e].
  - eexists. split; [reflexivity|]. left. simpl. auto.
  - cbv zeta.
    destruct (Handler.analyze_and_alert _ _ _ _ _ _ _ _ _) as [[r|e] t']
      eqn:Hrun.
    + apply analyze_and_alert_returns in Hrun
        as (results & delivery & detail & _ & ->).
      eexists. split; [reflexivity|]. left. simpl. split; [reflexivity|].
      right. eauto.
    + eexists. split; [reflexivity|]. right. simpl. eauto.
  - eexists. split; [reflexivity|]. right. simpl. eauto.
Qed.

End MainFacts.

Section MainRuns.

Variable fromisoformat : string -> option datetime.
Variable isoformat : datetime -> string.
Variable json_loads : string -> option value.
Variable float_of_string : string -> option Q.
Variable environ : list (string * string).
Variable http_post : trace -> value -> value -> http_reply.
Variable utcnow : trace -> datetime.
Variable get_hos_clocks : trace -> value -> value -> result (list value).

(** Property X21.  [main] answers 401 exactly when the context carries no
    usable token: among the responses [main] returns for a context object,
    the status is 401 if and only if [samsara_api_token] is missing or
    falsy. *)
Theorem main_answers_401_iff_no_token
        (event : value) (context : list (string * value)) (t : trace)
        (resp : Handler.response) :
  fst (Handler.main fromisoformat isoformat json_loads float_of_string
                    environ http_post utcnow get_hos_clocks event
                    (VDict context) t)
  = Returns resp ->
  (Handler.statusCode resp = 401%Z <->
   truthy match assoc "samsara_api_token" context with
          | Some v => v
          | None => VNone
          end = false).
Proof.
  set (tok := match assoc "samsara_api_token" context with
              | Some v => v
              | None => VNone
              end).
  assert (Htok : get (VDict context) "samsara_api_token" VNone = Returns tok)
    by reflexivity.
  intros Hret. destruct (truthy tok) eqn:Htruthy.
  - split; [| discriminate]. intros H401.
    destruct (Handler.get_config json_loads float_of_string environ event)
      as [cfg|e] eqn:Hcfg.
    + destruct (main_answers fromisoformat isoformat json_loads
                  float_of_string environ http_post utcnow get_hos_clocks
                  event (VDict context) tok cfg t Htok Htruthy Hcfg)
        as (resp' & Hret' & Hcode).
      rewrite Hret in Hret'. inversion Hret'. subst resp'.
      destruct Hcode as [[Hc _]|[Hc _]]; rewrite Hc in H401; discriminate.
    + rewrite (main_config_fault fromisoformat isoformat json_loads
                 float_of_string environ http_post utcnow get_hos_clocks
                 event (VDict context) tok e t Htok Htruthy Hcfg) in Hret.
      discriminate.
  - rewrite (main_no_token fromisoformat isoformat json_loads
               float_of_string environ http_post utcnow get_hos_clocks
               event (VDict context) tok t Htok Htruthy) in Hret.
    inversion Hret. split; reflexivity.
Qed.

(** Property X22.  With a token in the context, the only exceptions that
    leave [main] are those of [get_config], which is called outside the
    [try]: [main] raises [e] if and only if [get_config] raises [e].  In
    particular a fault of the fetch, the analysis or the alerting never
    escapes. *)
Theorem main_raises_only_config_faults
        (event context api_token : value) (t : trace) (e : exn) :
  get context "samsara_api_token" VNone = Returns api_token ->
  truthy api_token = true ->
  (fst (Handler.main fromisoformat isoformat json_loads float_of_string
                     environ http_post utcnow get_hos_clocks event context t)
   = Raises e
   <-> Handler.get_config json_loads float_of_string environ event
       = Raises e).
Proof.
  intros Htok Htruthy.
  destruct (Handler.get_config json_loads float_of_string environ event)
    as [cfg|e'] eqn:Hcfg.
  - destruct (main_answers fromisoformat isoformat json_loads
                float_of_string environ http_post utcnow get_hos_clocks
                event context api_token cfg t Htok Htruthy Hcfg)
      as (resp & Hret & _).
    rewrite Hret. split; discriminate.
  - rewrite (main_config_fault fromisoformat isoformat json_loads
               float_of_string environ http_post utcnow get_hos_clocks
               event context api_token e' t Htok Htruthy Hcfg).
    simpl. split; intros H; inversion H; reflexivity.
Qed.

(** Property X23.  When the fetch yields no driver, [main] answers by
    what the fetch did and alerts nobody.  The fetch is made once the
    five opening lines are printed; if it raises there, the answer is 500
    with the text of that exception, and if it returns (an empty
    snapshot) the answer is 200 with the "no drivers" body.  In both
    cases no alert is handed to the alerter, no channel is entered and
    nothing is posted. *)
Theorem main_without_drivers_sends_nothing
        (event context api_token : value) (cfg : Handler.config) (t : trace) :
  get context "samsara_api_token" VNone = Returns api_token ->
  truthy api_token = true ->
  Handler.get_config json_loads float_of_string environ event = Returns cfg ->
  (forall t' clocks,
      get_hos_clocks t' api_token (Handler.driver_tag_ids cfg)
      = Returns clocks -> clocks = []) ->
  let fetching :=
    t ++ [Stdout [Lit "Starting PC Duration Alert Monitor..."];
          Stdout [Lit "Configuration:"];
          Stdout [Lit "   - PC Threshold: ";
                  Shown (VFloat (Handler.pc_threshold_hours cfg));
                  Lit " hours"];
          Stdout [Lit "   - Driver Tag Filter: ";
                  Shown (py_or (Handler.driver_tag_ids cfg)
                               (VStr "All drivers"))];
          Stdout [Lit newline; Lit "Fetching HOS clocks..."]] in
  exists d,
    Handler.main fromisoformat isoformat json_loads float_of_string environ
                 http_post utcnow get_hos_clocks event context t
    = (Returns
         match get_hos_clocks fetching api_token (Handler.driver_tag_ids cfg)
         with
         | Raises e => Handler.mk_response 500 (Handler.Failure (exn_msg e))
         | Returns _ => Handler.mk_response 200 Handler.NoDrivers
         end,
       t ++ d) /\
    sends_in d = [] /\ calls_in d = [] /\ Paging.posts_in d = [].
Proof.
  intros Htok Htruthy Hcfg Hnone fetching.
  pose proof (main_at_fetch fromisoformat isoformat json_loads
                float_of_string environ http_post utcnow get_hos_clocks
                event context api_token cfg t Htok Htruthy Hcfg) as Hmain.
  cbv zeta in Hmain. fold fetching in Hmain.
  rewrite Hmain. clear Hmain.
  destruct (get_hos_clocks fetching api_token (Handler.driver_tag_ids cfg))
    as [[|c cs]|e] eqn:Hfetch.
  - eexists. split; [subst fetching; rewrite <- app_assoc; reflexivity|].
    repeat split.
  - apply Hnone in Hfetch. discriminate.
  - eexists. split; [subst fetching; rewrite <- app_assoc; reflexivity|].
    repeat split.
Qed.

(** Property X24.  One record the analyzer cannot handle costs the whole
    run: when [analyze_all_clocks] raises on the snapshot, [main] answers
    500 with the text of the exception and no alert is sent for any
    driver of the snapshot. *)
Theorem main_analysis_fault_sends_nothing
        (event context api_token : value) (cfg : Handler.config)
        (clocks : list value) (e : exn) (t : trace) :
  get context "samsara_api_token" VNone = Returns api_token ->
  truthy api_token = true ->
  Handler.get_config json_loads float_of_string environ event = Returns cfg ->
  (forall t', get_hos_clocks t' api_token (Handler.driver_tag_ids cfg)
              = Returns clocks) ->
  (forall t', analyze_all_clocks fromisoformat
                                 (Handler.pc_threshold_hours cfg) clocks
                                 (utcnow t') = Raises e) ->
  exists d,
    Handler.main fromisoformat isoformat json_loads float_of_string environ
                 http_post utcnow get_hos_clocks event context t
    = (Returns (Handler.mk_response 500 (Handler.Failure (exn_msg e))),
       t ++ d) /\
    sends_in d = [] /\ calls_in d = [] /\ Paging.posts_in d = [].
Proof.
  intros Htok Htruthy Hcfg Hfetch Hfault.
  destruct (main_after_config fromisoformat isoformat json_loads
              float_of_string environ http_post utcnow get_hos_clocks
              event context api_token cfg t Htok Htruthy Hcfg)
    as (d0 & C0 & S0 & P0 & Hmain).
  rewrite Hmain, Hfetch. clear Hmain.
  destruct clocks as [|c cs].
  - specialize (Hfault []). discriminate.
  - cbv zeta. rewrite (analyze_and_alert_fault _ _ _ _ _ _ _ _ _ _ (Hfault _)).
    eexists. split; [repeat rewrite <- app_assoc; reflexivity|].
    rewrite sends_in_app, calls_in_app, posts_in_app, S0, C0, P0.
    repeat split.
Qed.

(** Property X25.  A successful run.  When the snapshot is non-empty, its
    analysis succeeds and the event body is an object (or is absent),
    [main] answers 200
    with the counts of the run, the violations as alert payloads, and the
    delivery report; every violation is handed to the alerter exactly
    once, in the order of the snapshot; the delivery report is absent
    exactly when there is no violation and otherwise counts one result per
    violation; without a webhook URL nothing is posted.  The list of all
    drivers in personal conveyance is included exactly when the body sets
    [include_all_pc_drivers]. *)
Theorem main_alerts_every_violation
        (event context api_token : value) (cfg : Handler.config)
        (body : list (string * value))
        (clocks : list value) (results : list PCAnalysisResult) (t : trace) :
  get context "samsara_api_token" VNone = Returns api_token ->
  truthy api_token = true ->
  Handler.get_config json_loads float_of_string environ event = Returns cfg ->
  get event "body" (VDict []) = Returns (VDict body) ->
  clocks <> [] ->
  (forall t', get_hos_clocks t' api_token (Handler.driver_tag_ids cfg)
              = Returns clocks) ->
  (forall t', analyze_all_clocks fromisoformat
                                 (Handler.pc_threshold_hours cfg) clocks
                                 (utcnow t') = Returns results) ->
  exists delivery d,
    Handler.main fromisoformat isoformat json_loads float_of_string environ
                 http_post utcnow get_hos_clocks event context t
    = (Returns
         (Handler.mk_response 200
            (Handler.Success
               (Handler.mk_summary
                  (length clocks)
                  (length (filter is_currently_in_pc results))
                  (length (get_alerts results))
                  (Handler.pc_threshold_hours cfg))
               (map (to_dict isoformat) (get_alerts results))
               delivery
               (if truthy match assoc "include_all_pc_drivers" body with
                          | Some v => v
                          | None => VNone
                          end
                then Some (map (to_dict isoformat)
                               (filter is_currently_in_pc results))
                else None))),
       t ++ d) /\
    sends_in d = map (to_dict isoformat) (get_alerts results) /\
    (truthy (Handler.webhook_url cfg) = false -> Paging.posts_in d = []) /\
    match delivery with
    | None => get_alerts results = []
    | Some s =>
        get_alerts results <> [] /\
        Alerting.total_alerts s = length (get_alerts results) /\
        length (Alerting.results s) = length (get_alerts results)
    end.
Proof.
  intros Htok Htruthy Hcfg Hbody Hsome Hfetch Hres.
  destruct (main_after_config fromisoformat isoformat json_loads
              float_of_string environ http_post utcnow get_hos_clocks
              event context api_token cfg t Htok Htruthy Hcfg)
    as (d0 & C0 & S0 & P0 & Hmain).
  rewrite Hmain, Hfetch. clear Hmain.
  destruct clocks as [|c cs]; [contradiction|]. cbv zeta.
  match goal with
  | |- context [Handler.analyze_and_alert _ _ _ _ _ _ _ ?now ?t1] =>
      destruct (analyze_and_alert_run fromisoformat isoformat http_post
                  utcnow event cfg (c :: cs) now t1 results (Hres _))
        as (delivery & d & Hrun & Hsends & Hposts & Hshape)
  end.
  rewrite Hrun, Hbody. cbn [Py.bind get].
  exists delivery. eexists.
  split; [repeat rewrite <- app_assoc; reflexivity|].
  split.
  { rewrite !sends_in_app, S0. simpl. exact Hsends. }
  split; [| exact Hshape].
  intros Hoff. rewrite !posts_in_app, P0, (Hposts Hoff). reflexivity.
Qed.

(** Property X26.  A body sent as a JSON string is accepted by
    [get_config] but not by [main]: after the analysis has run and every
    violation has been handed to the alerter, the lookup of
    [include_all_pc_drivers] on the string raises, and [main] answers 500
    although the alerts went out. *)
Theorem main_string_body_fails_after_alerting
        (event context api_token : value) (cfg : Handler.config)
        (body : string)
        (clocks : list value) (results : list PCAnalysisResult) (t : trace) :
  get context "samsara_api_token" VNone = Returns api_token ->
  truthy api_token = true ->
  Handler.get_config json_loads float_of_string environ event = Returns cfg ->
  get event "body" (VDict []) = Returns (VStr body) ->
  clocks <> [] ->
  (forall t', get_hos_clocks t' api_token (Handler.driver_tag_ids cfg)
              = Returns clocks) ->
  (forall t', analyze_all_clocks fromisoformat
                                 (Handler.pc_threshold_hours cfg) clocks
                                 (utcnow t') = Returns results) ->
  exists d,
    Handler.main fromisoformat isoformat json_loads float_of_string environ
                 http_post utcnow get_hos_clocks event context t
    = (Returns
         (Handler.mk_response 500
            (Handler.Failure "'str' object has no attribute 'get'")),
       t ++ d) /\
    sends_in d = map (to_dict isoformat) (get_alerts results).
Proof.
  intros Htok Htruthy Hcfg Hbody Hsome Hfetch Hres.
  destruct (main_after_config fromisoformat isoformat json_loads
              float_of_string environ http_post utcnow get_hos_clocks
              event context api_token cfg t Htok Htruthy Hcfg)
    as (d0 & C0 & S0 & P0 & Hmain).
  rewrite Hmain, Hfetch. clear Hmain.
  destruct clocks as [|c cs]; [contradiction|]. cbv zeta.
  match goal with
  | |- context [Handler.analyze_and_alert _ _ _ _ _ _ _ ?now ?t1] =>
      destruct (analyze_and_alert_run fromisoformat isoformat http_post
                  utcnow event cfg (c :: cs) now t1 results (Hres _))
        as (delivery & d & Hrun & Hsends & Hposts & Hshape)
  end.
  rewrite Hrun, Hbody. cbn [Py.bind get].
  eexists.
  split; [repeat rewrite <- app_assoc; reflexivity|].
  rewrite !sends_in_app, S0, Hsends. simpl. now rewrite app_nil_r.
Qed.

End MainRuns.

Lemma main_answers_401_iff_no_token_witness :
  Handler.statusCode
    (Handler.mk_response 401
       (Handler.MissingToken "Missing Samsara API token in context"))
  = 401%Z <->
  truthy match assoc "samsara_api_token" [("org", VStr "acme")] with
         | Some v => v
         | None => VNone
         end = false.
Proof.
  apply (main_answers_401_iff_no_token
           Samples.fromisoformat Samples.isoformat Samples.no_json
           (fun _ => None) [] Samples.post_ok Samples.clock_5pm
           (fun _ _ _ => Returns [Samples.bob_pc])
           (Samples.body_event []) [("org", VStr "acme")] []
           (Handler.mk_response 401
              (Handler.MissingToken "Missing Samsara API token in context"))).
  reflexivity.
Defined.

Lemma main_raises_only_config_faults_witness :
  fst (Handler.main
         Samples.fromisoformat Samples.isoformat Samples.no_json
         (fun _ => None) [("PC_THRESHOLD_HOURS", "sixteen")]
         Samples.post_ok Samples.clock_5pm
         (fun _ _ _ => Returns [Samples.bob_pc])
         (Samples.body_event []) (VDict [("samsara_api_token", VStr "tok")])
         [])
  = Raises (mk_exn ValueError "could not convert string to float: 'sixteen'")
  <-> Handler.get_config Samples.no_json (fun _ => None)
                         [("PC_THRESHOLD_HOURS", "sixteen")]
                         (Samples.body_event [])
      = Raises (mk_exn ValueError
                       "could not convert string to float: 'sixteen'").
Proof.
  apply (main_raises_only_config_faults
           Samples.fromisoformat Samples.isoformat Samples.no_json
           (fun _ => None) [("PC_THRESHOLD_HOURS", "sixteen")]
           Samples.post_ok Samples.clock_5pm
           (fun _ _ _ => Returns [Samples.bob_pc])
           (Samples.body_event []) (VDict [("samsara_api_token", VStr "tok")])
           (VStr "tok") []);
    reflexivity.
Defined.

Lemma main_without_drivers_sends_nothing_witness :
  exists d,
    Handler.main
      Samples.fromisoformat Samples.isoformat Samples.no_json
      (fun _ => None) [] Samples.post_ok Samples.clock_5pm
      (fun _ _ _ => Raises (mk_exn RequestException "401 Unauthorized"))
      (Samples.body_event []) (VDict [("samsara_api_token", VStr "tok")]) []
    = (Returns (Handler.mk_response 500
                  (Handler.Failure "401 Unauthorized")),
       [] ++ d) /\
    sends_in d = [] /\ calls_in d = [] /\ Paging.posts_in d = [].
Proof.
  apply (main_without_drivers_sends_nothing
           Samples.fromisoformat Samples.isoformat Samples.no_json
           (fun _ => None) [] Samples.post_ok Samples.clock_5pm
           (fun _ _ _ => Raises (mk_exn RequestException "401 Unauthorized"))
           (Samples.body_event []) (VDict [("samsara_api_token", VStr "tok")])
           (VStr "tok") Samples.defaults []).
  - reflexivity.
  - reflexivity.
  - reflexivity.
  - intros t' clocks H. discriminate H.
Defined.

Lemma main_analysis_fault_sends_nothing_witness :
  exists d,
    Handler.main
      Samples.fromisoformat Samples.isoformat Samples.no_json
      (fun _ => None) [] Samples.post_ok Samples.clock_5pm
      (fun _ _ _ => Returns [Samples.bob_pc; Samples.dee_pc_epoch])
      (Samples.body_event []) (VDict [("samsara_api_token", VStr "tok")]) []
    = (Returns (Handler.mk_response 500
                  (Handler.Failure
                     "'int' object has no attribute 'replace'")),
       [] ++ d) /\
    sends_in d = [] /\ calls_in d = [] /\ Paging.posts_in d = [].
Proof.
  apply (main_analysis_fault_sends_nothing
           Samples.fromisoformat Samples.isoformat Samples.no_json
           (fun _ => None) [] Samples.post_ok Samples.clock_5pm
           (fun _ _ _ => Returns [Samples.bob_pc; Samples.dee_pc_epoch])
           (Samples.body_event []) (VDict [("samsara_api_token", VStr "tok")])
           (VStr "tok") Samples.defaults
           [Samples.bob_pc; Samples.dee_pc_epoch]
           (mk_exn AttributeError "'int' object has no attribute 'replace'")
           []).
  - reflexivity.
  - reflexivity.
  - reflexivity.
  - intros t'. reflexivity.
  - intros t'. vm_compute. reflexivity.
Defined.

Lemma main_alerts_every_violation_witness :
  exists delivery d,
    Handler.main
      Samples.fromisoformat Samples.isoformat Samples.no_json
      (fun _ => None) [] Samples.post_ok Samples.clock_5pm
      (fun _ _ _ => Returns [Samples.ann_off_duty; Samples.bob_pc])
      (Samples.body_event []) (VDict [("samsara_api_token", VStr "tok")]) []
    = (Returns
         (Handler.mk_response 200
            (Handler.Success
               (Handler.mk_summary 2 1 1 16)
               [to_dict Samples.isoformat
                  (mk_result (VStr "d2") (VStr "Bob") true
                             17
                             (Some Samples.midnight) true 16)]
               delivery None)),
       [] ++ d) /\
    sends_in d
    = [to_dict Samples.isoformat
         (mk_result (VStr "d2") (VStr "Bob") true
                    17
                    (Some Samples.midnight) true 16)] /\
    (truthy VNone = false -> Paging.posts_in d = []) /\
    match delivery with
    | None => [mk_result (VStr "d2") (VStr "Bob") true
                         17
                         (Some Samples.midnight) true 16] = []
    | Some s =>
        [mk_result (VStr "d2") (VStr "Bob") true
                   17
                   (Some Samples.midnight) true 16] <> [] /\
        Alerting.total_alerts s = 1%nat /\
        length (Alerting.results s) = 1%nat
    end.
Proof.
  apply (main_alerts_every_violation
           Samples.fromisoformat Samples.isoformat Samples.no_json
           (fun _ => None) [] Samples.post_ok Samples.clock_5pm
           (fun _ _ _ => Returns [Samples.ann_off_duty; Samples.bob_pc])
           (Samples.body_event []) (VDict [("samsara_api_token", VStr "tok")])
           (VStr "tok") Samples.defaults []
           [Samples.ann_off_duty; Samples.bob_pc]
           [mk_result (VStr "d1") (VStr "Ann") false 0 None false 16;
            mk_result (VStr "d2") (VStr "Bob") true
                      17
                      (Some Samples.midnight) true 16]
           []).
  - reflexivity.
  - reflexivity.
  - reflexivity.
  - reflexivity.
  - discriminate.
  - intros t'. reflexivity.
  - intros t'. vm_compute. reflexivity.
Defined.

Lemma main_string_body_fails_after_alerting_witness :
  exists d,
    Handler.main
      Samples.fromisoformat Samples.isoformat Samples.no_json
      (fun _ => None) [] Samples.post_ok Samples.clock_5pm
      (fun _ _ _ => Returns [Samples.bob_pc])
      (VDict [("body", VStr "{}")])
      (VDict [("samsara_api_token", VStr "tok")]) []
    = (Returns
         (Handler.mk_response 500
            (Handler.Failure "'str' object has no attribute 'get'")),
       [] ++ d) /\
    sends_in d
    = [to_dict Samples.isoformat
         (mk_result (VStr "d2") (VStr "Bob") true
                    17
                    (Some Samples.midnight) true 16)].
Proof.
  apply (main_string_body_fails_after_alerting
           Samples.fromisoformat Samples.isoformat Samples.no_json
           (fun _ => None) [] Samples.post_ok Samples.clock_5pm
           (fun _ _ _ => Returns [Samples.bob_pc])
           (VDict [("body", VStr "{}")])
           (VDict [("samsara_api_token", VStr "tok")])
           (VStr "tok") Samples.defaults "{}"
           [Samples.bob_pc]
           [mk_result (VStr "d2") (VStr "Bob") true
                      17
                      (Some Samples.midnight) true 16]
           []).
  - reflexivity.
  - reflexivity.
  - reflexivity.
  - reflexivity.
  - discriminate.
  - intros t'. reflexivity.
  - intros t'. vm_compute. reflexivity.
Defined.

(* ===================================================================== *)
(** * The inline script as a whole                                        *)
(* ===================================================================== *)

Section InlineRuns.

Variable fromisoformat : string -> option datetime.
Variable fstring : list fragment -> string.
Variable th : Q.
Variable corr_id : value.
Variable now : datetime.

Lemma check_duration_alert driver start a :
  Entrypoint.check_duration fromisoformat driver start now th
  = Returns (Some a) ->
  Tally.inline_alert a.
Proof.
  unfold Entrypoint.check_duration, Tally.inline_alert.
  destruct (str_replace_Z start) as [s|]; simpl; [| discriminate].
  destruct (parse_iso fromisoformat s) as [started|]; simpl; [| discriminate].
  destruct (dt_sub now started) as [micros|]; simpl; [| discriminate].
  destruct (Qle_bool th _); [| discriminate].
  destruct (get driver "id" VNone) as [id|]; simpl; [| discriminate].
  destruct (get driver "name" VNone) as [name|]; simpl; [| discriminate].
  intros H. inversion H. eauto.
Qed.

(** The inline loop on records of the documented shape. *)
Lemma inline_loop_shaped clocks :
  forallb record_shaped clocks = true ->
  forall alerts n t,
  exists new d,
    Entrypoint.analyze_loop fromisoformat corr_id clocks now th alerts n t
    = (Returns (alerts ++ new,
                (n + length (filter Tally.has_pc_status clocks))%nat),
       t ++ d) /\
    Forall Tally.inline_alert new /\
    (length new <= length (filter Tally.has_pc_status clocks))%nat /\
    sends_in d = [] /\ calls_in d = [] /\ Paging.posts_in d = [].
Proof.
  induction clocks as [|clock rest IH]; intros Hshape alerts n t.
  - exists [], []. simpl. unfold ret.
    rewrite !app_nil_r, Nat.add_0_r.
    split; [reflexivity|]. split; [constructor|]. auto.
  - simpl in Hshape. apply andb_true_iff in Hshape as [Hc Hrest].
    specialize (IH Hrest).
    destruct clock as [ | | | | | |d]; try discriminate.
    simpl in Hc. apply andb_true_iff in Hc as [Hd Hs].
    assert (Hdd : exists dd,
               match assoc "driver" d with Some x => x | None => VDict [] end
               = VDict dd).
    { destruct (assoc "driver" d) as [[ | | | | | |dd]|];
        try discriminate; eauto. }
    assert (Hsd : exists sd,
               match assoc "currentDutyStatus" d with
               | Some x => x | None => VDict [] end = VDict sd /\
               duty_status_field (VDict d) "hosStatusType"
               = assoc "hosStatusType" sd).
    { unfold duty_status_field.
      destruct (assoc "currentDutyStatus" d) as [[ | | | | | |sd]|];
        try discriminate; eauto. }
    destruct Hdd as (dd & Hdd). destruct Hsd as (sd & Hsd & Hfield).
    rewrite (inline_unfold fromisoformat th corr_id now d dd sd rest
                           alerts n t Hdd Hsd).
    assert (Hpc : Tally.has_pc_status (VDict d)
                  = eq_str match assoc "hosStatusType" sd with
                           | Some x => x | None => VNone end
                           "personalConveyance").
    { unfold Tally.has_pc_status. rewrite Hfield.
      destruct (assoc "hosStatusType" sd); reflexivity. }
    cbn [filter]. rewrite Hpc.
    destruct (eq_str _ "personalConveyance").
    + cbv zeta. cbn [length].
      destruct (truthy _).
      * destruct (Entrypoint.check_duration _ _ _ _ _) as [[a|]|e] eqn:Hcheck.
        -- destruct (IH (alerts ++ [a]) (n + 1)%nat t)
             as (new & dl & Hrun & Hall & Hlen & S & C & P).
           exists (a :: new), dl. rewrite Hrun.
           split; [rewrite <- app_assoc, <- Nat.add_assoc; reflexivity|].
           split; [constructor;
                   [eapply check_duration_alert; eassumption | exact Hall]|].
           split; [simpl; lia|]. auto.
        -- destruct (IH alerts (n + 1)%nat t)
             as (new & dl & Hrun & Hall & Hlen & S & C & P).
           exists new, dl. rewrite Hrun.
           split; [rewrite <- Nat.add_assoc; reflexivity|].
           split; [exact Hall|]. split; [lia|]. auto.
        -- destruct (IH alerts (n + 1)%nat
                        (t ++ [Stdout [Shown corr_id; Lit " Parse error: ";
                                       Lit (exn_msg e)]]))
             as (new & dl & Hrun & Hall & Hlen & S & C & P).
           exists new. eexists. rewrite Hrun.
           split; [rewrite <- app_assoc, <- Nat.add_assoc; reflexivity|].
           split; [exact Hall|]. split; [lia|].
           simpl. auto.
      * destruct (IH alerts (n + 1)%nat t)
          as (new & dl & Hrun & Hall & Hlen & S & C & P).
        exists new, dl. rewrite Hrun.
        split; [rewrite <- Nat.add_assoc; reflexivity|].
        split; [exact Hall|]. split; [lia|]. auto.
    + destruct (IH alerts n t)
        as (new & dl & Hrun & Hall & Hlen & S & C & P).
      exists new, dl. rewrite Hrun. repeat split; assumption.
Qed.

Lemma inline_labels_return alerts :
  Forall Tally.inline_alert alerts ->
  exists labels,
    Entrypoint.violation_labels fstring alerts = Returns labels.
Proof.
  induction 1 as [|a alerts Ha Hall (labels & IH)]; simpl.
  - eauto.
  - destruct Ha as (id & name & hours & start & ->).
    simpl. rewrite IH. simpl. eauto.
Qed.

(** Property X27.  The inline script finishes on every snapshot of the
    documented shape: it returns a report whose [drivers_checked] is the
    size of the snapshot, whose [drivers_in_pc] is the number of records
    in personal conveyance, and whose alerts, one label each, are at most
    that many; a start time it cannot use costs that driver's alert only.
    The script only prints: it hands nothing to an alerter and posts
    nothing. *)
Theorem inline_report_on_shaped_records (clocks : list value) (t : trace) :
  forallb record_shaped clocks = true ->
  exists s alerts d,
    Entrypoint.analyze_and_report fromisoformat fstring corr_id clocks now
                                  th t
    = (Returns (Entrypoint.Report s alerts), t ++ d) /\
    Entrypoint.drivers_checked s = length clocks /\
    Entrypoint.drivers_in_pc s
    = length (filter Tally.has_pc_status clocks) /\
    Entrypoint.alerts_triggered s = length alerts /\
    (length alerts <= Entrypoint.drivers_in_pc s)%nat /\
    length (Entrypoint.drivers_in_violation s) = length alerts /\
    Forall Tally.inline_alert alerts /\
    sends_in d = [] /\ Paging.posts_in d = [].
Proof.
  intros Hshape. unfold Entrypoint.analyze_and_report.
  destruct (inline_loop_shaped clocks Hshape [] 0%nat t)
    as (alerts & d & Hrun & Hall & Hlen & S & C & P).
  simpl in Hrun.
  destruct (inline_labels_return alerts Hall) as (labels & Hlabels).
  assert (Hn : length labels = length alerts).
  { clear - Hlabels. revert labels Hlabels.
    induction alerts as [|a alerts IH]; simpl; intros labels H.
    - inversion H. reflexivity.
    - destruct (Entrypoint.violation_label fstring a); simpl in H;
        [| discriminate].
      destruct (Entrypoint.violation_labels fstring alerts); simpl in H;
        [| discriminate].
      inversion H. simpl. f_equal. apply IH. reflexivity. }
  unfold iobind at 1. rewrite Hrun. cbv zeta. cbn [fst snd].
  unfold iobind at 1. unfold lift at 1. rewrite Hlabels.
  eexists. exists alerts.
  destruct alerts as [|a rest]; cbv [iobind emit ret];
    (eexists; split; [repeat rewrite <- app_assoc; reflexivity|]);
    cbn [Entrypoint.drivers_checked Entrypoint.drivers_in_pc
         Entrypoint.alerts_triggered Entrypoint.drivers_in_violation];
    rewrite ?sends_in_app, ?posts_in_app, ?S, ?P;
    repeat split; auto.
Qed.

End InlineRuns.

Lemma inline_report_on_shaped_records_witness :
  exists s alerts d,
    Entrypoint.analyze_and_report
      Samples.fromisoformat Samples.fstring (VStr "c-1")
      [Samples.bob_pc; Samples.dee_pc_epoch; Samples.ann_off_duty]
      Samples.five_pm 16 []
    = (Returns (Entrypoint.Report s alerts), [] ++ d) /\
    Entrypoint.drivers_checked s = 3%nat /\
    Entrypoint.drivers_in_pc s = 2%nat /\
    Entrypoint.alerts_triggered s = length alerts /\
    (length alerts <= Entrypoint.drivers_in_pc s)%nat /\
    length (Entrypoint.drivers_in_violation s) = length alerts /\
    Forall Tally.inline_alert alerts /\
    sends_in d = [] /\ Paging.posts_in d = [].
Proof.
  apply (inline_report_on_shaped_records
           Samples.fromisoformat Samples.fstring 16 (VStr "c-1")
           Samples.five_pm
           [Samples.bob_pc; Samples.dee_pc_epoch; Samples.ann_off_duty] []).
  reflexivity.
Defined.

Section InlineMain.

Variable fromisoformat : string -> option datetime.
Variable float_of_string : string -> option Q.
Variable environ : list (string * string).
Variable fstring : list fragment -> string.
Variable utcnow : trace -> datetime.
Variable get_hos_clocks : trace -> value -> result (list value).

Lemma analyze_and_report_outcome corr_id clocks now th t o t' :
  Entrypoint.analyze_and_report fromisoformat fstring corr_id clocks now th t
  = (Returns o, t') ->
  exists s alerts, o = Entrypoint.Report s alerts.
Proof.
  unfold Entrypoint.analyze_and_report. intros H.
  apply iobind_returns in H as (found & t1 & _ & H). cbv zeta in H.
  apply iobind_returns in H as (labels & t2 & _ & H).
  apply iobind_returns in H as (? & t3 & _ & H).
  apply iobind_returns in H as (? & t4 & _ & H).
  unfold ret in H. inversion H. eauto.
Qed.

(** Property X28.  The inline script reports "No API key" exactly when
    none of its four sources has a truthy value: the secrets'
    [SAMSARA_API_KEY] and [SAMSARA_API_TOKEN], the event's [api_key] and
    the environment's [SAMSARA_API_KEY]. *)
Theorem inline_main_reports_missing_key
        (event secrets : list (string * value)) (corr_id : value)
        (t : trace) :
  (exists found,
      fst (Entrypoint.main_with_secrets
             fromisoformat float_of_string environ fstring utcnow
             get_hos_clocks (VDict event) corr_id (VDict secrets) t)
      = Returns (Entrypoint.NoApiKey found))
  <->
  (truthy (Tally.entry secrets "SAMSARA_API_KEY") = false /\
   truthy (Tally.entry secrets "SAMSARA_API_TOKEN") = false /\
   truthy (Tally.entry event "api_key") = false /\
   truthy (Handler.environ_get environ "SAMSARA_API_KEY" VNone) = false).
Proof.
  assert (Hgoes : forall api_token,
    ~ exists found,
        fst ((threshold <~ lift (Entrypoint.resolve_threshold
                                   float_of_string (VDict event)) ;;
              emit (Stdout [Shown corr_id; Lit " Threshold: ";
                            Shown (VFloat threshold); Lit " hours"]) ;;
              fetched <~ (fun t => (Returns (get_hos_clocks t api_token), t)) ;;
              match fetched with
              | Raises e =>
                  emit (Stdout [Shown corr_id; Lit " API error: ";
                                Lit (exn_msg e)]) ;;
                  ret (Entrypoint.ApiError (exn_msg e))
              | Returns clocks =>
                  emit (Stdout [Shown corr_id; Lit " Retrieved ";
                                Shown (VInt (Z.of_nat (length clocks)));
                                Lit " driver clocks"]) ;;
                  now <~ (fun t => (Returns (utcnow t), t)) ;;
                  Entrypoint.analyze_and_report
                    fromisoformat fstring corr_id clocks now threshold
              end) t)
        = Returns (Entrypoint.NoApiKey found)).
  { intros api_token (found & H).
    match type of H with
    | fst ?run = _ => destruct run as [r t'] eqn:Hrun
    end.
    simpl in H. subst r.
    apply iobind_returns in Hrun as (threshold & t1 & _ & Hrun).
    apply iobind_returns in Hrun as (? & t2 & _ & Hrun).
    apply iobind_returns in Hrun as (fetched & t3 & _ & Hrun).
    destruct fetched as [clocks|e].
    - apply iobind_returns in Hrun as (? & t4 & _ & Hrun).
      apply iobind_returns in Hrun as (now & t5 & _ & Hrun).
      apply analyze_and_report_outcome in Hrun as (s & alerts & Hrun).
      discriminate.
    - apply iobind_returns in Hrun as (? & t4 & _ & Hrun).
      unfold ret in Hrun. inversion Hrun. }
  unfold Tally.entry.
  destruct (truthy match assoc "SAMSARA_API_KEY" secrets with
                   | Some v => v | None => VNone end) eqn:K1;
  [| destruct (truthy match assoc "SAMSARA_API_TOKEN" secrets with
                      | Some v => v | None => VNone end) eqn:K2;
     [| destruct (truthy match assoc "api_key" event with
                         | Some v => v | None => VNone end) eqn:K3;
        [| destruct (truthy (Handler.environ_get environ "SAMSARA_API_KEY"
                                                 VNone)) eqn:K4 ]]];
  unfold Entrypoint.main_with_secrets;
  unfold iobind at 1; unfold lift at 1; unfold get at 1; cbv beta iota;
  unfold iobind at 1; unfold lift at 1; rewrite K1; cbv beta iota;
  try unfold get at 1;
  unfold iobind at 1; unfold lift at 1; rewrite ?K1, ?K2; cbv beta iota;
  try unfold get at 1; cbv beta iota; cbv zeta; rewrite ?K1, ?K2, ?K3, ?K4;
  cbv [negb]; cbv beta iota.
  - split; [intros H; exfalso; exact (Hgoes _ H)|].
    intros (H & _). discriminate.
  - split; [intros H; exfalso; exact (Hgoes _ H)|].
    intros (_ & H & _). discriminate.
  - split; [intros H; exfalso; exact (Hgoes _ H)|].
    intros (_ & _ & H & _). discriminate.
  - split; [intros H; exfalso; exact (Hgoes _ H)|].
    intros (_ & _ & _ & H). discriminate.
  - cbv [iobind emit lift ret Entrypoint.keys]. simpl. split; eauto.
Qed.

End InlineMain.

(** Property X29.  Step 1 of the inline script always goes on with an
    object: the secrets when [get_secrets] returned an object, and the
    empty object when it raised or returned anything else (a JSON array,
    string or number, on which [len] or [keys] fails inside the [try]).
    The credentials cache is the one [get_secrets] left, and one line is
    printed. *)
Theorem load_secrets_gives_a_dict
        (json_loads : string -> option value)
        (environ : list (string * string))
        (sts_client : result unit)
        (assume_role : string -> string -> result value)
        (ssm_client : value -> result unit)
        (get_parameter : value -> string -> result value)
        (corr_id : value) (cache : option value) (t : trace)
        (r : result value) (cache1 : option value) (t1 : trace) :
  Secrets.get_secrets environ json_loads sts_client assume_role ssm_client
                      get_parameter cache t
  = (r, cache1, t1) ->
  exists line,
    Entrypoint.load_secrets json_loads environ sts_client assume_role
                            ssm_client get_parameter corr_id cache t
    = (VDict match r with
             | Returns (VDict secrets) => secrets
             | _ => []
             end,
       cache1, t1 ++ [Stdout line]).
Proof.
  intros H. unfold Entrypoint.load_secrets. rewrite H.
  destruct r as [[ | | | | | |secrets]|e]; simpl; eauto.
Qed.

Lemma load_secrets_gives_a_dict_witness :
  exists line,
    Entrypoint.load_secrets
      (fun _ => Some (VList [VStr "SAMSARA_API_KEY"]))
      [("SamsaraFunctionSecretsPath", "/functions/pc-alert/secrets")]
      (Returns tt) (fun _ _ => Returns VNone) (fun _ => Returns tt)
      (fun _ _ => Returns (VDict [("Parameter",
                                   VDict [("Value", VStr "[...]")])]))
      (VStr "c-1") (Some (VDict [])) []
    = (VDict [], Some (VDict []), [] ++ [Stdout line]).
Proof.
  apply (load_secrets_gives_a_dict
           (fun _ => Some (VList [VStr "SAMSARA_API_KEY"]))
           [("SamsaraFunctionSecretsPath", "/functions/pc-alert/secrets")]
           (Returns tt) (fun _ _ => Returns VNone) (fun _ => Returns tt)
           (fun _ _ => Returns (VDict [("Parameter",
                                        VDict [("Value", VStr "[...]")])]))
           (VStr "c-1") (Some (VDict [])) []
           (Returns (VList [VStr "SAMSARA_API_KEY"])) (Some (VDict [])) []).
  reflexivity.
Defined.

(** Property X30.  The credentials are fetched once.  A call of
    [get_credentials] that returns leaves its result in the cache, and
    every later call without [force_refresh] returns that result without
    consulting STS or the environment, whatever they would answer.  A call
    that raises leaves the cache as it was, and that can only happen when
    the cache is empty or a refresh is forced. *)
Theorem get_credentials_reuses_the_cache
        (environ : list (string * string))
        (sts_client : result unit)
        (assume_role : string -> string -> result value)
        (force_refresh : bool) (cache : option value) (t : trace) :
  match Secrets.get_credentials environ sts_client assume_role
                                force_refresh cache t with
  | (Returns creds, cache1, t1) =>
      cache1 = Some creds /\ t1 = t /\
      forall environ' sts_client' assume_role' t',
        Secrets.get_credentials environ' sts_client' assume_role' false
                                cache1 t'
        = (Returns creds, cache1, t')
  | (Raises e, cache1, t1) =>
      cache1 = cache /\ t1 = t /\
      (force_refresh = true \/ cache = None)
  end.
Proof.
  unfold Secrets.get_credentials.
  destruct cache as [cached|], force_refresh;
    try (destruct (Secrets.assume_exec_role _ _ _) as [creds|e]);
    repeat split; auto.
Qed.
